(** * Session lifecycle tracker of the Pakistan vACC dashboard

    A shallow embedding of the session cache ([lib/cache.ts]), the roster
    helpers ([lib/roster.ts]), the live collector loop, the database
    ingest and backfill scripts, the cache synchroniser and the aggregate
    routes, followed by the properties checked against the written
    specification.

    Conventions of the embedding.
    - A timestamp is the epoch-millisecond value that [new Date(iso).getTime()]
      yields for the ISO string the program stores; every timestamp the
      program writes comes from [Date.prototype.toISOString], which [Date]
      parses back to the same millisecond.  [toISOString] below renders the
      string where the program needs its characters (ids, the [date] field).
    - A JS object used as a string-keyed dictionary is an association list
      in insertion order ([Object.entries] and [Object.values] enumerate
      non-numeric keys in that order); [Record<number, _>] is a [gmap Z].
    - Callsigns are ASCII (the feed classifier only lets ASCII through), so
      [toUpperCase] is the ASCII upper-casing.
    - [lastUpdated], a wall-clock stamp written by the save functions and
      read by no decision of the program, is left out of the caches. *)

From Stdlib Require Import ZArith List String Ascii Bool Lia DecimalString.
From stdpp Require Import gmap strings list.
Import ListNotations.

Local Open Scope Z_scope.

(** ** JavaScript string and number primitives *)

Module Js.

(** [String.prototype.toUpperCase] on ASCII text. *)
Definition upperChar (c : ascii) : ascii :=
  let n := nat_of_ascii c in
  if ((97 <=? n)%nat && (n <=? 122)%nat)%bool then ascii_of_nat (n - 32) else c.

Fixpoint toUpperCase (s : string) : string :=
  match s with
  | EmptyString => EmptyString
  | String c r => String (upperChar c) (toUpperCase r)
  end.

(** [String.prototype.toLowerCase] on ASCII text. *)
Definition lowerChar (c : ascii) : ascii :=
  let n := nat_of_ascii c in
  if ((65 <=? n)%nat && (n <=? 90)%nat)%bool then ascii_of_nat (n + 32) else c.

Fixpoint toLowerCase (s : string) : string :=
  match s with
  | EmptyString => EmptyString
  | String c r => String (lowerChar c) (toLowerCase r)
  end.

(** [s.endsWith(suffix)]. *)
Definition endsWith (s suffix : string) : bool :=
  let n := String.length s in
  let m := String.length suffix in
  ((m <=? n)%nat && String.eqb (String.substring (n - m) m s) suffix)%bool.

(** [s.startsWith(p)]. *)
Definition startsWith (s p : string) : bool := String.prefix p s.

(** [s.slice(0, n)] for [0 <= n]. *)
Definition slice0 (n : nat) (s : string) : string := String.substring 0 n s.

(** Truthiness of a number ([if (cid)]): everything but zero. *)
Definition truthy (n : Z) : bool := negb (n =? 0).

(** Truthiness of a string: everything but the empty string. *)
Definition truthyStr (s : string) : bool := negb (String.eqb s "").

(** [Math.round(ms / 60000)]: rounding to the nearest integer, halves
    upwards.  On the integers below 2^53 the floating-point quotient rounds
    to the same integer as this floor. *)
Definition roundMinutes (ms : Z) : Z := (ms + 30000) / 60000.

(** Decimal digits, zero padded on the left to [width] characters
    ([padStart(width, "0")] of a number that fits). *)
Definition digitChar (d : Z) : ascii := ascii_of_nat (48 + Z.to_nat d).

Fixpoint padDigits (width : nat) (n : Z) (acc : string) : string :=
  match width with
  | O => acc
  | S w => padDigits w (n / 10) (String (digitChar (n mod 10)) acc)
  end.

Definition pad (width : nat) (n : Z) : string := padDigits width n "".

(** Proleptic Gregorian date of a day count since 1970-01-01. *)
Definition civilFromDays (days : Z) : Z * Z * Z :=
  let z := days + 719468 in
  let era := z / 146097 in
  let doe := z - era * 146097 in
  let yoe := (doe - doe / 1460 + doe / 36524 - doe / 146096) / 365 in
  let doy := doe - (365 * yoe + yoe / 4 - yoe / 100) in
  let mp := (5 * doy + 2) / 153 in
  let d := doy - (153 * mp + 2) / 5 + 1 in
  let m := if mp <? 10 then mp + 3 else mp - 9 in
  let y := yoe + era * 400 + (if m <=? 2 then 1 else 0) in
  (y, m, d).

(** [new Date(ms).toISOString()] for the years 0000 to 9999:
    [YYYY-MM-DDTHH:mm:ss.sssZ]. *)
Definition toISOString (ms : Z) : string :=
  let days := ms / 86400000 in
  let rest := ms mod 86400000 in
  let '(y, m, d) := civilFromDays days in
  pad 4 y +:+ "-" +:+ pad 2 m +:+ "-" +:+ pad 2 d +:+ "T" +:+
  pad 2 (rest / 3600000) +:+ ":" +:+ pad 2 (rest / 60000 mod 60) +:+ ":" +:+
  pad 2 (rest / 1000 mod 60) +:+ "." +:+ pad 3 (rest mod 1000) +:+ "Z".

End Js.

(** The pseudo-session test written at every site of the program:
    [callsign.toUpperCase().endsWith("_ATIS")]. *)
Definition isAtis (callsign : string) : bool :=
  Js.endsWith (Js.toUpperCase callsign) "_ATIS".

(** ** Data model of [lib/cache.ts] *)

Inductive SessionType := Controller | Pilot.

Global Instance SessionType_eq_dec : EqDecision SessionType.
Proof. solve_decision. Defined.

Definition isController (t : SessionType) : bool :=
  match t with Controller => true | Pilot => false end.

(** [interface CachedSession]. *)
Record CachedSession := mkCached {
  cs_id : string;
  cs_type : SessionType;
  cs_cid : Z;
  cs_name : string;
  cs_callsign : string;
  cs_frequency : option string;
  cs_facility : option string;
  cs_departure : option string;
  cs_arrival : option string;
  cs_aircraft : option string;
  cs_startTime : Z;
  cs_lastSeen : Z
}.

(** [interface HistoricalSession]. *)
Record HistoricalSession := mkHistorical {
  hs_id : string;
  hs_type : SessionType;
  hs_cid : Z;
  hs_name : string;
  hs_callsign : string;
  hs_frequency : option string;
  hs_facility : option string;
  hs_departure : option string;
  hs_arrival : option string;
  hs_aircraft : option string;
  hs_startTime : Z;
  hs_endTime : Z;
  hs_durationMinutes : Z;
  hs_date : string;
  hs_removedAt : option Z
}.

(** [HistoryCache.stats]. *)
Record Stats := mkStats {
  totalControllerMinutes : Z;
  totalPilotMinutes : Z;
  totalControllerSessions : Z;
  totalPilotSessions : Z
}.

(** [SessionCache.sessions]: a JS object keyed by session id. *)
Definition SessionMap := list (string * CachedSession).

(** [interface HistoryCache]. *)
Record HistoryCache := mkHistory {
  h_sessions : list HistoricalSession;
  h_stats : Stats
}.

(** The two cache files, [pk-sessions.json] and [pk-history.json]. *)
Record Store := mkStore {
  sessionCache : SessionMap;
  historyCache : HistoryCache
}.

(** [loadSessions()] and [loadHistory()] when the file is absent. *)
Definition emptyStats : Stats := mkStats 0 0 0 0.
Definition emptyHistory : HistoryCache := mkHistory [] emptyStats.
Definition emptyStore : Store := mkStore [] emptyHistory.

(** *** The session object *)

(** [sessions[id]]. *)
Fixpoint getSession (id : string) (m : SessionMap) : option CachedSession :=
  match m with
  | [] => None
  | (k, s) :: r => if String.eqb k id then Some s else getSession id r
  end.

(** [sessions[id] = s] for an [id] that is not a key yet: a new property
    goes last in the enumeration order. *)
Definition addSession (id : string) (s : CachedSession) (m : SessionMap) : SessionMap :=
  m ++ [(id, s)].

Definition withLastSeen (now : Z) (s : CachedSession) : CachedSession :=
  mkCached (cs_id s) (cs_type s) (cs_cid s) (cs_name s) (cs_callsign s)
           (cs_frequency s) (cs_facility s) (cs_departure s) (cs_arrival s)
           (cs_aircraft s) (cs_startTime s) now.

(** [sessions[id].lastSeen = nowIso]. *)
Definition touchSession (id : string) (now : Z) (m : SessionMap) : SessionMap :=
  map (fun e => if String.eqb (fst e) id then (fst e, withLastSeen now (snd e)) else e) m.

(** [delete sessions[id]]. *)
Definition deleteSession (id : string) (m : SessionMap) : SessionMap :=
  List.filter (fun e => negb (String.eqb (fst e) id)) m.

Definition sessionKeys (m : SessionMap) : list string := map fst m.


(** ** The reconciliation cycle, [updateSessions] of [lib/cache.ts] *)

(** One classified controller of the snapshot. *)
Record ControllerEntry := mkControllerEntry {
  c_cid : Z;
  c_name : string;
  c_callsign : string;
  c_frequency : string;
  c_facility : string
}.

(** One classified pilot of the snapshot. *)
Record PilotEntry := mkPilotEntry {
  p_cid : Z;
  p_name : string;
  p_callsign : string;
  p_departure : string;
  p_arrival : string;
  p_aircraft : string
}.

(** The entries of [added]: a bare message for a controller, a message with
    a timestamp for a pilot. *)
Inductive AddedEvent :=
| AddedController (message : string)
| AddedPilot (message : string) (timestamp : Z).

(** The calls into [lib/roster.ts] that a cycle fires without awaiting
    them. *)
Inductive RosterSource := Manual | AutoDetected.

Inductive RosterCall :=
| AddMemberToRoster (cid : Z) (source : RosterSource)
| UpdateMemberFromLive (cid : Z) (name callsign : string)
| UpdateMemberLastSeen (cid : Z) (callsign : string)
| UpdateMemberStats (cid : Z) (type : SessionType) (minutes : Z) (callsign : option string).

Definition controllerKey (callsign : string) : string := "atc-" +:+ callsign.
Definition pilotKey (callsign : string) : string := "pilot-" +:+ callsign.

Definition sessionKey (t : SessionType) (callsign : string) : string :=
  match t with
  | Controller => controllerKey callsign
  | Pilot => pilotKey callsign
  end.

Definition whenTruthy {A} (cid : Z) (calls : list A) : list A :=
  if Js.truthy cid then calls else [].

(** State of the two observation loops. *)
Record Observed := mkObserved {
  o_sessions : SessionMap;
  o_added : list AddedEvent;
  o_seenIds : gset string;
  o_roster : list RosterCall
}.

Definition newControllerSession (now : Z) (id : string) (c : ControllerEntry) : CachedSession :=
  {| cs_id := id; cs_type := Controller; cs_cid := c_cid c; cs_name := c_name c;
     cs_callsign := c_callsign c;
     cs_frequency := Some (c_frequency c); cs_facility := Some (c_facility c);
     cs_departure := None; cs_arrival := None; cs_aircraft := None;
     cs_startTime := now; cs_lastSeen := now |}.

Definition newPilotSession (now : Z) (id : string) (p : PilotEntry) : CachedSession :=
  {| cs_id := id; cs_type := Pilot; cs_cid := p_cid p; cs_name := p_name p;
     cs_callsign := p_callsign p;
     cs_frequency := None; cs_facility := None;
     cs_departure := Some (p_departure p); cs_arrival := Some (p_arrival p);
     cs_aircraft := Some (p_aircraft p);
     cs_startTime := now; cs_lastSeen := now |}.

(** Body of [for (const c of currentControllers)]. *)
Definition observeController (now : Z) (st : Observed) (c : ControllerEntry) : Observed :=
  let id := controllerKey (c_callsign c) in
  let seen := {[ id ]} ∪ o_seenIds st in
  match getSession id (o_sessions st) with
  | None =>
      {| o_sessions := addSession id (newControllerSession now id c) (o_sessions st);
         o_added := o_added st ++
           [AddedController ("🎧 " +:+ c_callsign c +:+ " (" +:+ c_name c +:+ ")")];
         o_seenIds := seen;
         o_roster := o_roster st ++
           whenTruthy (c_cid c) [AddMemberToRoster (c_cid c) AutoDetected] |}
  | Some _ =>
      {| o_sessions := touchSession id now (o_sessions st);
         o_added := o_added st;
         o_seenIds := seen;
         o_roster := o_roster st ++
           whenTruthy (c_cid c) [UpdateMemberFromLive (c_cid c) (c_name c) (c_callsign c)] |}
  end.

(** Body of [for (const p of currentPilots)]. *)
Definition observePilot (now : Z) (st : Observed) (p : PilotEntry) : Observed :=
  let id := pilotKey (p_callsign p) in
  let seen := {[ id ]} ∪ o_seenIds st in
  match getSession id (o_sessions st) with
  | None =>
      {| o_sessions := addSession id (newPilotSession now id p) (o_sessions st);
         o_added := o_added st ++
           [AddedPilot ("✈️ " +:+ p_callsign p +:+ " (" +:+ p_departure p +:+ "→" +:+
                        p_arrival p +:+ ")") now];
         o_seenIds := seen;
         o_roster := o_roster st ++
           whenTruthy (p_cid p) [AddMemberToRoster (p_cid p) AutoDetected] |}
  | Some _ =>
      {| o_sessions := touchSession id now (o_sessions st);
         o_added := o_added st;
         o_seenIds := seen;
         o_roster := o_roster st ++
           whenTruthy (p_cid p) [UpdateMemberLastSeen (p_cid p) (p_callsign p)] |}
  end.

(** Both observation loops, controllers first. *)
Definition observe (now : Z) (sessions : SessionMap)
    (currentControllers : list ControllerEntry) (currentPilots : list PilotEntry) : Observed :=
  fold_left (observePilot now) currentPilots
    (fold_left (observeController now) currentControllers
       (mkObserved sessions [] ∅ [])).

(** [const staleThreshold = 2 * 60 * 1000]. *)
Definition staleThreshold : Z := 2 * 60 * 1000.

(** [durationMinutes] of a session that ends at its last sighting. *)
Definition sessionMinutes (session : CachedSession) : Z :=
  Z.max 1 (Js.roundMinutes (cs_lastSeen session - cs_startTime session)).

(** The [historicalSession] literal. *)
Definition toHistorical (session : CachedSession) : HistoricalSession :=
  {| hs_id := cs_id session +:+ "-" +:+ Js.toISOString (cs_startTime session);
     hs_type := cs_type session;
     hs_cid := cs_cid session;
     hs_name := cs_name session;
     hs_callsign := cs_callsign session;
     hs_frequency := cs_frequency session;
     hs_facility := cs_facility session;
     hs_departure := cs_departure session;
     hs_arrival := cs_arrival session;
     hs_aircraft := cs_aircraft session;
     hs_startTime := cs_startTime session;
     hs_endTime := cs_lastSeen session;
     hs_durationMinutes := sessionMinutes session;
     hs_date := Js.slice0 10 (Js.toISOString (cs_startTime session));
     hs_removedAt := None |}.

(** [{ ...historicalSession, removedAt: nowIso }]. *)
Definition withRemovedAt (now : Z) (h : HistoricalSession) : HistoricalSession :=
  mkHistorical (hs_id h) (hs_type h) (hs_cid h) (hs_name h) (hs_callsign h)
    (hs_frequency h) (hs_facility h) (hs_departure h) (hs_arrival h) (hs_aircraft h)
    (hs_startTime h) (hs_endTime h) (hs_durationMinutes h) (hs_date h) (Some now).

(** The in-place counter update of a closure. *)
Definition bumpStats (st : Stats) (type : SessionType) (callsign : string)
    (durationMinutes : Z) : Stats :=
  match type with
  | Controller =>
      if negb (isAtis callsign) then
        mkStats (totalControllerMinutes st + durationMinutes) (totalPilotMinutes st)
                (totalControllerSessions st + 1) (totalPilotSessions st)
      else st
  | Pilot =>
      mkStats (totalControllerMinutes st) (totalPilotMinutes st + durationMinutes)
              (totalControllerSessions st) (totalPilotSessions st + 1)
  end.

(** The roster update of a closure. *)
Definition memberStatsCalls (session : CachedSession) (durationMinutes : Z) : list RosterCall :=
  whenTruthy (cs_cid session)
    match cs_type session with
    | Controller =>
        if negb (isAtis (cs_callsign session)) then
          [UpdateMemberStats (cs_cid session) Controller durationMinutes
             (Some (cs_callsign session))]
        else []
    | Pilot => [UpdateMemberStats (cs_cid session) Pilot durationMinutes None]
    end.

(** State of the eviction loop. *)
Record Sweep := mkSweep {
  sw_sessions : SessionMap;
  sw_history : list HistoricalSession;
  sw_stats : Stats;
  sw_removed : list HistoricalSession;
  sw_roster : list RosterCall;
  sw_dbSaves : list HistoricalSession
}.

(** The eviction test of one entry. *)
Definition isStale (now : Z) (seenIds : gset string) (e : string * CachedSession) : bool :=
  negb (bool_decide (fst e ∈ seenIds)) && (now - cs_lastSeen (snd e) >? staleThreshold).

(** Body of [for (const [id, session] of Object.entries(sessionCache.sessions))]. *)
Definition sweepEntry (now : Z) (seenIds : gset string) (st : Sweep)
    (e : string * CachedSession) : Sweep :=
  let id := fst e in
  let session := snd e in
  if isStale now seenIds e then
    let historicalSession := toHistorical session in
    let durationMinutes := hs_durationMinutes historicalSession in
    {| sw_sessions := deleteSession id (sw_sessions st);
       sw_history := historicalSession :: sw_history st;
       sw_stats := bumpStats (sw_stats st) (cs_type session) (cs_callsign session)
                     durationMinutes;
       sw_removed := sw_removed st ++ [withRemovedAt now historicalSession];
       sw_roster := sw_roster st ++ memberStatsCalls session durationMinutes;
       sw_dbSaves := sw_dbSaves st ++ [historicalSession] |}
  else st.

(** The retention bound of the history list. *)
Definition historyLimit : nat := 1000.

(** [if (sessions.length > 1000) sessions = sessions.slice(0, 1000)]. *)
Definition capHistory (l : list HistoricalSession) : list HistoricalSession :=
  if (historyLimit <? length l)%nat then firstn historyLimit l else l.

(** What a cycle leaves behind: the two saved caches, the returned [added]
    and [removed], and the requests fired at the roster and at
    [saveSessionToDatabase]. *)
Record UpdateResult := mkUpdateResult {
  u_store : Store;
  u_added : list AddedEvent;
  u_removed : list HistoricalSession;
  u_roster : list RosterCall;
  u_dbSaves : list HistoricalSession
}.

Definition updateSessions (store : Store) (now : Z)
    (currentControllers : list ControllerEntry) (currentPilots : list PilotEntry)
    : UpdateResult :=
  let ob := observe now (sessionCache store) currentControllers currentPilots in
  let sw := fold_left (sweepEntry now (o_seenIds ob)) (o_sessions ob)
              (mkSweep (o_sessions ob) (h_sessions (historyCache store))
                       (h_stats (historyCache store)) [] (o_roster ob) []) in
  {| u_store := mkStore (sw_sessions sw) (mkHistory (capHistory (sw_history sw)) (sw_stats sw));
     u_added := o_added ob;
     u_removed := sw_removed sw;
     u_roster := sw_roster sw;
     u_dbSaves := sw_dbSaves sw |}.

(** ** The relational store *)

(** Data of a [ControllerSession] row. *)
Record ControllerSessionRow := mkControllerRow {
  cr_cid : option Z;
  cr_callsign : string;
  cr_name : option string;
  cr_fir : option string;
  cr_start : Z;
  cr_end : Z;
  cr_minutes : Z
}.

(** Data of a [PilotSession] row. *)
Record PilotSessionRow := mkPilotRow {
  pr_cid : option Z;
  pr_callsign : string;
  pr_name : option string;
  pr_dep : option string;
  pr_arr : option string;
  pr_aircraft : option string;
  pr_fir : option string;
  pr_inPakistan : bool;
  pr_start : Z;
  pr_end : Z;
  pr_minutes : Z
}.

(** The two [create] calls of the program. *)
Inductive DbInsert :=
| InsertController (row : ControllerSessionRow)
| InsertPilot (row : PilotSessionRow).

Definition ins_start (i : DbInsert) : Z :=
  match i with InsertController r => cr_start r | InsertPilot r => pr_start r end.
Definition ins_end (i : DbInsert) : Z :=
  match i with InsertController r => cr_end r | InsertPilot r => pr_end r end.
Definition ins_minutes (i : DbInsert) : Z :=
  match i with InsertController r => cr_minutes r | InsertPilot r => pr_minutes r end.

(** [x || null] on a number and on an optional string. *)
Definition numOrNull (n : Z) : option Z := if Js.truthy n then Some n else None.
Definition strOrNull (s : option string) : option string :=
  match s with
  | Some v => if Js.truthyStr v then Some v else None
  | None => None
  end.

(** [cs.startsWith("OPKR_") ? "OPKR" : cs.startsWith("OPLR_") ? "OPLR" : null]. *)
Definition inferFIR (cs : string) : option string :=
  if Js.startsWith cs "OPKR_" then Some "OPKR"
  else if Js.startsWith cs "OPLR_" then Some "OPLR" else None.

(** What [saveSessionToDatabase] finds: whether [DATABASE_URL] is set and
    whether [prisma.$connect()] succeeds. *)
Record DbEnv := mkDbEnv {
  databaseUrl : bool;
  connectOk : bool
}.

(** [(departure?.startsWith("OP") || arrival?.startsWith("OP")) ?? false]. *)
Definition inPakistanOf (departure arrival : option string) : bool :=
  match departure with
  | Some d => if Js.startsWith d "OP" then true
              else match arrival with Some a => Js.startsWith a "OP" | None => false end
  | None => match arrival with Some a => Js.startsWith a "OP" | None => false end
  end.

(** [saveSessionToDatabase]: the insert it issues, if any.  A failing
    [create] is caught and logged; the request is issued all the same. *)
Definition saveSessionToDatabase (env : DbEnv) (session : HistoricalSession)
    : option DbInsert :=
  if negb (databaseUrl env) then None
  else if negb (connectOk env) then None
  else match hs_type session with
       | Controller =>
           if isAtis (hs_callsign session) then None
           else Some (InsertController
                  {| cr_cid := numOrNull (hs_cid session);
                     cr_callsign := hs_callsign session;
                     cr_name := None;
                     cr_fir := inferFIR (hs_callsign session);
                     cr_start := hs_startTime session;
                     cr_end := hs_endTime session;
                     cr_minutes := hs_durationMinutes session |})
       | Pilot =>
           Some (InsertPilot
                  {| pr_cid := numOrNull (hs_cid session);
                     pr_callsign := hs_callsign session;
                     pr_name := strOrNull (Some (hs_name session));
                     pr_dep := strOrNull (hs_departure session);
                     pr_arr := strOrNull (hs_arrival session);
                     pr_aircraft := strOrNull (hs_aircraft session);
                     pr_fir := None;
                     pr_inPakistan := inPakistanOf (hs_departure session) (hs_arrival session);
                     pr_start := hs_startTime session;
                     pr_end := hs_endTime session;
                     pr_minutes := hs_durationMinutes session |})
       end.

(** The inserts that reach the relational store from the saves a cycle
    fires. *)
Definition dbWrites (env : DbEnv) (saves : list HistoricalSession) : list DbInsert :=
  flat_map (fun h => match saveSessionToDatabase env h with
                     | Some i => [i]
                     | None => []
                     end) saves.

(** ** The database ingest script, closing phase of its [runOnce] *)

Inductive Role := ATC | PILOT.

(** A row of the [OpenSession] table. *)
Record OpenSessionRow := mkOpenRow {
  os_id : Z;
  os_role : Role;
  os_callsign : string;
  os_cid : option Z;
  os_fir : option string;
  os_dep : option string;
  os_arr : option string;
  os_inPakistan : bool;
  os_startedAt : Z;
  os_lastSeenAt : Z
}.

(** [Math.max(1, Math.round((+end - +s.startedAt) / 60000))] with
    [end = s.lastSeenAt]. *)
Definition openMinutes (s : OpenSessionRow) : Z :=
  Z.max 1 (Js.roundMinutes (os_lastSeenAt s - os_startedAt s)).

(** The [create] of one stale row. *)
Definition closeOpenSession (s : OpenSessionRow) : DbInsert :=
  match os_role s with
  | ATC =>
      InsertController
        {| cr_cid := os_cid s; cr_callsign := os_callsign s; cr_name := None;
           cr_fir := os_fir s; cr_start := os_startedAt s; cr_end := os_lastSeenAt s;
           cr_minutes := openMinutes s |}
  | PILOT =>
      InsertPilot
        {| pr_cid := os_cid s; pr_callsign := os_callsign s; pr_name := None;
           pr_dep := os_dep s; pr_arr := os_arr s; pr_aircraft := None;
           pr_fir := os_fir s; pr_inPakistan := os_inPakistan s;
           pr_start := os_startedAt s; pr_end := os_lastSeenAt s;
           pr_minutes := openMinutes s |}
  end.

(** [// Close stale (>3 minutes)]: the rows last seen before the cutoff are
    written as closed sessions and deleted by id.  Returns the inserts and
    the rows left in the table. *)
Definition closeStale (dateNow : Z) (openSessions : list OpenSessionRow)
    : list DbInsert * list OpenSessionRow :=
  let cutoff := dateNow - 3 * 60 * 1000 in
  let stale := List.filter (fun s => os_lastSeenAt s <? cutoff) openSessions in
  (map closeOpenSession stale,
   List.filter (fun s => negb (existsb (fun x => os_id x =? os_id s) stale)) openSessions).

(** ** The backfill script *)

(** A [connection_id] of the ATC history API that passed the two filters. *)
Record Connection := mkConnection {
  conn_callsign : string;
  conn_start : Z;
  conn_end : Z;
  conn_vatsim_id : Z
}.

(** The row built by the [map] callback of [main]. *)
Definition backfillRow (x : Connection) : ControllerSessionRow :=
  {| cr_cid := numOrNull (conn_vatsim_id x);
     cr_callsign := conn_callsign x;
     cr_name := None;
     cr_fir := inferFIR (conn_callsign x);
     cr_start := conn_start x;
     cr_end := conn_end x;
     cr_minutes := Z.max 1 (Js.roundMinutes (conn_end x - conn_start x)) |}.

(** ** Recomputed totals *)

(** [s.type === "controller" && !s.callsign.toUpperCase().endsWith("_ATIS")]. *)
Definition countedController (s : HistoricalSession) : bool :=
  isController (hs_type s) && negb (isAtis (hs_callsign s)).

(** [s.type === "pilot"]. *)
Definition isPilotSession (s : HistoricalSession) : bool :=
  negb (isController (hs_type s)).

(** [.reduce((sum, s) => sum + s.durationMinutes, 0)]. *)
Definition sumMinutes (l : list HistoricalSession) : Z :=
  fold_left (fun sum s => sum + hs_durationMinutes s) l 0.

(** The totals of the history route ([GET /api/history]); the live and the
    status routes inline the two controller expressions. *)
Definition recalculatedControllerMinutes (sessions : list HistoricalSession) : Z :=
  sumMinutes (List.filter countedController sessions).
Definition recalculatedControllerSessions (sessions : list HistoricalSession) : Z :=
  Z.of_nat (length (List.filter countedController sessions)).
Definition recalculatedPilotMinutes (sessions : list HistoricalSession) : Z :=
  sumMinutes (List.filter isPilotSession sessions).
Definition recalculatedPilotSessions (sessions : list HistoricalSession) : Z :=
  Z.of_nat (length (List.filter isPilotSession sessions)).

(** The [historyCache.stats = { ... }] literal of the synchroniser. *)
Definition recalculateStats (sessions : list HistoricalSession) : Stats :=
  {| totalControllerMinutes := recalculatedControllerMinutes sessions;
     totalPilotMinutes := recalculatedPilotMinutes sessions;
     totalControllerSessions := recalculatedControllerSessions sessions;
     totalPilotSessions := recalculatedPilotSessions sessions |}.

(** ** The synchroniser, [syncDatabaseToCache] *)

(** The tables of the relational store. *)
Record Database := mkDatabase {
  controllerSessionTable : list ControllerSessionRow;
  pilotSessionTable : list PilotSessionRow;
  openSessionTable : list OpenSessionRow
}.

(** [orderBy: { key: "desc" }]: a stable insertion sort, so that rows with
    equal keys keep their table order. *)
Fixpoint insertDesc {A} (key : A -> Z) (x : A) (l : list A) : list A :=
  match l with
  | [] => [x]
  | y :: r => if key y <? key x then x :: y :: r else y :: insertDesc key x r
  end.

Definition orderByDesc {A} (key : A -> Z) (l : list A) : list A :=
  fold_left (fun acc x => insertDesc key x acc) l [].

(** [{ callsign: { not: { endsWith: "_ATIS" } } }]: the filter of the
    relational store compares characters as they are. *)
Definition notAtisRow (r : ControllerSessionRow) : bool :=
  negb (Js.endsWith (cr_callsign r) "_ATIS").

(** [session.cid || 0] and [session.name || "Unknown"]. *)
Definition cidOrZero (c : option Z) : Z := match c with Some v => v | None => 0 end.
Definition orUnknown (s : option string) : string :=
  match strOrNull s with Some v => v | None => "Unknown" end.

Definition controllerRowToHistorical (sessionId : string) (session : ControllerSessionRow)
    : HistoricalSession :=
  {| hs_id := sessionId; hs_type := Controller; hs_cid := cidOrZero (cr_cid session);
     hs_name := orUnknown (cr_name session); hs_callsign := cr_callsign session;
     hs_frequency := None; hs_facility := strOrNull (cr_fir session);
     hs_departure := None; hs_arrival := None; hs_aircraft := None;
     hs_startTime := cr_start session; hs_endTime := cr_end session;
     hs_durationMinutes := cr_minutes session;
     hs_date := Js.slice0 10 (Js.toISOString (cr_start session));
     hs_removedAt := None |}.

Definition pilotRowToHistorical (sessionId : string) (session : PilotSessionRow)
    : HistoricalSession :=
  {| hs_id := sessionId; hs_type := Pilot; hs_cid := cidOrZero (pr_cid session);
     hs_name := orUnknown (pr_name session); hs_callsign := pr_callsign session;
     hs_frequency := None; hs_facility := None;
     hs_departure := strOrNull (pr_dep session); hs_arrival := strOrNull (pr_arr session);
     hs_aircraft := strOrNull (pr_aircraft session);
     hs_startTime := pr_start session; hs_endTime := pr_end session;
     hs_durationMinutes := pr_minutes session;
     hs_date := Js.slice0 10 (Js.toISOString (pr_start session));
     hs_removedAt := None |}.

(** State of the two import loops. *)
Record Import := mkImport {
  im_sessions : list HistoricalSession;
  im_ids : gset string;
  im_added : nat;
  im_skipped : nat
}.

Definition importSession (sessionId : string) (h : HistoricalSession) (st : Import) : Import :=
  if bool_decide (sessionId ∈ im_ids st) then
    mkImport (im_sessions st) (im_ids st) (im_added st) (S (im_skipped st))
  else
    mkImport (h :: im_sessions st) ({[ sessionId ]} ∪ im_ids st) (S (im_added st))
             (im_skipped st).

Definition importController (st : Import) (session : ControllerSessionRow) : Import :=
  let sessionId := "atc-" +:+ cr_callsign session +:+ "-" +:+ Js.toISOString (cr_start session) in
  importSession sessionId (controllerRowToHistorical sessionId session) st.

Definition importPilot (st : Import) (session : PilotSessionRow) : Import :=
  let sessionId := "pilot-" +:+ pr_callsign session +:+ "-" +:+ Js.toISOString (pr_start session) in
  importSession sessionId (pilotRowToHistorical sessionId session) st.

(** The history list after the two import loops, before the cap. *)
Definition importedHistory (db : Database) (history : list HistoricalSession)
    : list HistoricalSession :=
  let controllerSessions :=
    orderByDesc cr_start (List.filter notAtisRow (controllerSessionTable db)) in
  let pilotSessions := orderByDesc pr_start (pilotSessionTable db) in
  let st0 := mkImport history (list_to_set (map hs_id history)) 0 0 in
  let st1 := fold_left importController controllerSessions st0 in
  let st2 := fold_left importPilot pilotSessions (mkImport (im_sessions st1) (im_ids st1) 0 0) in
  im_sessions st2.

(** The upsert of one [OpenSession] row into the session cache. *)
Definition importOpen (m : SessionMap) (session : OpenSessionRow) : SessionMap :=
  match os_role session with
  | ATC =>
      let id := controllerKey (os_callsign session) in
      match getSession id m with
      | None =>
          addSession id
            {| cs_id := id; cs_type := Controller; cs_cid := cidOrZero (os_cid session);
               cs_name := "Unknown"; cs_callsign := os_callsign session;
               cs_frequency := None; cs_facility := strOrNull (os_fir session);
               cs_departure := None; cs_arrival := None; cs_aircraft := None;
               cs_startTime := os_startedAt session; cs_lastSeen := os_lastSeenAt session |} m
      | Some _ => touchSession id (os_lastSeenAt session) m
      end
  | PILOT =>
      let id := pilotKey (os_callsign session) in
      match getSession id m with
      | None =>
          addSession id
            {| cs_id := id; cs_type := Pilot; cs_cid := cidOrZero (os_cid session);
               cs_name := "Unknown"; cs_callsign := os_callsign session;
               cs_frequency := None; cs_facility := None;
               cs_departure := strOrNull (os_dep session);
               cs_arrival := strOrNull (os_arr session); cs_aircraft := None;
               cs_startTime := os_startedAt session; cs_lastSeen := os_lastSeenAt session |} m
      | Some _ => touchSession id (os_lastSeenAt session) m
      end
  end.

(** [syncDatabaseToCache]: [None] for the database stands for a failing
    [prisma.$connect()], on which the script returns at once. *)
Definition syncDatabaseToCache (db : option Database) (store : Store) : Store :=
  match db with
  | None => store
  | Some d =>
      let sessions := importedHistory d (h_sessions (historyCache store)) in
      let stats := recalculateStats sessions in
      {| sessionCache :=
           fold_left importOpen (orderByDesc os_lastSeenAt (openSessionTable d))
             (sessionCache store);
         historyCache := mkHistory (capHistory sessions) stats |}
  end.

(** ** The aggregator, [getAggregatedStats] *)

Inductive GroupBy := Day | Week | Month | Year.

(** A value of [grouped]. *)
Record Bucket := mkBucket {
  controllerMinutes : Z;
  controllerSessions : Z;
  pilotMinutes : Z;
  pilotSessions : Z
}.

Definition zeroBucket : Bucket := mkBucket 0 0 0 0.

(** The counting branch of the loop body. *)
Definition addToBucket (session : HistoricalSession) (b : Bucket) : Bucket :=
  match hs_type session with
  | Controller =>
      if negb (isAtis (hs_callsign session)) then
        mkBucket (controllerMinutes b + hs_durationMinutes session)
                 (controllerSessions b + 1) (pilotMinutes b) (pilotSessions b)
      else b
  | Pilot =>
      mkBucket (controllerMinutes b) (controllerSessions b)
               (pilotMinutes b + hs_durationMinutes session) (pilotSessions b + 1)
  end.

(** [if (!grouped[period]) grouped[period] = zero], then the update of
    [grouped[period]]. *)
Fixpoint upsertBucket (period : string) (f : Bucket -> Bucket)
    (grouped : list (string * Bucket)) : list (string * Bucket) :=
  match grouped with
  | [] => [(period, f zeroBucket)]
  | (k, b) :: r =>
      if String.eqb k period then (k, f b) :: r
      else (k, b) :: upsertBucket period f r
  end.

(** [a.period.localeCompare(b.period) < 0]: the period keys are equal-length
    strings of digits and hyphens, which collate in character order. *)
Definition periodBefore (a b : string) : bool :=
  match String.compare a b with Lt => true | _ => false end.

(** [Array.prototype.sort] with that comparator: stable. *)
Fixpoint insertByPeriod (x : string * Bucket) (l : list (string * Bucket))
    : list (string * Bucket) :=
  match l with
  | [] => [x]
  | y :: r => if periodBefore (fst x) (fst y) then x :: y :: r
              else y :: insertByPeriod x r
  end.

Definition sortByPeriod (l : list (string * Bucket)) : list (string * Bucket) :=
  fold_left (fun acc x => insertByPeriod x acc) l [].

Section Aggregation.

(** The Monday of the week of a [YYYY-MM-DD] date, computed by the source
    with [getDay], [getDate] and [setDate] in the local time of the host. *)
Variable weekStart : string -> string.

(** The [switch (groupBy)]. *)
Definition periodOf (groupBy : GroupBy) (session : HistoricalSession) : string :=
  match groupBy with
  | Day => hs_date session
  | Week => weekStart (hs_date session)
  | Month => Js.slice0 7 (hs_date session)
  | Year => Js.slice0 4 (hs_date session)
  end.

(** [getAggregatedStats(groupBy)] on the loaded history: one
    [{ period, ...stats }] per period, ascending. *)
Definition getAggregatedStats (groupBy : GroupBy) (history : HistoryCache)
    : list (string * Bucket) :=
  sortByPeriod
    (fold_left (fun grouped session =>
                  upsertBucket (periodOf groupBy session) (addToBucket session) grouped)
               (h_sessions history) []).

End Aggregation.

(** ** The member detail route, [GET /api/member-sessions] *)

Inductive SessionSource := FromDatabase | FromCache | FromActive.

(** An element of [sessions]. *)
Record MemberSession := mkMemberSession {
  ms_callsign : string;
  ms_date : string;
  ms_startTime : Z;
  ms_endTime : Z;
  ms_minutes : Z;
  ms_fir : option string;
  ms_source : SessionSource
}.

(** [`${callsign}-${startTime}`]. *)
Definition memberSessionId (callsign : string) (startTime : Z) : string :=
  callsign +:+ "-" +:+ Js.toISOString startTime.

(** The accumulation of the route: the merged [sessions] (as they are before
    the sorts and groupings for display) and [totalMinutes].  The comments of
    the source read "Include ALL sessions including ATIS for the detail
    view".  [None] for the database: [DATABASE_URL] unset or the query
    failing. *)
Definition memberSessionTotals (db : option Database) (history : HistoryCache)
    (active : SessionMap) (now : Z) (cidNum : Z) : list MemberSession * Z :=
  let dbSessions :=
    match db with
    | Some d => orderByDesc cr_start
                  (List.filter (fun r => bool_decide (cr_cid r = Some cidNum))
                     (controllerSessionTable d))
    | None => []
    end in
  let sessions0 :=
    map (fun r => mkMemberSession (cr_callsign r) (Js.slice0 10 (Js.toISOString (cr_start r)))
                    (cr_start r) (cr_end r) (cr_minutes r) (cr_fir r) FromDatabase)
        dbSessions in
  let total0 := fold_left (fun sum r => sum + cr_minutes r) dbSessions 0 in
  let cacheIds : gset string :=
    list_to_set (map (fun x => memberSessionId (ms_callsign x) (ms_startTime x)) sessions0) in
  let cacheSessions :=
    List.filter (fun h => isController (hs_type h) && (hs_cid h =? cidNum))
      (h_sessions history) in
  let st1 :=
    fold_left (fun st h =>
      if bool_decide (memberSessionId (hs_callsign h) (hs_startTime h) ∈ cacheIds) then st
      else (fst st ++ [mkMemberSession (hs_callsign h) (hs_date h) (hs_startTime h)
                         (hs_endTime h) (hs_durationMinutes h) None FromCache],
            snd st + hs_durationMinutes h))
      cacheSessions (sessions0, total0) in
  fold_left (fun st session =>
      if isController (cs_type session) && (cs_cid session =? cidNum) then
        let sessionMinutes := Js.roundMinutes (now - cs_startTime session) in
        if bool_decide (memberSessionId (cs_callsign session) (cs_startTime session) ∈ cacheIds)
        then st
        else (fst st ++ [mkMemberSession (cs_callsign session)
                           (Js.slice0 10 (Js.toISOString (cs_startTime session)))
                           (cs_startTime session) now sessionMinutes None FromActive],
              snd st + sessionMinutes)
      else st)
    (map snd active) st1.

(** ** The roster, [lib/roster.ts] *)

(** [interface MemberInfo]. *)
Record MemberInfo := mkMember {
  mi_cid : Z;
  mi_name : option string;
  mi_rating : Z;
  mi_ratingName : string;
  mi_pilotRating : Z;
  mi_pilotRatingName : string;
  mi_subdivision : string;
  mi_division : string;
  mi_region : string;
  mi_registrationDate : string;
  mi_lastSeen : option Z;
  mi_lastCallsign : option string;
  mi_addedAt : Z;
  mi_source : RosterSource;
  mi_totalControllerMinutes : option Z;
  mi_totalPilotMinutes : option Z;
  mi_sessionsCount : option Z
}.

Definition setName (v : string) (m : MemberInfo) : MemberInfo :=
  let 'mkMember a _ c d e f g h i j k l mm n o p q := m in
  mkMember a (Some v) c d e f g h i j k l mm n o p q.

Definition setLastSeen (v : Z) (m : MemberInfo) : MemberInfo :=
  let 'mkMember a b c d e f g h i j _ l mm n o p q := m in
  mkMember a b c d e f g h i j (Some v) l mm n o p q.

Definition setLastCallsign (v : string) (m : MemberInfo) : MemberInfo :=
  let 'mkMember a b c d e f g h i j k _ mm n o p q := m in
  mkMember a b c d e f g h i j k (Some v) mm n o p q.

(** The rating, pilot rating and division fields taken over from a fetched
    profile. *)
Definition setProfile (info : MemberInfo) (m : MemberInfo) : MemberInfo :=
  let 'mkMember a b _ _ _ _ _ _ _ j k l mm n o p q := m in
  mkMember a b (mi_rating info) (mi_ratingName info) (mi_pilotRating info)
    (mi_pilotRatingName info) (mi_subdivision info) (mi_division info) (mi_region info)
    j k l mm n o p q.

Definition setSessionsCount (v : Z) (m : MemberInfo) : MemberInfo :=
  let 'mkMember a b c d e f g h i j k l mm n o p _ := m in
  mkMember a b c d e f g h i j k l mm n o p (Some v).

Definition setControllerMinutes (v : Z) (m : MemberInfo) : MemberInfo :=
  let 'mkMember a b c d e f g h i j k l mm n _ p q := m in
  mkMember a b c d e f g h i j k l mm n (Some v) p q.

Definition setPilotMinutes (v : Z) (m : MemberInfo) : MemberInfo :=
  let 'mkMember a b c d e f g h i j k l mm n o _ q := m in
  mkMember a b c d e f g h i j k l mm n o (Some v) q.

(** [x || 0] on an optional counter. *)
Definition orZero (x : option Z) : Z := match x with Some v => v | None => 0 end.

(** [String(cid)]. *)
Definition numberToString (n : Z) : string := NilZero.string_of_int (Z.to_int n).

(** [s.trim() === ""]. *)
Definition isWhite (c : ascii) : bool :=
  let n := nat_of_ascii c in ((n =? 32) || ((9 <=? n) && (n <=? 13)))%nat.

Fixpoint isBlank (s : string) : bool :=
  match s with
  | EmptyString => true
  | String c r => isWhite c && isBlank r
  end.

(** [name.match(/^(APP|TWR|GND|DEL|CTR|FSS|ATIS)$/i)]. *)
Definition isPositionName (name : string) : bool :=
  existsb (String.eqb (Js.toUpperCase name)) ["APP"; "TWR"; "GND"; "DEL"; "CTR"; "FSS"; "ATIS"].

(** [!member.name || member.name === "Not Tracked" || member.name === "Unknown"
    || member.name.trim() === ""]. *)
Definition nameMissing (name : option string) : bool :=
  match name with
  | None => true
  | Some v => negb (Js.truthyStr v) || String.eqb v "Not Tracked" || String.eqb v "Unknown"
              || isBlank v
  end.

(** [name && name !== String(cid) && !name.match(...)]. *)
Definition nameUsable (cid : Z) (name : string) : bool :=
  Js.truthyStr name && negb (String.eqb name (numberToString cid)) && negb (isPositionName name).

(** The test of the two cache loops of [findLastNonAtisCallsign]. *)
Definition nonAtisControllerOf (cid : Z) (type : SessionType) (sessionCid : Z)
    (callsign : string) : bool :=
  isController type && (sessionCid =? cid) && negb (isAtis callsign).

(** [findMany({ where: { cid, callsign: { not: { endsWith: "_ATIS" } } },
    orderBy: { start: "desc" }, take: 1 })]. *)
Definition lastNonAtisRows (cid : Z) (table : list ControllerSessionRow)
    : list ControllerSessionRow :=
  firstn 1 (orderByDesc cr_start
              (List.filter (fun r => bool_decide (cr_cid r = Some cid) && notAtisRow r) table)).

(** [findLastNonAtisCallsign(cid)]: the open sessions first, then the
    history, then the database.  [None] for the database: [DATABASE_URL]
    unset or the query failing. *)
Definition findLastNonAtisCallsign (sessions : SessionMap) (history : HistoryCache)
    (db : option Database) (cid : Z) : option string :=
  match List.find (fun s => nonAtisControllerOf cid (cs_type s) (cs_cid s) (cs_callsign s))
                  (map snd sessions) with
  | Some s => Some (cs_callsign s)
  | None =>
      match List.find (fun h => nonAtisControllerOf cid (hs_type h) (hs_cid h) (hs_callsign h))
                      (h_sessions history) with
      | Some h => Some (hs_callsign h)
      | None =>
          match db with
          | Some d =>
              match lastNonAtisRows cid (controllerSessionTable d) with
              | r :: _ => Some (cr_callsign r)
              | [] => None
              end
          | None => None
          end
      end
  end.

(** The [lastCallsign] step of [updateMemberFromLive]. *)
Definition liveLastCallsign (store : Store) (db : option Database) (cid : Z)
    (callsign : option string) (member : MemberInfo) : MemberInfo :=
  match callsign with
  | Some cs =>
      if Js.truthyStr cs && negb (isAtis cs) then setLastCallsign cs member
      else if Js.truthyStr cs && isAtis cs then
        match findLastNonAtisCallsign (sessionCache store) (historyCache store) db cid with
        | Some lastNonAtis =>
            if Js.truthyStr lastNonAtis then setLastCallsign lastNonAtis member else member
        | None => member
        end
      else member
  | None => member
  end.

(** The profile step of [updateMemberFromLive]; [fetched] is the [info] that
    [fetchMemberInfo(cid)] would return. *)
Definition liveProfile (fetched : option MemberInfo) (member : MemberInfo) : MemberInfo :=
  if String.eqb (mi_subdivision member) "PAK" then member
  else if String.eqb (mi_ratingName member) "Unknown" || (mi_rating member =? 0) then
    match fetched with
    | Some info =>
        let m := setProfile info member in
        match mi_name info with
        | Some n => if Js.truthyStr n && negb (String.eqb n "Not Tracked") then setName n m else m
        | None => m
        end
    | None => member
    end
  else member.

(** [updateMemberFromLive(cid, name, callsign)], one call taken on its own:
    the roster it loads, the caches and the database it consults, and the
    roster it saves. *)
Definition updateMemberFromLive (roster : gmap Z MemberInfo) (store : Store)
    (db : option Database) (fetched : option MemberInfo) (now : Z)
    (cid : Z) (name : string) (callsign : option string) : gmap Z MemberInfo :=
  match roster !! cid with
  | Some member =>
      let m1 := if nameMissing (mi_name member) && nameUsable cid name
                then setName name member else member in
      let m2 := setLastSeen now m1 in
      let m3 := liveLastCallsign store db cid callsign m2 in
      <[ cid := liveProfile fetched m3 ]> roster
  | None => roster
  end.

(** [updateMemberStats(cid, type, minutes, callsign)]. *)
Definition updateMemberStats (roster : gmap Z MemberInfo) (now : Z)
    (cid : Z) (type : SessionType) (minutes : Z) (callsign : option string)
    : gmap Z MemberInfo :=
  match roster !! cid with
  | Some member =>
      let m1 := setSessionsCount (orZero (mi_sessionsCount member) + 1)
                  (setLastSeen now member) in
      let m2 :=
        match type with
        | Controller =>
            let m := setControllerMinutes (orZero (mi_totalControllerMinutes m1) + minutes) m1 in
            match callsign with
            | Some cs => if Js.truthyStr cs && negb (isAtis cs) then setLastCallsign cs m else m
            | None => m
            end
        | Pilot => setPilotMinutes (orZero (mi_totalPilotMinutes m1) + minutes) m1
        end in
      <[ cid := m2 ]> roster
  | None => roster
  end.

(** [updateMemberLastSeen(cid, callsign)]. *)
Definition updateMemberLastSeen (roster : gmap Z MemberInfo) (now : Z)
    (cid : Z) (callsign : option string) : gmap Z MemberInfo :=
  match roster !! cid with
  | Some member =>
      let m1 := setLastSeen now member in
      <[ cid := match callsign with
                | Some cs => if Js.truthyStr cs && negb (isAtis cs)
                             then setLastCallsign cs m1 else m1
                | None => m1
                end ]> roster
  | None => roster
  end.

(** ** The live collector *)

(** What can throw inside the [try] of [runOnce]: loading the FIR
    boundaries, fetching the feed (error or timeout), updating the caches. *)
Inductive CycleFault := FirLoadFailed | FeedFailed | UpdateFailed.

(** What a cycle meets: an exception, or the classified snapshot. *)
Inductive CycleInput :=
| Faulted (fault : CycleFault)
| Snapshot (pkControllers : list ControllerEntry) (pkPilots : list PilotEntry).

Inductive ProcessStatus :=
| Running (store : Store)
| Exited (code : Z).

(** [runOnce]: the [catch] logs the error and calls [process.exit(1)]. *)
Definition runOnce (store : Store) (now : Z) (input : CycleInput) : ProcessStatus :=
  match input with
  | Snapshot pkControllers pkPilots =>
      Running (u_store (updateSessions store now pkControllers pkPilots))
  | Faulted _ => Exited 1
  end.

(** [while (true) { await runOnce(); await sleep(15000) }] along the inputs
    of successive cycles; the result counts the cycles that ran. *)
Fixpoint liveLoop (store : Store) (polls : list (Z * CycleInput)) : ProcessStatus * nat :=
  match polls with
  | [] => (Running store, O)
  | (now, input) :: rest =>
      match runOnce store now input with
      | Running store' => let '(status, n) := liveLoop store' rest in (status, S n)
      | Exited code => (Exited code, 1%nat)
      end
  end.

(** ** Vocabulary of the properties *)

(** What one sighting does to the session object. *)
Definition observeAt (now : Z) (m : SessionMap) (kf : string * CachedSession) : SessionMap :=
  match getSession (fst kf) m with
  | None => addSession (fst kf) (snd kf) m
  | Some _ => touchSession (fst kf) now m
  end.

(** The key and the fresh session of every snapshot row, in loop order. *)
Definition observedEntries (now : Z) (cs : list ControllerEntry) (ps : list PilotEntry)
    : list (string * CachedSession) :=
  map (fun c => (controllerKey (c_callsign c),
                 newControllerSession now (controllerKey (c_callsign c)) c)) cs ++
  map (fun p => (pilotKey (p_callsign p),
                 newPilotSession now (pilotKey (p_callsign p)) p)) ps.

(** The identities of a snapshot, as session keys. *)
Definition observedKeys (cs : list ControllerEntry) (ps : list PilotEntry) : list string :=
  map (fun c => controllerKey (c_callsign c)) cs ++
  map (fun p => pilotKey (p_callsign p)) ps.

Definition seenIn (id : string) (keys : list string) : bool :=
  existsb (String.eqb id) keys.

(** An entry filed under the key of its own identity. *)
Definition keyedByIdentity (e : string * CachedSession) : Prop :=
  fst e = sessionKey (cs_type (snd e)) (cs_callsign (snd e)).

(** The shape of every session object the program writes: one entry per
    key, each under the key of its identity. *)
Definition wfSessions (m : SessionMap) : Prop :=
  List.NoDup (sessionKeys m) /\ Forall keyedByIdentity m.

(** The closure of one evicted entry, as pushed on [removed]. *)
Definition closedEvent (now : Z) (e : string * CachedSession) : HistoricalSession :=
  withRemovedAt now (toHistorical (snd e)).

(** The counter update of one evicted entry. *)
Definition bumpEntry (a : Stats) (e : string * CachedSession) : Stats :=
  bumpStats a (cs_type (snd e)) (cs_callsign (snd e)) (sessionMinutes (snd e)).

(** The entries the eviction loop closes, in enumeration order. *)
Definition staleEntries (now : Z) (seenIds : gset string) (l : SessionMap) : SessionMap :=
  List.filter (isStale now seenIds) l.

(** The open sessions of a cycle once the snapshot has been read. *)
Definition afterObservation (store : Store) (now : Z)
    (cs : list ControllerEntry) (ps : list PilotEntry) : SessionMap :=
  o_sessions (observe now (sessionCache store) cs ps).

(** The entries a cycle evicts, in enumeration order. *)
Definition evicted (store : Store) (now : Z)
    (cs : list ControllerEntry) (ps : list PilotEntry) : SessionMap :=
  staleEntries now (o_seenIds (observe now (sessionCache store) cs ps))
    (afterObservation store now cs ps).

(** A participant is identified by category and callsign. *)
Definition sameIdentity (t : SessionType) (callsign : string) (h : HistoricalSession) : bool :=
  bool_decide (hs_type h = t) && String.eqb (hs_callsign h) callsign.

(** The closures of one identity among the closed sessions of a cycle. *)
Definition closuresOf (t : SessionType) (callsign : string)
    (removed : list HistoricalSession) : list HistoricalSession :=
  List.filter (sameIdentity t callsign) removed.

(** One poll of the live loop: the clock reading and the classified
    snapshot. *)
Record Poll := mkPoll {
  poll_now : Z;
  poll_controllers : list ControllerEntry;
  poll_pilots : list PilotEntry
}.

Definition pollKeys (q : Poll) : list string :=
  observedKeys (poll_controllers q) (poll_pilots q).

(** Successive cycles; the result lists what each cycle closed. *)
Fixpoint runCycles (store : Store) (polls : list Poll)
    : Store * list (list HistoricalSession) :=
  match polls with
  | [] => (store, [])
  | q :: rest =>
      let r := updateSessions store (poll_now q) (poll_controllers q) (poll_pilots q) in
      let '(store', out) := runCycles (u_store r) rest in
      (store', u_removed r :: out)
  end.


(** The duration rule of the specification, [max(1, round((end - start) /
    60000))], on a start, an end and a number of minutes, stated on the
    milliseconds themselves: [rounded] is the whole number of minutes
    nearest to the span, half a minute counting upwards. *)
Definition durationRule (startTime endTime minutes : Z) : Prop :=
  exists rounded,
    60000 * rounded - 30000 <= endTime - startTime < 60000 * rounded + 30000 /\
    minutes = Z.max 1 rounded.

(** A poll that the live loop gets through without an exception. *)
Definition snapshotOf (q : Poll) : Z * CycleInput :=
  (poll_now q, Snapshot (poll_controllers q) (poll_pilots q)).

(** Component-wise sum of two counter structs. *)
Definition addStats (a b : Stats) : Stats :=
  mkStats (totalControllerMinutes a + totalControllerMinutes b)
          (totalPilotMinutes a + totalPilotMinutes b)
          (totalControllerSessions a + totalControllerSessions b)
          (totalPilotSessions a + totalPilotSessions b).

(** The stored counters agree with the fold over the stored list. *)
Definition statsMatch (h : HistoryCache) : Prop :=
  h_stats h = recalculateStats (h_sessions h).

(** The sessions a cycle closes, in closing order. *)
Definition closedBy (store : Store) (now : Z)
    (cs : list ControllerEntry) (ps : list PilotEntry) : list HistoricalSession :=
  map (fun e => toHistorical (snd e)) (evicted store now cs ps).

(** The history list of a cycle before the cap: each closure was put in
    front of the list. *)
Definition historyBeforeCap (store : Store) (now : Z)
    (cs : list ControllerEntry) (ps : list PilotEntry) : list HistoricalSession :=
  rev (closedBy store now cs ps) ++ h_sessions (historyCache store).

(** The total of one counter over the buckets of an aggregation. *)
Definition bucketTotal (f : Bucket -> Z) (out : list (string * Bucket)) : Z :=
  fold_left (fun acc pb => acc + f (snd pb)) out 0.

(** Every element of a list bounds the keys of the elements after it. *)
Fixpoint headBounds {A} (key : A -> Z) (l : list A) : Prop :=
  match l with
  | [] => True
  | a :: r => (forall y, In y r -> key y <= key a) /\ headBounds key r
  end.

(** The tests of the two cache loops of [findLastNonAtisCallsign] on an
    open and on a closed session. *)
Definition openHit (cid : Z) (s : CachedSession) : bool :=
  nonAtisControllerOf cid (cs_type s) (cs_cid s) (cs_callsign s).
Definition closedHit (cid : Z) (h : HistoricalSession) : bool :=
  nonAtisControllerOf cid (hs_type h) (hs_cid h) (hs_callsign h).

(** ** Sample data *)

Definition t0 : Z := 1700000000000.

(** A tower controller first seen at [t0] and last seen 90 s later. *)
Definition towerSession : CachedSession :=
  {| cs_id := "atc-OPKC_TWR"; cs_type := Controller; cs_cid := 1400001;
     cs_name := "Ayesha Khan"; cs_callsign := "OPKC_TWR";
     cs_frequency := Some "118.300"; cs_facility := Some "TWR";
     cs_departure := None; cs_arrival := None; cs_aircraft := None;
     cs_startTime := t0; cs_lastSeen := t0 + 90000 |}.

Definition towerStore : Store := mkStore [("atc-OPKC_TWR", towerSession)] emptyHistory.

Definition approachEntry : ControllerEntry :=
  mkControllerEntry 1400002 "Bilal Ahmed" "OPLA_APP" "125.300" "APP".

Definition emptyPoll (now : Z) : Poll := mkPoll now [] [].

Definition pilotSession : CachedSession :=
  {| cs_id := "pilot-PIA301"; cs_type := Pilot; cs_cid := 1400003;
     cs_name := "Sana Malik"; cs_callsign := "PIA301";
     cs_frequency := None; cs_facility := None;
     cs_departure := Some "OPKC"; cs_arrival := Some "OPLA"; cs_aircraft := Some "A320";
     cs_startTime := t0; cs_lastSeen := t0 + 45000 |}.

Definition mixedStore : Store :=
  mkStore [("atc-OPKC_TWR", towerSession); ("pilot-PIA301", pilotSession)] emptyHistory.

Definition staleOpenRow : OpenSessionRow :=
  mkOpenRow 7 ATC "OPLA_APP" (Some 1400002) (Some "OPLR") None None false t0 (t0 + 600000).

Definition liveDb : DbEnv := mkDbEnv true true.

(** The tower controller seen again under another display name and
    frequency, and the pilot with an amended flight plan. *)
Definition towerAgain : ControllerEntry :=
  mkControllerEntry 1400001 "A. Khan" "OPKC_TWR" "121.600" "TWR".

Definition pilotAgain : PilotEntry :=
  mkPilotEntry 1400003 "Sana Malik" "PIA301" "OPKC" "OPIS" "A320".

(** A closed approach session of five minutes that started [k + 1] days
    before [t0], and a history file that holds a thousand of them, newest
    first, with matching counters. *)
Definition oldApproach (k : nat) : HistoricalSession :=
  let start := t0 - 86400000 * (Z.of_nat k + 1) in
  {| hs_id := "atc-OPLA_APP-" +:+ Js.toISOString start; hs_type := Controller;
     hs_cid := 1400002; hs_name := "Bilal Ahmed"; hs_callsign := "OPLA_APP";
     hs_frequency := Some "125.300"; hs_facility := Some "APP";
     hs_departure := None; hs_arrival := None; hs_aircraft := None;
     hs_startTime := start; hs_endTime := start + 300000;
     hs_durationMinutes := 5; hs_date := Js.slice0 10 (Js.toISOString start);
     hs_removedAt := None |}.

Definition fullHistory : HistoryCache :=
  mkHistory (map oldApproach (seq 0 1000))
            (recalculateStats (map oldApproach (seq 0 1000))).

Definition fullStore : Store := mkStore [("atc-OPKC_TWR", towerSession)] fullHistory.

(** An ATIS position of the same controller. *)
Definition atisSession : CachedSession :=
  {| cs_id := "atc-OPKC_ATIS"; cs_type := Controller; cs_cid := 1400001;
     cs_name := "Ayesha Khan"; cs_callsign := "OPKC_ATIS";
     cs_frequency := Some "126.700"; cs_facility := Some "TWR";
     cs_departure := None; cs_arrival := None; cs_aircraft := None;
     cs_startTime := t0; cs_lastSeen := t0 + 90000 |}.

Definition atisStore : Store := mkStore [("atc-OPKC_ATIS", atisSession)] emptyHistory.

(** A history of one ATIS session and one tower session of the same
    controller, two minutes each. *)
Definition atisAndTower : HistoryCache :=
  mkHistory [toHistorical atisSession; toHistorical towerSession] emptyStats.

(** A host in whose local time a date falls in the week of the Monday
    2023-11-13. *)
Definition sampleWeekStart (date : string) : string := "2023-11-13".

(** A roster member whose last recorded position is the tower, and a
    database that holds an old approach session of the member. *)
Definition ayesha : MemberInfo :=
  {| mi_cid := 1400001; mi_name := Some "Ayesha Khan"; mi_rating := 5; mi_ratingName := "C1";
     mi_pilotRating := 0; mi_pilotRatingName := "None"; mi_subdivision := "PAK";
     mi_division := "WA"; mi_region := "EMEA"; mi_registrationDate := "2019-03-01T00:00:00";
     mi_lastSeen := Some t0; mi_lastCallsign := Some "OPKC_TWR"; mi_addedAt := t0 - 86400000;
     mi_source := Manual; mi_totalControllerMinutes := Some 120;
     mi_totalPilotMinutes := None; mi_sessionsCount := Some 3 |}.

Definition sampleRoster : gmap Z MemberInfo := {[ 1400001 := ayesha ]}.

Definition approachRow : ControllerSessionRow :=
  mkControllerRow (Some 1400001) "OPLA_APP" None (Some "OPLR") (t0 - 86400000)
    (t0 - 86100000) 5.

Definition sampleDb : Database := mkDatabase [approachRow] [] [].

(** ** Vocabulary of the further properties *)

(** Every open session started no later than it was last seen, and was last
    seen no later than the clock reading [t]. *)
Definition orderedAt (t : Z) (m : SessionMap) : Prop :=
  forall k s, In (k, s) m -> cs_startTime s <= cs_lastSeen s /\ cs_lastSeen s <= t.

(** Polls whose clock readings never go back, starting no earlier than [t]. *)
Fixpoint clockFrom (t : Z) (polls : list Poll) : Prop :=
  match polls with
  | [] => True
  | q :: rest => t <= poll_now q /\ clockFrom (poll_now q) rest
  end.

(** The controller and pilot rows of a snapshot with their keys and fresh
    sessions. *)
Definition controllerEntryOf (now : Z) (c : ControllerEntry) : string * CachedSession :=
  (controllerKey (c_callsign c), newControllerSession now (controllerKey (c_callsign c)) c).

Definition pilotEntryOf (now : Z) (p : PilotEntry) : string * CachedSession :=
  (pilotKey (p_callsign p), newPilotSession now (pilotKey (p_callsign p)) p).

(** What one session adds to a counter of its bucket, and the sum of that
    over a list of sessions. *)
Definition contribution (f : Bucket -> Z) (s : HistoricalSession) : Z :=
  f (addToBucket s zeroBucket).

Definition contributionTotal (f : Bucket -> Z) (l : list HistoricalSession) : Z :=
  fold_right (fun s acc => contribution f s + acc) 0 l.

(** A counter of a bucket that the counting branch only adds to. *)
Definition additive (f : Bucket -> Z) : Prop :=
  f zeroBucket = 0 /\
  forall s b, f (addToBucket s b) = f b + contribution f s.

(** Period keys in strictly ascending character order. *)
Fixpoint ascending (keys : list string) : Prop :=
  match keys with
  | a :: (b :: _) as r => String.compare a b = Lt /\ ascending r
  | _ => True
  end.

(** The fields of a closed session that reach the relational store, and the
    same fields of an insert. *)
Definition ins_callsign (i : DbInsert) : string :=
  match i with InsertController r => cr_callsign r | InsertPilot r => pr_callsign r end.

Definition ins_type (i : DbInsert) : SessionType :=
  match i with InsertController _ => Controller | InsertPilot _ => Pilot end.

Definition insertSummary (i : DbInsert) : SessionType * string * Z * Z * Z :=
  (ins_type i, ins_callsign i, ins_start i, ins_end i, ins_minutes i).

Definition closureSummary (h : HistoricalSession) : SessionType * string * Z * Z * Z :=
  (hs_type h, hs_callsign h, hs_startTime h, hs_endTime h, hs_durationMinutes h).

(** The closures that [saveSessionToDatabase] lets through: all but the
    ATIS positions. *)
Definition persisted (h : HistoricalSession) : bool :=
  negb (isController (hs_type h) && isAtis (hs_callsign h)).

(** Buckets of which none collates before its predecessor. *)
Fixpoint nondescending (l : list (string * Bucket)) : Prop :=
  match l with
  | a :: (b :: _) as r => periodBefore (fst b) (fst a) = false /\ nondescending r
  | _ => True
  end.

(** ** The roster: fetching, adding and removing members *)

(** The fields that [fetchMemberInfo] reads from the ratings API. *)
Record RatingsData := mkRatingsData {
  api_id : Z;
  api_name_first : option string;
  api_name_last : option string;
  api_rating : Z;
  api_pilotrating : Z;
  api_subdivision : option string;
  api_division : string;
  api_region : string;
  api_reg_date : string
}.

(** What the request to the ratings API comes to. *)
Inductive FetchOutcome :=
| Fetched (data : RatingsData)
| NotFound
| FetchFailed.

(** The result object of [fetchMemberInfo]. *)
Record FetchResult := mkFetchResult {
  fr_isPakistan : bool;
  fr_info : option MemberInfo;
  fr_error : option string
}.

(** [RATING_NAMES[rating] || `R${rating}`]. *)
Definition ratingNameOf (rating : Z) : string :=
  match rating with
  | -1 => "Inactive" | 0 => "Suspended" | 1 => "OBS" | 2 => "S1" | 3 => "S2" | 4 => "S3"
  | 5 => "C1" | 6 => "C2" | 7 => "C3" | 8 => "I1" | 9 => "I2" | 10 => "I3"
  | 11 => "SUP" | 12 => "ADM"
  | _ => "R" +:+ numberToString rating
  end.

(** [PILOT_RATING_NAMES[rating] || `P${rating}`]. *)
Definition pilotRatingNameOf (rating : Z) : string :=
  match rating with
  | 0 => "None" | 1 => "PPL" | 3 => "IR" | 7 => "CMEL" | 15 => "ATPL"
  | _ => "P" +:+ numberToString rating
  end.

(** [String.prototype.trim] on ASCII text. *)
Fixpoint trimStart (s : string) : string :=
  match s with
  | String c r => if isWhite c then trimStart r else s
  | EmptyString => EmptyString
  end.

Fixpoint trimEnd (s : string) : string :=
  match s with
  | String c r =>
      let r' := trimEnd r in
      if isWhite c && negb (Js.truthyStr r') then EmptyString else String c r'
  | EmptyString => EmptyString
  end.

Definition trim (s : string) : string := trimEnd (trimStart s).

(** A string that is present and not empty. *)
Definition present (s : option string) : option string := strOrNull s.

(** The [name] of the fetched profile. *)
Definition fetchedName (data : RatingsData) : string :=
  match present (api_name_first data), present (api_name_last data) with
  | Some f, Some l => trim (f +:+ " " +:+ l)
  | Some f, None => f
  | None, Some l => l
  | None, None => "Not Tracked"
  end.

(** [data.subdivision === "PAK" || (data.division === "WA" && !data.subdivision)]. *)
Definition isPakistanData (data : RatingsData) : bool :=
  match api_subdivision data with
  | Some sub => String.eqb sub "PAK"
                || (String.eqb (api_division data) "WA" && negb (Js.truthyStr sub))
  | None => String.eqb (api_division data) "WA"
  end.

(** [fetchMemberInfo(cid)] on the outcome of its request. *)
Definition fetchMemberInfo (outcome : FetchOutcome) (now : Z) : FetchResult :=
  match outcome with
  | Fetched data =>
      if isPakistanData data then
        mkFetchResult true
          (Some {| mi_cid := api_id data;
                   mi_name := Some (fetchedName data);
                   mi_rating := api_rating data;
                   mi_ratingName := ratingNameOf (api_rating data);
                   mi_pilotRating := api_pilotrating data;
                   mi_pilotRatingName := pilotRatingNameOf (api_pilotrating data);
                   mi_subdivision := match present (api_subdivision data) with
                                     | Some sub => sub
                                     | None => "PAK"
                                     end;
                   mi_division := api_division data;
                   mi_region := api_region data;
                   mi_registrationDate := api_reg_date data;
                   mi_lastSeen := None;
                   mi_lastCallsign := None;
                   mi_addedAt := now;
                   mi_source := Manual;
                   mi_totalControllerMinutes := None;
                   mi_totalPilotMinutes := None;
                   mi_sessionsCount := None |})
          None
      else mkFetchResult false None (Some "Not a Pakistan member")
  | NotFound => mkFetchResult false None (Some "Member not found")
  | FetchFailed => mkFetchResult false None (Some "Failed to fetch member data")
  end.

(** The result object of [addMemberToRoster]. *)
Record AddResult := mkAddResult {
  ar_success : bool;
  ar_member : option MemberInfo;
  ar_error : option string
}.

(** The refreshed record of a member that is in the roster already:
    [...result.info] with the source, the dates and the counters kept. *)
Definition refreshedMember (info old : MemberInfo) (now : Z) : MemberInfo :=
  {| mi_cid := mi_cid info; mi_name := mi_name info; mi_rating := mi_rating info;
     mi_ratingName := mi_ratingName info; mi_pilotRating := mi_pilotRating info;
     mi_pilotRatingName := mi_pilotRatingName info; mi_subdivision := mi_subdivision info;
     mi_division := mi_division info; mi_region := mi_region info;
     mi_registrationDate := mi_registrationDate info;
     mi_lastSeen := Some now;
     mi_lastCallsign := mi_lastCallsign old;
     mi_addedAt := mi_addedAt old;
     mi_source := mi_source old;
     mi_totalControllerMinutes := mi_totalControllerMinutes old;
     mi_totalPilotMinutes := mi_totalPilotMinutes old;
     mi_sessionsCount := mi_sessionsCount old |}.

Definition setSource (v : RosterSource) (m : MemberInfo) : MemberInfo :=
  let 'mkMember a b c d e f g h i j k l mm _ o p q := m in
  mkMember a b c d e f g h i j k l mm v o p q.

(** The [minimalInfo] literal. *)
Definition minimalInfo (cid : Z) (source : RosterSource) (now : Z) : MemberInfo :=
  {| mi_cid := cid; mi_name := Some "Not Tracked"; mi_rating := 0; mi_ratingName := "Unknown";
     mi_pilotRating := 0; mi_pilotRatingName := "Unknown"; mi_subdivision := "PAK";
     mi_division := "WA"; mi_region := "Unknown";
     mi_registrationDate := Js.toISOString now;
     mi_lastSeen := None; mi_lastCallsign := None; mi_addedAt := now; mi_source := source;
     mi_totalControllerMinutes := None; mi_totalPilotMinutes := None;
     mi_sessionsCount := None |}.

(** [addMemberToRoster(cid, source, forceAdd)]: the roster it saves and the
    result it returns, given what the ratings API answers. *)
Definition addMemberToRoster (roster : gmap Z MemberInfo) (outcome : FetchOutcome)
    (now : Z) (cid : Z) (source : RosterSource) (forceAdd : bool)
    : gmap Z MemberInfo * AddResult :=
  match roster !! cid with
  | Some old =>
      let touched := setLastSeen now old in
      let member :=
        if String.eqb (mi_ratingName touched) "Unknown" || (mi_rating touched =? 0) then
          match fr_info (fetchMemberInfo outcome now) with
          | Some info => refreshedMember info touched now
          | None => touched
          end
        else touched in
      (<[ cid := member ]> roster, mkAddResult true (Some member) None)
  | None =>
      let result := fetchMemberInfo outcome now in
      match fr_info result with
      | Some info =>
          if negb forceAdd && negb (fr_isPakistan result) then
            (roster, mkAddResult false None (Some "Not a Pakistan member"))
          else
            let member := setSource source info in
            (<[ cid := member ]> roster, mkAddResult true (Some member) None)
      | None =>
          if forceAdd then
            (<[ cid := minimalInfo cid source now ]> roster,
             mkAddResult true (Some (minimalInfo cid source now)) None)
          else
            (roster,
             mkAddResult false None
               (Some match present (fr_error result) with
                     | Some e => e
                     | None => "Failed to fetch member data"
                     end))
      end
  end.

(** [removeMemberFromRoster(cid)]. *)
Definition removeMemberFromRoster (roster : gmap Z MemberInfo) (cid : Z)
    : gmap Z MemberInfo * bool :=
  match roster !! cid with
  | Some _ => (delete cid roster, true)
  | None => (roster, false)
  end.

(** Every member of the roster is filed as a resident of the subdivision. *)
Definition allResidents (roster : gmap Z MemberInfo) : Prop :=
  forall cid m, roster !! cid = Some m -> mi_subdivision m = "PAK".

(** A member of the subdivision as the ratings API describes her, and a
    cid that the API does not know. *)
Definition ayeshaData : RatingsData :=
  mkRatingsData 1400001 (Some "Ayesha") (Some "Khan") 5 0 (Some "PAK") "WA" "EMEA"
    "2019-03-01T00:00:00".

Definition strangerCid : Z := 1499999.

(** One call [updateMemberStats(cid, type, minutes, callsign)] together with
    the clock that the call reads. *)
Record StatsCall := mkStatsCall {
  sc_now : Z;
  sc_cid : Z;
  sc_type : SessionType;
  sc_minutes : Z;
  sc_callsign : option string
}.

(** The calls run one after the other, each on the roster file that the
    call before it saved. *)
Definition recordStats (roster : gmap Z MemberInfo) (calls : list StatsCall)
    : gmap Z MemberInfo :=
  fold_left (fun r c => updateMemberStats r (sc_now c) (sc_cid c) (sc_type c)
                          (sc_minutes c) (sc_callsign c)) calls roster.

Definition isType (t u : SessionType) : bool :=
  match t, u with
  | Controller, Controller | Pilot, Pilot => true
  | _, _ => false
  end.

(** The calls of a list that concern one member, and the minutes that they
    carry for one kind of session. *)
Definition callsFor (cid : Z) (calls : list StatsCall) : list StatsCall :=
  List.filter (fun c => sc_cid c =? cid) calls.

Definition minutesOf (t : SessionType) (calls : list StatsCall) : Z :=
  fold_right (fun c acc => (if isType (sc_type c) t then sc_minutes c else 0) + acc) 0 calls.

(** The identifiers under which the synchroniser files the rows of the
    relational store. *)
Definition controllerRowId (session : ControllerSessionRow) : string :=
  "atc-" +:+ cr_callsign session +:+ "-" +:+ Js.toISOString (cr_start session).

Definition pilotRowId (session : PilotSessionRow) : string :=
  "pilot-" +:+ pr_callsign session +:+ "-" +:+ Js.toISOString (pr_start session).

(** The set of identifiers is the one of the list. *)
Definition idsInStep (st : Import) : Prop :=
  im_ids st = list_to_set (map hs_id (im_sessions st)).

(** An open row of an ATIS position that has gone stale next to the stale
    approach row, and a pilot row seen a minute ago. *)
Definition staleAtisRow : OpenSessionRow :=
  mkOpenRow 8 ATC "OPKC_ATIS" (Some 1400001) (Some "OPKR") None None false t0 (t0 + 300000).

Definition freshPilotRow : OpenSessionRow :=
  mkOpenRow 9 PILOT "PIA301" (Some 1400003) None (Some "OPKC") (Some "OPLA") true
    (t0 + 600000) (t0 + 1140000).

Definition openTable : list OpenSessionRow := [staleOpenRow; staleAtisRow; freshPilotRow].

(** ** The classification of the feed by the live collector *)

(** [[A-Z0-9]] under the [i] flag. *)
Definition isAlnum (c : ascii) : bool :=
  let n := nat_of_ascii (Js.upperChar c) in
  ((65 <=? n) && (n <=? 90) || (48 <=? n) && (n <=? 57))%nat.

(** [(DEL|GND|TWR|APP|DEP|CTR|FSS|ATIS)]. *)
Definition positionSuffixes : list string :=
  ["DEL"; "GND"; "TWR"; "APP"; "DEP"; "CTR"; "FSS"; "ATIS"].

(** [[A-Z0-9]{2,}_(DEL|...|ATIS)$] on an upper-cased input, [n] characters
    of the class having been read. *)
Fixpoint matchPosition (n : nat) (s : string) : bool :=
  match s with
  | EmptyString => false
  | String c rest =>
      ((2 <=? n)%nat && Ascii.eqb c "_" && existsb (String.eqb rest) positionSuffixes)
      || (isAlnum c && matchPosition (S n) rest)
  end.

(** [/^OP[A-Z0-9]{2,}_(DEL|GND|TWR|APP|DEP|CTR|FSS|ATIS)$/i.test(cs)]. *)
Definition isPkController (cs : string) : bool :=
  match Js.toUpperCase cs with
  | String "O" (String "P" rest) => matchPosition 0 rest
  | _ => false
  end.

(** A controller and a pilot of the feed.  [fp_insideFIR] is the [inside]
    that [insidePakistanFIR(p.latitude, p.longitude)] answers for the
    position of the row. *)
Record FeedController := mkFeedController {
  fc_callsign : string;
  fc_cid : option Z;
  fc_name : option string;
  fc_frequency : option string;
  fc_facility : option Z
}.

Record FlightPlan := mkFlightPlan {
  fpl_departure : option string;
  fpl_arrival : option string;
  fpl_aircraft_short : option string
}.

Record FeedPilot := mkFeedPilot {
  fp_callsign : string;
  fp_cid : option Z;
  fp_name : option string;
  fp_insideFIR : bool;
  fp_flight_plan : option FlightPlan
}.

Record VatsimFeed := mkVatsimFeed {
  feed_controllers : list FeedController;
  feed_pilots : list FeedPilot
}.

(** [x || fallback] on an optional string. *)
Definition orElse (fallback : string) (s : option string) : string :=
  match strOrNull s with Some v => v | None => fallback end.

(** [c.facility ? ["OBS", ..., "CTR"][c.facility] || "UNK" : "UNK"]. *)
Definition facilityNames : list string := ["OBS"; "FSS"; "DEL"; "GND"; "TWR"; "APP"; "CTR"].

Definition facilityOf (facility : option Z) : string :=
  match facility with
  | Some n =>
      if Js.truthy n then
        orElse "UNK" (if 0 <=? n then nth_error facilityNames (Z.to_nat n) else None)
      else "UNK"
  | None => "UNK"
  end.

Definition controllerEntryOfFeed (c : FeedController) : ControllerEntry :=
  {| c_cid := cidOrZero (fc_cid c);
     c_name := orElse "Unknown" (fc_name c);
     c_callsign := fc_callsign c;
     c_frequency := orElse "N/A" (fc_frequency c);
     c_facility := facilityOf (fc_facility c) |}.

(** [p.flight_plan?.departure?.toUpperCase()] and its like. *)
Definition planField (field : FlightPlan -> option string) (p : FeedPilot) : option string :=
  match fp_flight_plan p with
  | Some plan => field plan
  | None => None
  end.

Definition upperField (field : FlightPlan -> option string) (p : FeedPilot) : option string :=
  option_map Js.toUpperCase (planField field p).

(** The [filter] callback of the pilots. *)
Definition isPkPilot (p : FeedPilot) : bool :=
  let dep := orElse "" (upperField fpl_departure p) in
  let arr := orElse "" (upperField fpl_arrival p) in
  let hasOP := Js.startsWith dep "OP" || Js.startsWith arr "OP" in
  fp_insideFIR p || hasOP.

Definition pilotEntryOfFeed (p : FeedPilot) : PilotEntry :=
  {| p_cid := cidOrZero (fp_cid p);
     p_name := orElse "Unknown" (fp_name p);
     p_callsign := fp_callsign p;
     p_departure := orElse "N/A" (upperField fpl_departure p);
     p_arrival := orElse "N/A" (upperField fpl_arrival p);
     p_aircraft := orElse "N/A" (planField fpl_aircraft_short p) |}.

Definition pkControllers (data : VatsimFeed) : list ControllerEntry :=
  map controllerEntryOfFeed
    (List.filter (fun c => isPkController (fc_callsign c)) (feed_controllers data)).

Definition pkPilots (data : VatsimFeed) : list PilotEntry :=
  map pilotEntryOfFeed (List.filter isPkPilot (feed_pilots data)).

(** The cycle of the collector on a feed that was fetched. *)
Definition collect (store : Store) (now : Z) (data : VatsimFeed) : UpdateResult :=
  updateSessions store now (pkControllers data) (pkPilots data).

(** Every open controller session is at a position of the country. *)
Definition pakistanPositions (m : SessionMap) : Prop :=
  forall e, In e m -> cs_type (snd e) = Controller -> isPkController (cs_callsign (snd e)) = true.

(** A feed with a tower of the country, a foreign tower and two pilots. *)
Definition sampleFeed : VatsimFeed :=
  {| feed_controllers :=
       [ mkFeedController "opkc_twr" (Some 1400001) (Some "Ayesha Khan") (Some "118.300")
           (Some 4);
         mkFeedController "EGLL_TWR" (Some 1300001) (Some "J. Smith") (Some "118.500")
           (Some 4);
         mkFeedController "OPLA_ATIS" None None None (Some 0) ];
     feed_pilots :=
       [ mkFeedPilot "PIA301" (Some 1400003) (Some "Sana Malik") false
           (Some (mkFlightPlan (Some "opkc") (Some "omdb") (Some "A320")));
         mkFeedPilot "BAW12" (Some 1300002) None true None;
         mkFeedPilot "DLH400" (Some 1300003) None false
           (Some (mkFlightPlan (Some "EDDF") (Some "KJFK") None)) ] |}.

(** Every character of the string is of the class [[A-Z0-9]]. *)
Fixpoint allAlnum (s : string) : bool :=
  match s with
  | EmptyString => true
  | String c rest => isAlnum c && allAlnum rest
  end.

(** ** The roster listing and its statistics *)

(** [Object.values(roster.members)]: the keys are cids, which a JS object
    enumerates in ascending numeric order. *)
Fixpoint insertByCid (x : Z * MemberInfo) (l : list (Z * MemberInfo))
    : list (Z * MemberInfo) :=
  match l with
  | [] => [x]
  | y :: r => if fst x <? fst y then x :: y :: r else y :: insertByCid x r
  end.

Definition rosterValues (roster : gmap Z MemberInfo) : list MemberInfo :=
  map snd (fold_right insertByCid [] (map_to_list roster)).

(** [(a.totalControllerMinutes || 0) + (a.totalPilotMinutes || 0)]. *)
Definition totalMinutesOf (m : MemberInfo) : Z :=
  orZero (mi_totalControllerMinutes m) + orZero (mi_totalPilotMinutes m).

(** The comparator of [getRosterMembers]. *)
Definition compareMembers (a b : MemberInfo) : Z :=
  if negb (mi_rating b =? mi_rating a) then mi_rating b - mi_rating a
  else totalMinutesOf b - totalMinutesOf a.

(** [Array.prototype.sort] with that comparator: stable. *)
Fixpoint insertMember (x : MemberInfo) (l : list MemberInfo) : list MemberInfo :=
  match l with
  | [] => [x]
  | y :: r => if 0 <? compareMembers y x then x :: y :: r else y :: insertMember x r
  end.

Definition sortMembers (l : list MemberInfo) : list MemberInfo :=
  fold_left (fun acc x => insertMember x acc) l [].

(** [getRosterMembers()]. *)
Definition getRosterMembers (roster : gmap Z MemberInfo) : list MemberInfo :=
  sortMembers (rosterValues roster).

(** [s.padStart(width, "0")]. *)
Fixpoint zeros (n : nat) : string :=
  match n with
  | O => ""
  | S k => String "0" (zeros k)
  end.

Definition padStart (width : nat) (s : string) : string :=
  zeros (width - String.length s) +:+ s.

(** [formatHoursMinutesSeconds(totalMinutes)] on a whole number of minutes
    whose product with 60 is below 2^53 in size: there the product, the
    quotients and the remainders of the source, which computes in doubles,
    are the exact ones written here.  [%] is the remainder that takes the
    sign of the dividend. *)
Definition formatHoursMinutesSeconds (totalMinutes : Z) : string :=
  let totalSeconds := totalMinutes * 60 in
  let hours := totalSeconds / 3600 in
  let minutes := Z.rem totalSeconds 3600 / 60 in
  let seconds := Z.rem totalSeconds 60 in
  padStart 3 (numberToString hours) +:+ ":" +:+ padStart 2 (numberToString minutes) +:+ ":" +:+
  padStart 2 (numberToString seconds).

(** [ratingDistribution[m.ratingName] = (ratingDistribution[m.ratingName] || 0) + 1]
    on an object whose keys are rating names, enumerated in the order of
    their first insertion. *)
Fixpoint countRating (rating : string) (distribution : list (string * Z))
    : list (string * Z) :=
  match distribution with
  | [] => [(rating, 1)]
  | (k, n) :: r =>
      if String.eqb k rating then (k, n + 1) :: r else (k, n) :: countRating rating r
  end.

(** [.sort((a, b) => b.count - a.count)]. *)
Fixpoint insertByCount (x : string * Z) (l : list (string * Z)) : list (string * Z) :=
  match l with
  | [] => [x]
  | y :: r => if 0 <? snd x - snd y then x :: y :: r else y :: insertByCount x r
  end.

Definition sortByCount (l : list (string * Z)) : list (string * Z) :=
  fold_left (fun acc x => insertByCount x acc) l [].

Record RosterStats := mkRosterStats {
  rs_totalMembers : nat;
  rs_ratingDistribution : list (string * Z);
  rs_totalControllerMinutes : Z;
  rs_totalControllerHours : string;
  rs_totalPilotMinutes : Z;
  rs_totalPilotHours : string;
  rs_totalSessions : Z
}.

(** State of the loop of [getRosterStats]. *)
Record RosterTally := mkRosterTally {
  rt_ratingDistribution : list (string * Z);
  rt_totalControllerMinutes : Z;
  rt_totalPilotMinutes : Z;
  rt_totalSessions : Z
}.

Definition tallyMember (t : RosterTally) (m : MemberInfo) : RosterTally :=
  {| rt_ratingDistribution := countRating (mi_ratingName m) (rt_ratingDistribution t);
     rt_totalControllerMinutes :=
       rt_totalControllerMinutes t + orZero (mi_totalControllerMinutes m);
     rt_totalPilotMinutes := rt_totalPilotMinutes t + orZero (mi_totalPilotMinutes m);
     rt_totalSessions := rt_totalSessions t + orZero (mi_sessionsCount m) |}.

(** [getRosterStats()]. *)
Definition getRosterStats (roster : gmap Z MemberInfo) : RosterStats :=
  let members := getRosterMembers roster in
  let t := fold_left tallyMember members (mkRosterTally [] 0 0 0) in
  {| rs_totalMembers := length members;
     rs_ratingDistribution := sortByCount (rt_ratingDistribution t);
     rs_totalControllerMinutes := rt_totalControllerMinutes t;
     rs_totalControllerHours := formatHoursMinutesSeconds (rt_totalControllerMinutes t);
     rs_totalPilotMinutes := rt_totalPilotMinutes t;
     rs_totalPilotHours := formatHoursMinutesSeconds (rt_totalPilotMinutes t);
     rs_totalSessions := rt_totalSessions t |}.

(** [a] is listed no later than [b]: a higher rating, or the same rating
    with at least as many minutes. *)
Definition ranksBefore (a b : MemberInfo) : Prop :=
  mi_rating b < mi_rating a \/
  (mi_rating a = mi_rating b /\ totalMinutesOf b <= totalMinutesOf a).

(** The sum of the counts of a distribution. *)
Definition countTotal (distribution : list (string * Z)) : Z :=
  fold_right (fun kn acc => snd kn + acc) 0 distribution.

(** The number of members of a list that hold a rating name, and the count
    that a distribution records for a rating name. *)
Definition ratingCount (rating : string) (members : list MemberInfo) : Z :=
  Z.of_nat (length (List.filter (fun m => String.eqb (mi_ratingName m) rating) members)).

Fixpoint getCount (rating : string) (distribution : list (string * Z)) : option Z :=
  match distribution with
  | [] => None
  | (k, n) :: r => if String.eqb k rating then Some n else getCount rating r
  end.

(** The minutes of the sessions that the member detail lists. *)
Definition listedMinutes (sessions : list MemberSession) : Z :=
  fold_left (fun sum x => sum + ms_minutes x) sessions 0.

(** A database that the ingest script has filled: the closed session of an
    ATIS position that the feed listed in lower case, written from its open
    row. *)
Definition lowerAtisOpenRow : OpenSessionRow :=
  mkOpenRow 11 ATC "opkc_atis" (Some 1400001) None None None false
    (t0 - 7200000) (t0 - 3600000).

Definition lowerAtisRow : ControllerSessionRow :=
  mkControllerRow (Some 1400001) "opkc_atis" None None (t0 - 7200000) (t0 - 3600000) 60.

Definition lowerAtisDb : Database := mkDatabase [lowerAtisRow] [] [].





(** * Properties *)

(** ** Facts about the session object *)

Section SessionMapFacts.

Implicit Types (m : SessionMap) (id k : string) (s : CachedSession).

Lemma getSession_In id m s : getSession id m = Some s -> In (id, s) m.
Proof.
  induction m as [|[k v] r IH]; simpl; [discriminate|].
  destruct (String.eqb k id) eqn:E.
  - apply String.eqb_eq in E. intros [= ->]. subst. now left.
  - intros H. right. now apply IH.
Qed.

Lemma getSession_None id m : getSession id m = None <-> ~ In id (sessionKeys m).
Proof.
  induction m as [|[k v] r IH]; simpl.
  - split; [intros _ []|reflexivity].
  - destruct (String.eqb k id) eqn:E.
    + apply String.eqb_eq in E. split; [discriminate|]. intros H. exfalso. apply H. now left.
    + apply String.eqb_neq in E. rewrite IH. split.
      * intros H [H1|H1]; [congruence|tauto].
      * intros H H1. apply H. now right.
Qed.

Lemma In_getSession id m s :
  List.NoDup (sessionKeys m) -> In (id, s) m -> getSession id m = Some s.
Proof.
  induction m as [|[k v] r IH]; simpl; [intros _ []|].
  intros Hnd. apply List.NoDup_cons_iff in Hnd as [Hk Hnd].
  intros [[= -> ->]|Hin].
  - now rewrite String.eqb_refl.
  - destruct (String.eqb k id) eqn:E; [|now apply IH].
    apply String.eqb_eq in E. subst k. exfalso. apply Hk.
    change id with (fst (id, s)). now apply in_map.
Qed.

Lemma getSession_app id m1 m2 :
  getSession id (m1 ++ m2) =
  match getSession id m1 with Some s => Some s | None => getSession id m2 end.
Proof.
  induction m1 as [|[k v] r IH]; simpl; [reflexivity|].
  now destruct (String.eqb k id).
Qed.

Lemma touchSession_keys id now m : sessionKeys (touchSession id now m) = sessionKeys m.
Proof.
  unfold sessionKeys, touchSession. rewrite map_map. apply map_ext.
  intros [k v]. simpl. now destruct (String.eqb k id).
Qed.

Lemma getSession_touch id k now m :
  getSession id (touchSession k now m) =
  if String.eqb k id then option_map (withLastSeen now) (getSession id m)
  else getSession id m.
Proof.
  induction m as [|[k' v] r IH]; simpl.
  - now destruct (String.eqb k id).
  - destruct (String.eqb k' k) eqn:E1; simpl.
    + apply String.eqb_eq in E1. subst k'.
      destruct (String.eqb k id) eqn:E2; [reflexivity|]. exact IH.
    + destruct (String.eqb k' id) eqn:E2.
      * apply String.eqb_eq in E2. subst k'.
        rewrite String.eqb_sym in E1. now rewrite E1.
      * exact IH.
Qed.

Lemma In_touch k now m e :
  In e (touchSession k now m) ->
  In e m \/ (fst e = k /\ exists s, In (k, s) m /\ snd e = withLastSeen now s).
Proof.
  unfold touchSession. rewrite in_map_iff. intros [[k' v] [He Hin]]. simpl in He.
  destruct (String.eqb k' k) eqn:E.
  - apply String.eqb_eq in E. subst k' e. right. simpl. eauto.
  - subst e. now left.
Qed.

Lemma deleteSession_In id m e : In e (deleteSession id m) <-> In e m /\ fst e <> id.
Proof.
  unfold deleteSession. rewrite filter_In, negb_true_iff, String.eqb_neq. tauto.
Qed.

Lemma filter_none {A} (f : A -> bool) (l : list A) :
  (forall x, In x l -> f x = false) -> List.filter f l = [].
Proof.
  induction l as [|a r IH]; simpl; [reflexivity|]. intros H.
  rewrite (H a) by now left. apply IH. intros x Hx. apply H. now right.
Qed.

(** The entries of a duplicate-free object under one key. *)
Lemma filter_key_Some id m s :
  List.NoDup (sessionKeys m) -> getSession id m = Some s ->
  List.filter (fun e => String.eqb (fst e) id) m = [(id, s)].
Proof.
  induction m as [|[k v] r IH]; simpl; [discriminate|].
  intros Hnd. apply List.NoDup_cons_iff in Hnd as [Hk Hnd].
  destruct (String.eqb k id) eqn:E.
  - apply String.eqb_eq in E. subst k. intros [= ->]. f_equal.
    apply filter_none.
    intros [k' v'] Hin. simpl. apply String.eqb_neq. intros ->.
    apply Hk. change id with (fst (id, v')). now apply in_map.
  - intros H. now apply IH.
Qed.

Lemma filter_key_None id m :
  getSession id m = None -> List.filter (fun e => String.eqb (fst e) id) m = [].
Proof.
  intros H. apply getSession_None in H.
  apply filter_none.
  intros [k v] Hin. simpl. apply String.eqb_neq. intros ->.
  apply H. change id with (fst (id, v)). now apply in_map.
Qed.

End SessionMapFacts.

(** ** The observation loops, entry by entry *)

Section Observation.

Variable now : Z.

Lemma seenIn_In id keys : seenIn id keys = true <-> In id keys.
Proof.
  unfold seenIn. rewrite existsb_exists. split.
  - intros [x [Hx E]]. apply String.eqb_eq in E. now subst.
  - intros H. exists id. split; [assumption|apply String.eqb_refl].
Qed.

Lemma observedEntries_keys cs ps :
  map fst (observedEntries now cs ps) = observedKeys cs ps.
Proof.
  unfold observedEntries, observedKeys. rewrite map_app, !map_map. reflexivity.
Qed.

Lemma observeController_sessions st c :
  o_sessions (observeController now st c) =
  observeAt now (o_sessions st)
    (controllerKey (c_callsign c), newControllerSession now (controllerKey (c_callsign c)) c).
Proof.
  unfold observeController, observeAt. simpl.
  now destruct (getSession (controllerKey (c_callsign c)) (o_sessions st)).
Qed.

Lemma observePilot_sessions st p :
  o_sessions (observePilot now st p) =
  observeAt now (o_sessions st)
    (pilotKey (p_callsign p), newPilotSession now (pilotKey (p_callsign p)) p).
Proof.
  unfold observePilot, observeAt. simpl.
  now destruct (getSession (pilotKey (p_callsign p)) (o_sessions st)).
Qed.

Lemma observe_sessions m cs ps :
  o_sessions (observe now m cs ps) = fold_left (observeAt now) (observedEntries now cs ps) m.
Proof.
  unfold observe, observedEntries. rewrite fold_left_app.
  set (st0 := mkObserved m [] ∅ []). change m with (o_sessions st0). clearbody st0.
  assert (Hc : forall st, o_sessions (fold_left (observeController now) cs st) =
    fold_left (observeAt now)
      (map (fun c => (controllerKey (c_callsign c),
                      newControllerSession now (controllerKey (c_callsign c)) c)) cs)
      (o_sessions st)).
  { induction cs as [|c r IH]; intros st; simpl; [reflexivity|].
    rewrite IH. now rewrite observeController_sessions. }
  rewrite <- Hc. generalize (fold_left (observeController now) cs st0). clear.
  induction ps as [|p r IH]; intros st; simpl; [reflexivity|].
  rewrite IH. now rewrite observePilot_sessions.
Qed.

Lemma observe_seenIds m cs ps id :
  id ∈ o_seenIds (observe now m cs ps) <-> In id (observedKeys cs ps).
Proof.
  unfold observe, observedKeys.
  assert (Hc : forall st, id ∈ o_seenIds (fold_left (observeController now) cs st) <->
    In id (map (fun c => controllerKey (c_callsign c)) cs) \/ id ∈ o_seenIds st).
  { induction cs as [|c r IH]; intros st; simpl; [tauto|].
    rewrite IH. unfold observeController.
    destruct (getSession _ _); simpl; rewrite elem_of_union, elem_of_singleton;
      intuition congruence. }
  assert (Hp : forall st, id ∈ o_seenIds (fold_left (observePilot now) ps st) <->
    In id (map (fun p => pilotKey (p_callsign p)) ps) \/ id ∈ o_seenIds st).
  { induction ps as [|p r IH]; intros st; simpl; [tauto|].
    rewrite IH. unfold observePilot.
    destruct (getSession _ _); simpl; rewrite elem_of_union, elem_of_singleton;
      intuition congruence. }
  rewrite Hp, Hc, in_app_iff. simpl. rewrite elem_of_empty. tauto.
Qed.

Lemma withLastSeen_idem s : withLastSeen now (withLastSeen now s) = withLastSeen now s.
Proof. reflexivity. Qed.

(** A session that was open before the loops is still there afterwards,
    with [lastSeen] refreshed when its key was sighted and as it was
    otherwise. *)
Lemma observeAll_open kf : forall m id s,
  getSession id m = Some s ->
  getSession id (fold_left (observeAt now) kf m) =
  Some (if seenIn id (map fst kf) then withLastSeen now s else s).
Proof.
  induction kf as [|a r IH]; intros m id s H; simpl; [assumption|].
  unfold observeAt at 2. destruct (getSession (fst a) m) eqn:Ea.
  - destruct (String.eqb id (fst a)) eqn:E; simpl.
    + apply String.eqb_eq in E. subst id.
      rewrite (IH _ (fst a) (withLastSeen now s)).
      * now destruct (seenIn (fst a) (map fst r)).
      * rewrite getSession_touch, String.eqb_refl, H. reflexivity.
    + apply IH. rewrite getSession_touch. rewrite String.eqb_sym in E. now rewrite E.
  - assert (E : String.eqb id (fst a) = false).
    { apply String.eqb_neq. intros ->. congruence. }
    rewrite E. simpl. apply IH. unfold addSession. now rewrite getSession_app, H.
Qed.

(** A key that is neither open nor sighted stays absent. *)
Lemma observeAll_absent kf : forall m id,
  getSession id m = None -> seenIn id (map fst kf) = false ->
  getSession id (fold_left (observeAt now) kf m) = None.
Proof.
  induction kf as [|a r IH]; intros m id H Hs; simpl in *; [assumption|].
  apply orb_false_iff in Hs as [E Hs]. apply IH; [|assumption].
  unfold observeAt. destruct (getSession (fst a) m).
  - rewrite getSession_touch. rewrite String.eqb_sym in E. now rewrite E.
  - unfold addSession. rewrite getSession_app, H. simpl.
    rewrite String.eqb_sym in E. now rewrite E.
Qed.

(** Every sighted key is open after the loops. *)
Lemma observeAll_present kf : forall m id,
  seenIn id (map fst kf) = true ->
  getSession id (fold_left (observeAt now) kf m) <> None.
Proof.
  induction kf as [|a r IH]; intros m id Hs; simpl in *; [discriminate|].
  destruct (seenIn id (map fst r)) eqn:Er; [now apply IH|].
  rewrite orb_false_r in Hs. apply String.eqb_eq in Hs. subst id.
  assert (H : exists s, getSession (fst a) (observeAt now m a) = Some s).
  { unfold observeAt. destruct (getSession (fst a) m) eqn:Ea.
    - rewrite getSession_touch, String.eqb_refl, Ea. simpl. eauto.
    - unfold addSession. rewrite getSession_app, Ea. simpl.
      rewrite String.eqb_refl. eauto. }
  destruct H as [s H]. rewrite (observeAll_open r _ _ _ H). discriminate.
Qed.

(** Every entry after the loops was there before, or sits under a sighted
    key. *)
Lemma observeAll_In kf : forall m e,
  In e (fold_left (observeAt now) kf m) -> In (fst e) (map fst kf) \/ In e m.
Proof.
  induction kf as [|a r IH]; intros m e H; simpl in *; [now right|].
  apply IH in H as [H|H]; [tauto|].
  unfold observeAt in H. destruct (getSession (fst a) m).
  - apply In_touch in H as [H|[H _]]; [tauto|]. left. left. now symmetry.
  - unfold addSession in H. apply in_app_iff in H as [H|[H|[]]]; [tauto|].
    subst. tauto.
Qed.

Lemma observeAt_wf m a : keyedByIdentity a -> wfSessions m -> wfSessions (observeAt now m a).
Proof.
  intros Ha [Hnd Hk]. unfold observeAt. destruct (getSession (fst a) m) eqn:E.
  - split; [now rewrite touchSession_keys|].
    apply List.Forall_forall. intros e He. apply In_touch in He as [He|[He [s [Hs Es]]]].
    + rewrite List.Forall_forall in Hk. now apply Hk.
    + rewrite List.Forall_forall in Hk. specialize (Hk _ Hs).
      unfold keyedByIdentity in *. rewrite Es, He. simpl in *. exact Hk.
  - apply getSession_None in E. split.
    + unfold addSession, sessionKeys in *. rewrite map_app. simpl.
      apply NoDup_ListNoDup, NoDup_app. repeat split.
      * now apply NoDup_ListNoDup.
      * intros x Hx Hx'. apply list_elem_of_In in Hx.
        apply list_elem_of_singleton in Hx'. subst. contradiction.
      * apply NoDup_singleton.
    + unfold addSession. apply List.Forall_app. split; [assumption|].
      destruct a. constructor; [assumption|constructor].
Qed.

Lemma observeAll_wf kf : forall m,
  Forall keyedByIdentity kf -> wfSessions m ->
  wfSessions (fold_left (observeAt now) kf m).
Proof.
  induction kf as [|a r IH]; intros m Hk Hm; simpl; [assumption|].
  inversion Hk; subst. apply IH; [assumption|]. now apply observeAt_wf.
Qed.

Lemma observedEntries_keyed cs ps : Forall keyedByIdentity (observedEntries now cs ps).
Proof.
  unfold observedEntries. apply List.Forall_app. split; apply List.Forall_forall; intros e He;
    apply in_map_iff in He as [x [<- _]]; reflexivity.
Qed.

Lemma observe_wf m cs ps : wfSessions m -> wfSessions (o_sessions (observe now m cs ps)).
Proof.
  intros H. rewrite observe_sessions. apply observeAll_wf; [|assumption].
  apply observedEntries_keyed.
Qed.

End Observation.

(** ** The eviction loop *)

Section Sweeping.

Variables (now : Z) (seenIds : gset string).

Lemma sweep_fold l : forall st,
  let sw := fold_left (sweepEntry now seenIds) l st in
  sw_removed sw = sw_removed st ++ map (closedEvent now) (staleEntries now seenIds l) /\
  sw_history sw = rev (map (fun e => toHistorical (snd e)) (staleEntries now seenIds l)) ++ sw_history st /\
  sw_dbSaves sw = sw_dbSaves st ++ map (fun e => toHistorical (snd e)) (staleEntries now seenIds l) /\
  sw_stats sw = fold_left bumpEntry (staleEntries now seenIds l) (sw_stats st) /\
  sw_sessions sw =
    fold_left (fun m e => deleteSession (fst e) m) (staleEntries now seenIds l) (sw_sessions st) /\
  sw_roster sw = sw_roster st ++
    flat_map (fun e => memberStatsCalls (snd e) (sessionMinutes (snd e))) (staleEntries now seenIds l).
Proof.
  induction l as [|e r IH]; intros st; simpl.
  - rewrite !app_nil_r. repeat split; reflexivity.
  - destruct (IH (sweepEntry now seenIds st e)) as (H1 & H2 & H3 & H4 & H5 & H6).
    rewrite H1, H2, H3, H4, H5, H6. clear.
    unfold sweepEntry. destruct (isStale now seenIds e) eqn:E; simpl.
    + rewrite <- !app_assoc. simpl. repeat split; reflexivity.
    + repeat split; reflexivity.
Qed.

Lemma filter_filter {A} (f g : A -> bool) (l : list A) :
  List.filter f (List.filter g l) = List.filter (fun x => g x && f x) l.
Proof.
  induction l as [|a r IH]; simpl; [reflexivity|].
  destruct (g a); simpl; [destruct (f a)|]; now rewrite IH.
Qed.

Lemma deleteAll_filter (stales : SessionMap) : forall m : SessionMap,
  fold_left (fun m e => deleteSession (fst e) m) stales m =
  List.filter (fun e => negb (seenIn (fst e) (map fst stales))) m.
Proof.
  induction stales as [|a r IH]; intros m; simpl.
  - induction m as [|x m' IHm]; simpl; [reflexivity|]. now rewrite <- IHm.
  - rewrite IH. unfold deleteSession. rewrite filter_filter.
    apply filter_ext. intros x. now rewrite negb_orb.
Qed.

(** In a duplicate-free object the keys deleted by the loop are exactly the
    keys of the stale entries. *)
Lemma stale_key_iff (l : SessionMap) e :
  List.NoDup (sessionKeys l) -> In e l ->
  seenIn (fst e) (map fst (staleEntries now seenIds l)) = isStale now seenIds e.
Proof.
  intros Hnd He. destruct (isStale now seenIds e) eqn:E.
  - apply seenIn_In. apply in_map. unfold staleEntries. now apply filter_In.
  - apply not_true_is_false. intros H. apply seenIn_In in H.
    apply in_map_iff in H as [e' [Hk He']]. apply filter_In in He' as [He' Hs].
    destruct e as [k s], e' as [k' s']. simpl in Hk. subst k'.
    pose proof (In_getSession _ _ _ Hnd He) as H1.
    pose proof (In_getSession _ _ _ Hnd He') as H2.
    rewrite H1 in H2. injection H2 as ->. congruence.
Qed.

Lemma sweep_sessions (l : SessionMap) :
  List.NoDup (sessionKeys l) ->
  fold_left (fun m e => deleteSession (fst e) m) (staleEntries now seenIds l) l =
  List.filter (fun e => negb (isStale now seenIds e)) l.
Proof.
  intros Hnd. rewrite deleteAll_filter. apply filter_ext_in.
  intros e He. now rewrite stale_key_iff.
Qed.

End Sweeping.

(** ** One cycle in closed form *)

Lemma updateSessions_effects store now cs ps :
  let r := updateSessions store now cs ps in
  let gone := evicted store now cs ps in
  u_removed r = map (closedEvent now) gone /\
  h_sessions (historyCache (u_store r)) =
    capHistory (rev (map (fun e => toHistorical (snd e)) gone) ++
                h_sessions (historyCache store)) /\
  u_dbSaves r = map (fun e => toHistorical (snd e)) gone /\
  h_stats (historyCache (u_store r)) = fold_left bumpEntry gone (h_stats (historyCache store)) /\
  u_added r = o_added (observe now (sessionCache store) cs ps).
Proof.
  unfold updateSessions, evicted, afterObservation. simpl.
  set (ob := observe now (sessionCache store) cs ps).
  destruct (sweep_fold now (o_seenIds ob) (o_sessions ob)
              (mkSweep (o_sessions ob) (h_sessions (historyCache store))
                 (h_stats (historyCache store)) [] (o_roster ob) []))
    as (H1 & H2 & H3 & H4 & _ & _).
  simpl in *. rewrite H1, H2, H3, H4. repeat split; reflexivity.
Qed.

Lemma updateSessions_open store now cs ps :
  wfSessions (sessionCache store) ->
  sessionCache (u_store (updateSessions store now cs ps)) =
  List.filter
    (fun e => negb (isStale now (o_seenIds (observe now (sessionCache store) cs ps)) e))
    (afterObservation store now cs ps).
Proof.
  intros Hwf. unfold updateSessions, afterObservation. simpl.
  set (ob := observe now (sessionCache store) cs ps).
  destruct (sweep_fold now (o_seenIds ob) (o_sessions ob)
              (mkSweep (o_sessions ob) (h_sessions (historyCache store))
                 (h_stats (historyCache store)) [] (o_roster ob) []))
    as (_ & _ & _ & _ & H5 & _).
  simpl in H5. rewrite H5. apply sweep_sessions.
  apply (observe_wf now _ cs ps) in Hwf. exact (proj1 Hwf).
Qed.

Lemma filter_wf (f : string * CachedSession -> bool) (m : SessionMap) :
  wfSessions m -> wfSessions (List.filter f m).
Proof.
  intros [Hnd Hk]. split.
  - clear Hk. unfold sessionKeys in *. induction m as [|a r IH]; simpl; [constructor|].
    apply List.NoDup_cons_iff in Hnd as [Ha Hr].
    destruct (f a); simpl; [|now apply IH].
    apply List.NoDup_cons_iff. split; [|now apply IH].
    intros H. apply Ha. apply in_map_iff in H as [x [Hx Hin]].
    apply filter_In in Hin as [Hin _]. rewrite <- Hx. now apply in_map.
  - apply List.Forall_forall. intros e He. apply filter_In in He as [He _].
    rewrite List.Forall_forall in Hk. now apply Hk.
Qed.

(** The cycle keeps the session object well formed. *)
Lemma updateSessions_wf store now cs ps :
  wfSessions (sessionCache store) ->
  wfSessions (sessionCache (u_store (updateSessions store now cs ps))).
Proof.
  intros Hwf. rewrite updateSessions_open by assumption.
  apply filter_wf. now apply observe_wf.
Qed.

(** ** Closures of one identity *)

Lemma sessionKey_inj t c t' c' : sessionKey t c = sessionKey t' c' -> t = t' /\ c = c'.
Proof.
  destruct t, t'; unfold sessionKey, controllerKey, pilotKey; cbv [String.append];
    intros H; try discriminate; injection H as ->; split; reflexivity.
Qed.

Lemma getSession_filter (f : string * CachedSession -> bool) (m : SessionMap) id :
  List.NoDup (sessionKeys m) ->
  getSession id (List.filter f m) =
  match getSession id m with
  | Some s => if f (id, s) then Some s else None
  | None => None
  end.
Proof.
  induction m as [|[k v] r IH]; simpl; [reflexivity|].
  intros Hnd. apply List.NoDup_cons_iff in Hnd as [Hk Hnd].
  destruct (String.eqb k id) eqn:E.
  - apply String.eqb_eq in E. subst k. destruct (f (id, v)); simpl.
    + now rewrite String.eqb_refl.
    + apply getSession_None. intros H. apply Hk.
      apply in_map_iff in H as [x [Hx Hin]]. apply filter_In in Hin as [Hin _].
      rewrite <- Hx. now apply in_map.
  - destruct (f (k, v)); simpl; [rewrite E|]; now apply IH.
Qed.

Lemma wf_key (m : SessionMap) id s :
  wfSessions m -> getSession id m = Some s -> id = sessionKey (cs_type s) (cs_callsign s).
Proof.
  intros [_ Hk] H. apply getSession_In in H. rewrite List.Forall_forall in Hk.
  exact (Hk _ H).
Qed.

(** Among the closures of a well-formed object, those of one identity come
    from the entry under its key. *)
Lemma closuresOf_events now t c (l : SessionMap) :
  Forall keyedByIdentity l ->
  closuresOf t c (map (closedEvent now) l) =
  map (closedEvent now) (List.filter (fun e => String.eqb (fst e) (sessionKey t c)) l).
Proof.
  intros Hk. unfold closuresOf. induction l as [|e r IH]; simpl; [reflexivity|].
  inversion Hk as [|? ? He Hr]; subst. rewrite (IH Hr).
  assert (E : sameIdentity t c (closedEvent now e) = String.eqb (fst e) (sessionKey t c)).
  { unfold sameIdentity, closedEvent. simpl. rewrite He.
    destruct (String.eqb (sessionKey _ _) (sessionKey t c)) eqn:Ek.
    - apply String.eqb_eq, sessionKey_inj in Ek as [-> ->].
      rewrite bool_decide_eq_true_2 by reflexivity. now rewrite String.eqb_refl.
    - apply String.eqb_neq in Ek. apply not_true_is_false. intros H.
      apply andb_true_iff in H as [H1 H2]. apply bool_decide_eq_true_1 in H1.
      apply String.eqb_eq in H2. apply Ek. now rewrite H1, H2. }
  rewrite E. now destruct (String.eqb (fst e) (sessionKey t c)).
Qed.

Section OneCycle.

Variables (store : Store) (now : Z) (cs : list ControllerEntry) (ps : list PilotEntry).
Hypothesis Hwf : wfSessions (sessionCache store).

Let r := updateSessions store now cs ps.

Lemma evicted_keyed : Forall keyedByIdentity (evicted store now cs ps).
Proof.
  apply List.Forall_forall. intros e He. unfold evicted, staleEntries in He.
  apply filter_In in He as [He _].
  pose proof (observe_wf now _ cs ps Hwf) as [_ Hk].
  rewrite List.Forall_forall in Hk. now apply Hk.
Qed.

Lemma unseen_not_elem id :
  ~ In id (observedKeys cs ps) ->
  bool_decide (id ∈ o_seenIds (observe now (sessionCache store) cs ps)) = false.
Proof.
  intros H. apply bool_decide_eq_false_2. now rewrite observe_seenIds.
Qed.

Lemma closuresOf_cycle t c :
  closuresOf t c (u_removed r) =
  map (closedEvent now)
    (staleEntries now (o_seenIds (observe now (sessionCache store) cs ps))
       (List.filter (fun e => String.eqb (fst e) (sessionKey t c))
          (afterObservation store now cs ps))).
Proof.
  destruct (updateSessions_effects store now cs ps) as (H1 & _).
  subst r. rewrite H1, closuresOf_events by apply evicted_keyed.
  unfold evicted, staleEntries. rewrite !filter_filter. f_equal.
  apply filter_ext. intros e. apply andb_comm.
Qed.

(** An open session that the snapshot does not list: evicted when its last
    sighting is more than the threshold old, untouched otherwise. *)
Lemma cycle_unobserved id s :
  getSession id (sessionCache store) = Some s ->
  ~ In id (observedKeys cs ps) ->
  if now - cs_lastSeen s >? staleThreshold then
    closuresOf (cs_type s) (cs_callsign s) (u_removed r) =
      [withRemovedAt now (toHistorical s)] /\
    getSession id (sessionCache (u_store r)) = None
  else
    closuresOf (cs_type s) (cs_callsign s) (u_removed r) = [] /\
    getSession id (sessionCache (u_store r)) = Some s.
Proof.
  intros Hs Hun.
  pose proof (wf_key _ _ _ Hwf Hs) as Hid.
  assert (Hseen : seenIn id (map fst (observedEntries now cs ps)) = false).
  { apply not_true_is_false. rewrite seenIn_In, observedEntries_keys. exact Hun. }
  assert (Hobs : getSession id (afterObservation store now cs ps) = Some s).
  { unfold afterObservation. rewrite observe_sessions.
    rewrite (observeAll_open now _ _ _ _ Hs). now rewrite Hseen. }
  pose proof (observe_wf now _ cs ps Hwf) as [Hnd _].
  assert (Hst : isStale now (o_seenIds (observe now (sessionCache store) cs ps)) (id, s)
                = (now - cs_lastSeen s >? staleThreshold)).
  { unfold isStale. simpl. now rewrite unseen_not_elem. }
  rewrite closuresOf_cycle, <- Hid,
    (filter_key_Some id (afterObservation store now cs ps) s Hnd Hobs).
  subst r. rewrite updateSessions_open by assumption.
  rewrite getSession_filter by exact Hnd. fold (afterObservation store now cs ps).
  rewrite Hobs. unfold staleEntries. simpl. rewrite Hst.
  destruct (now - cs_lastSeen s >? staleThreshold); split; reflexivity.
Qed.

(** An identity that is neither open nor listed: nothing closes and nothing
    opens. *)
Lemma cycle_absent t c :
  getSession (sessionKey t c) (sessionCache store) = None ->
  ~ In (sessionKey t c) (observedKeys cs ps) ->
  closuresOf t c (u_removed r) = [] /\
  getSession (sessionKey t c) (sessionCache (u_store r)) = None.
Proof.
  intros Hs Hun.
  assert (Hseen : seenIn (sessionKey t c) (map fst (observedEntries now cs ps)) = false).
  { apply not_true_is_false. rewrite seenIn_In, observedEntries_keys. exact Hun. }
  assert (Hobs : getSession (sessionKey t c) (afterObservation store now cs ps) = None).
  { unfold afterObservation. rewrite observe_sessions.
    now apply observeAll_absent. }
  pose proof (observe_wf now _ cs ps Hwf) as [Hnd _].
  rewrite closuresOf_cycle,
    (filter_key_None (sessionKey t c) (afterObservation store now cs ps) Hobs).
  subst r. rewrite updateSessions_open by assumption.
  rewrite getSession_filter by exact Hnd. fold (afterObservation store now cs ps).
  rewrite Hobs. split; reflexivity.
Qed.

End OneCycle.

(** ** Successive cycles *)

Arguments updateSessions : simpl never.

Lemma runCycles_cons store q rest :
  runCycles store (q :: rest) =
  (fst (runCycles (u_store (updateSessions store (poll_now q) (poll_controllers q)
                              (poll_pilots q))) rest),
   u_removed (updateSessions store (poll_now q) (poll_controllers q) (poll_pilots q)) ::
   snd (runCycles (u_store (updateSessions store (poll_now q) (poll_controllers q)
                              (poll_pilots q))) rest)).
Proof. simpl. now destruct (runCycles _ rest). Qed.

Lemma runCycles_app store a : forall b,
  runCycles store (a ++ b) =
  (fst (runCycles (fst (runCycles store a)) b),
   snd (runCycles store a) ++ snd (runCycles (fst (runCycles store a)) b)).
Proof.
  revert store. induction a as [|q r IH]; intros store b.
  - simpl. now destruct (runCycles store b).
  - rewrite <- app_comm_cons, !runCycles_cons, IH. reflexivity.
Qed.

Lemma runCycles_wf polls : forall store,
  wfSessions (sessionCache store) -> wfSessions (sessionCache (fst (runCycles store polls))).
Proof.
  induction polls as [|q r IH]; intros store H; [exact H|].
  rewrite runCycles_cons. cbn [fst]. apply IH. now apply updateSessions_wf.
Qed.

(** While its last sighting is within the threshold, an unlisted session
    stays open and untouched, cycle after cycle. *)
Lemma runCycles_grace polls : forall store id s,
  wfSessions (sessionCache store) ->
  getSession id (sessionCache store) = Some s ->
  (forall q, In q polls -> ~ In id (pollKeys q)) ->
  (forall q, In q polls -> poll_now q - cs_lastSeen s <= staleThreshold) ->
  map (closuresOf (cs_type s) (cs_callsign s)) (snd (runCycles store polls)) =
    repeat [] (length polls) /\
  getSession id (sessionCache (fst (runCycles store polls))) = Some s.
Proof.
  induction polls as [|q r IH]; intros store id s Hwf Hs Hun Hg; [now split|].
  rewrite runCycles_cons. cbn [fst snd].
  pose proof (cycle_unobserved store (poll_now q) (poll_controllers q) (poll_pilots q)
                Hwf id s Hs (Hun q (or_introl eq_refl))) as H.
  assert (E : (poll_now q - cs_lastSeen s >? staleThreshold) = false).
  { rewrite Z.gtb_ltb. apply Z.ltb_ge. apply Hg. now left. }
  rewrite E in H. destruct H as [H1 H2].
  destruct (IH _ id s (updateSessions_wf _ (poll_now q) (poll_controllers q)
                         (poll_pilots q) Hwf) H2) as [H3 H4].
  - intros q' Hq'. apply Hun. now right.
  - intros q' Hq'. apply Hg. now right.
  - split; [|exact H4]. cbn [map repeat length]. now rewrite H1, H3.
Qed.

(** Once an identity is neither open nor listed, no cycle closes it. *)
Lemma runCycles_absent polls : forall store t c,
  wfSessions (sessionCache store) ->
  getSession (sessionKey t c) (sessionCache store) = None ->
  (forall q, In q polls -> ~ In (sessionKey t c) (pollKeys q)) ->
  map (closuresOf t c) (snd (runCycles store polls)) = repeat [] (length polls) /\
  getSession (sessionKey t c) (sessionCache (fst (runCycles store polls))) = None.
Proof.
  induction polls as [|q r IH]; intros store t c Hwf Hs Hun; [now split|].
  rewrite runCycles_cons. cbn [fst snd].
  destruct (cycle_absent store (poll_now q) (poll_controllers q) (poll_pilots q)
              Hwf t c Hs (Hun q (or_introl eq_refl))) as [H1 H2].
  destruct (IH _ t c (updateSessions_wf _ (poll_now q) (poll_controllers q)
                        (poll_pilots q) Hwf) H2) as [H3 H4].
  - intros q' Hq'. apply Hun. now right.
  - split; [|exact H4]. cbn [map repeat length]. now rewrite H1, H3.
Qed.

(** C1. An open session whose identity no snapshot lists is closed by the
    first cycle whose clock is more than the stale threshold past the
    session's last sighting, and by no other cycle: the cycles before it
    close nothing of that identity, that cycle closes it once, with [endTime]
    the last sighting and not the clock of the cycle, and takes it out of the
    open sessions, and the cycles after it close nothing of that identity. *)
Theorem stale_session_closed_once store before p after id s :
  wfSessions (sessionCache store) ->
  getSession id (sessionCache store) = Some s ->
  (forall q, In q (before ++ p :: after) -> ~ In id (pollKeys q)) ->
  (forall q, In q before -> poll_now q - cs_lastSeen s <= staleThreshold) ->
  poll_now p - cs_lastSeen s > staleThreshold ->
  map (closuresOf (cs_type s) (cs_callsign s))
      (snd (runCycles store (before ++ p :: after))) =
    repeat [] (length before) ++
    [withRemovedAt (poll_now p) (toHistorical s)] :: repeat [] (length after) /\
  hs_endTime (withRemovedAt (poll_now p) (toHistorical s)) = cs_lastSeen s /\
  getSession id (sessionCache (fst (runCycles store (before ++ [p])))) = None.
Proof.
  intros Hwf Hs Hun Hg Hp.
  pose proof (wf_key _ _ _ Hwf Hs) as Hid.
  destruct (runCycles_grace before store id s Hwf Hs) as [G1 G2]; [|exact Hg|].
  { intros q Hq. apply Hun. apply in_app_iff. now left. }
  pose proof (runCycles_wf before store Hwf) as Hwf1.
  set (st1 := fst (runCycles store before)) in *.
  pose proof (cycle_unobserved st1 (poll_now p) (poll_controllers p) (poll_pilots p)
                Hwf1 id s G2) as H.
  assert (E : (poll_now p - cs_lastSeen s >? staleThreshold) = true).
  { rewrite Z.gtb_ltb. apply Z.ltb_lt. lia. }
  rewrite E in H. destruct H as [H1 H2].
  { apply Hun. apply in_app_iff. right. now left. }
  set (r := updateSessions st1 (poll_now p) (poll_controllers p) (poll_pilots p)) in *.
  destruct (runCycles_absent after (u_store r) (cs_type s) (cs_callsign s)) as [A1 A2].
  { now apply updateSessions_wf. }
  { now rewrite <- Hid. }
  { intros q Hq. rewrite <- Hid. apply Hun. apply in_app_iff. right. now right. }
  split; [|split].
  - rewrite runCycles_app, runCycles_cons. cbn [fst snd]. rewrite map_app.
    cbn [map]. fold st1. fold r. now rewrite G1, H1, A1.
  - reflexivity.
  - rewrite runCycles_app. cbn [fst]. fold st1.
    rewrite runCycles_cons. cbn [fst runCycles]. exact H2.
Qed.

Lemma towerStore_wf : wfSessions (sessionCache towerStore).
Proof.
  split.
  - repeat constructor. intros [].
  - repeat constructor.
Qed.

Lemma stale_session_closed_once_witness :
  map (closuresOf Controller "OPKC_TWR")
      (snd (runCycles towerStore
              ([emptyPoll (t0 + 200000)] ++ emptyPoll (t0 + 215000) :: [emptyPoll (t0 + 230000)]))) =
    [[]; [withRemovedAt (t0 + 215000) (toHistorical towerSession)]; []] /\
  hs_endTime (withRemovedAt (t0 + 215000) (toHistorical towerSession)) = t0 + 90000 /\
  getSession "atc-OPKC_TWR"
    (sessionCache (fst (runCycles towerStore
                          ([emptyPoll (t0 + 200000)] ++ [emptyPoll (t0 + 215000)])))) = None.
Proof.
  apply (stale_session_closed_once towerStore [emptyPoll (t0 + 200000)]
           (emptyPoll (t0 + 215000)) [emptyPoll (t0 + 230000)] "atc-OPKC_TWR" towerSession).
  - exact towerStore_wf.
  - reflexivity.
  - intros q Hq. simpl in Hq. destruct Hq as [<-|[<-|[<-|[]]]]; intros [].
  - intros q [<-|[]]. unfold staleThreshold. simpl. lia.
  - unfold staleThreshold. simpl. lia.
Defined.

(** ** Repeating a snapshot *)

Lemma isStale_ext now (s1 s2 : gset string) e :
  (fst e ∈ s1 <-> fst e ∈ s2) -> isStale now s1 e = isStale now s2 e.
Proof.
  intros H. unfold isStale. f_equal. f_equal. apply bool_decide_ext. exact H.
Qed.

Lemma getSession_is_key id (m : SessionMap) :
  getSession id m <> None <-> In id (sessionKeys m).
Proof.
  rewrite getSession_None. destruct (in_dec string_dec id (sessionKeys m)); tauto.
Qed.

(** When every listed identity is open already, the loops add nothing. *)
Lemma observe_adds_nothing now m cs ps :
  (forall id, In id (observedKeys cs ps) -> getSession id m <> None) ->
  o_added (observe now m cs ps) = [].
Proof.
  intros H. unfold observe, observedKeys in *.
  set (st0 := mkObserved m [] ∅ []).
  assert (Hc : forall st,
    (forall c, In c cs -> In (controllerKey (c_callsign c)) (sessionKeys (o_sessions st))) ->
    o_added (fold_left (observeController now) cs st) = o_added st /\
    sessionKeys (o_sessions (fold_left (observeController now) cs st)) =
      sessionKeys (o_sessions st)).
  { clear. induction cs as [|c r IH]; intros st Hin; simpl; [now split|].
    assert (Hk : In (controllerKey (c_callsign c)) (sessionKeys (o_sessions st)))
      by (apply Hin; now left).
    apply getSession_is_key in Hk.
    assert (E : o_added (observeController now st c) = o_added st /\
                sessionKeys (o_sessions (observeController now st c)) =
                sessionKeys (o_sessions st)).
    { unfold observeController.
      destruct (getSession (controllerKey (c_callsign c)) (o_sessions st));
        [|contradiction]. simpl. split; [reflexivity|apply touchSession_keys]. }
    destruct E as [E1 E2]. destruct (IH (observeController now st c)) as [I1 I2].
    - intros c' Hc'. rewrite E2. apply Hin. now right.
    - split; congruence. }
  assert (Hp : forall st,
    (forall p, In p ps -> In (pilotKey (p_callsign p)) (sessionKeys (o_sessions st))) ->
    o_added (fold_left (observePilot now) ps st) = o_added st).
  { clear. induction ps as [|p r IH]; intros st Hin; simpl; [reflexivity|].
    assert (Hk : In (pilotKey (p_callsign p)) (sessionKeys (o_sessions st)))
      by (apply Hin; now left).
    apply getSession_is_key in Hk.
    assert (E : o_added (observePilot now st p) = o_added st /\
                sessionKeys (o_sessions (observePilot now st p)) =
                sessionKeys (o_sessions st)).
    { unfold observePilot.
      destruct (getSession (pilotKey (p_callsign p)) (o_sessions st));
        [|contradiction]. simpl. split; [reflexivity|apply touchSession_keys]. }
    destruct E as [E1 E2]. rewrite IH; [exact E1|].
    intros p' Hp'. rewrite E2. apply Hin. now right. }
  destruct (Hc st0) as [C1 C2].
  { intros c Hin. apply getSession_is_key. apply H, in_app_iff. left.
    now apply (in_map (fun c => controllerKey (c_callsign c))). }
  rewrite Hp; [exact C1|].
  intros p Hin. rewrite C2. apply getSession_is_key. apply H, in_app_iff. right.
  now apply (in_map (fun p => pilotKey (p_callsign p))).
Qed.

(** A listed identity is open when the cycle ends. *)
Lemma listed_stays_open store now cs ps id :
  wfSessions (sessionCache store) ->
  In id (observedKeys cs ps) ->
  getSession id (sessionCache (u_store (updateSessions store now cs ps))) <> None.
Proof.
  intros Hwf Hin. rewrite updateSessions_open by assumption.
  pose proof (observe_wf now _ cs ps Hwf) as [Hnd _].
  rewrite getSession_filter by exact Hnd.
  assert (Hp : getSession id (afterObservation store now cs ps) <> None).
  { unfold afterObservation. rewrite observe_sessions. apply observeAll_present.
    apply seenIn_In. now rewrite observedEntries_keys. }
  destruct (getSession id (afterObservation store now cs ps)) as [s|]; [|contradiction].
  unfold isStale. simpl. rewrite bool_decide_eq_true_2; [discriminate|].
  now apply observe_seenIds.
Qed.

(** Whatever a cycle closes is not in its snapshot. *)
Lemma closed_not_listed store now cs ps h :
  wfSessions (sessionCache store) ->
  In h (u_removed (updateSessions store now cs ps)) ->
  ~ In (sessionKey (hs_type h) (hs_callsign h)) (observedKeys cs ps).
Proof.
  intros Hwf Hin.
  destruct (updateSessions_effects store now cs ps) as (H1 & _).
  rewrite H1 in Hin. apply in_map_iff in Hin as [e [<- He]].
  pose proof (evicted_keyed store now cs ps Hwf) as Hk.
  rewrite List.Forall_forall in Hk. specialize (Hk _ He).
  unfold evicted, staleEntries in He. apply filter_In in He as [_ Hs].
  unfold isStale in Hs. apply andb_true_iff in Hs as [Hs _].
  apply negb_true_iff, bool_decide_eq_false_1 in Hs.
  unfold closedEvent. simpl. rewrite <- Hk. intros Hl. apply Hs.
  now apply observe_seenIds.
Qed.

(** With the clock unchanged, a second cycle on the same snapshot finds
    nothing stale. *)
Lemma second_evicts_nothing store now cs ps :
  wfSessions (sessionCache store) ->
  evicted (u_store (updateSessions store now cs ps)) now cs ps = [].
Proof.
  intros Hwf. unfold evicted, staleEntries. apply filter_none. intros e He.
  set (store1 := u_store (updateSessions store now cs ps)) in *.
  unfold afterObservation in He. rewrite observe_sessions in He.
  apply observeAll_In in He as [He|He].
  - rewrite observedEntries_keys in He. unfold isStale.
    rewrite bool_decide_eq_true_2; [reflexivity|]. now apply observe_seenIds.
  - subst store1. rewrite updateSessions_open in He by assumption.
    apply filter_In in He as [_ He]. apply negb_true_iff in He.
    rewrite <- He. apply isStale_ext. now rewrite !observe_seenIds.
Qed.

(** C2, the claim as written fails: with the tower session unlisted and
    110 s past its last sighting, a first cycle on a snapshot keeps it open,
    and a second cycle on the same snapshot 15 s later closes it. *)
Lemma repeated_snapshot_closes_after_grace :
  let r1 := updateSessions towerStore (t0 + 200000) [approachEntry] [] in
  let r2 := updateSessions (u_store r1) (t0 + 215000) [approachEntry] [] in
  u_removed r1 = [] /\
  u_removed r2 = [withRemovedAt (t0 + 215000) (toHistorical towerSession)] /\
  ~ (u_removed r2 = [] /\ u_added r2 = []).
Proof.
  assert (H : u_removed (updateSessions
                (u_store (updateSessions towerStore (t0 + 200000) [approachEntry] []))
                (t0 + 215000) [approachEntry] []) =
              [withRemovedAt (t0 + 215000) (toHistorical towerSession)])
    by (vm_compute; reflexivity).
  cbv zeta. split; [vm_compute; reflexivity|]. split; [exact H|].
  rewrite H. intros [E _]. discriminate E.
Qed.

(** C2, amended. A second cycle on the snapshot of the first opens no
    session and closes no identity the snapshot lists; when both cycles read
    the same clock it closes nothing at all. *)
Theorem repeated_snapshot store now1 now2 cs ps :
  wfSessions (sessionCache store) ->
  let r1 := updateSessions store now1 cs ps in
  let r2 := updateSessions (u_store r1) now2 cs ps in
  u_added r2 = [] /\
  (forall h, In h (u_removed r2) ->
     ~ In (sessionKey (hs_type h) (hs_callsign h)) (observedKeys cs ps)) /\
  (now2 = now1 -> u_removed r2 = []).
Proof.
  intros Hwf r1 r2.
  pose proof (updateSessions_wf store now1 cs ps Hwf) as Hwf1. fold r1 in Hwf1.
  split; [|split].
  - destruct (updateSessions_effects (u_store r1) now2 cs ps) as (_ & _ & _ & _ & H5).
    subst r2. rewrite H5. apply observe_adds_nothing.
    intros id Hid. subst r1. now apply listed_stays_open.
  - intros h Hh. now apply (closed_not_listed (u_store r1) now2 cs ps).
  - intros ->. destruct (updateSessions_effects (u_store r1) now1 cs ps) as (H1 & _).
    subst r2. rewrite H1. subst r1. now rewrite second_evicts_nothing.
Qed.

Lemma repeated_snapshot_witness :
  let r1 := updateSessions towerStore (t0 + 200000) [approachEntry] [] in
  let r2 := updateSessions (u_store r1) (t0 + 200000) [approachEntry] [] in
  u_added r2 = [] /\
  (forall h, In h (u_removed r2) ->
     ~ In (sessionKey (hs_type h) (hs_callsign h)) (observedKeys [approachEntry] [])) /\
  (t0 + 200000 = t0 + 200000 -> u_removed r2 = []).
Proof.
  exact (repeated_snapshot towerStore (t0 + 200000) (t0 + 200000) [approachEntry] []
           towerStore_wf).
Defined.

(** ** Sighting an open session again *)

Lemma observeController_roster_mono now st c x :
  In x (o_roster st) -> In x (o_roster (observeController now st c)).
Proof.
  intros H. unfold observeController. destruct (getSession _ _); simpl;
    apply in_app_iff; now left.
Qed.

Lemma observePilot_roster_mono now st p x :
  In x (o_roster st) -> In x (o_roster (observePilot now st p)).
Proof.
  intros H. unfold observePilot. destruct (getSession _ _); simpl;
    apply in_app_iff; now left.
Qed.

Lemma observeAt_keeps now m a id : getSession id m <> None -> getSession id (observeAt now m a) <> None.
Proof.
  intros H. destruct (getSession id m) as [s|] eqn:E; [|contradiction].
  change (observeAt now m a) with (fold_left (observeAt now) [a] m).
  rewrite (observeAll_open now [a] m id s E). discriminate.
Qed.

Lemma controllers_roster_mono now cs : forall st x,
  In x (o_roster st) -> In x (o_roster (fold_left (observeController now) cs st)).
Proof.
  induction cs as [|c r IH]; intros st x H; simpl; [exact H|].
  apply IH. now apply observeController_roster_mono.
Qed.

Lemma pilots_roster_mono now ps : forall st x,
  In x (o_roster st) -> In x (o_roster (fold_left (observePilot now) ps st)).
Proof.
  induction ps as [|p r IH]; intros st x H; simpl; [exact H|].
  apply IH. now apply observePilot_roster_mono.
Qed.

Lemma pilots_keep now ps : forall st id,
  getSession id (o_sessions st) <> None ->
  getSession id (o_sessions (fold_left (observePilot now) ps st)) <> None.
Proof.
  induction ps as [|p r IH]; intros st id H; simpl; [exact H|].
  apply IH. rewrite observePilot_sessions. now apply observeAt_keeps.
Qed.

Lemma controllers_keep now cs : forall st id,
  getSession id (o_sessions st) <> None ->
  getSession id (o_sessions (fold_left (observeController now) cs st)) <> None.
Proof.
  induction cs as [|c r IH]; intros st id H; simpl; [exact H|].
  apply IH. rewrite observeController_sessions. now apply observeAt_keeps.
Qed.

(** A controller sighted while its session is open has its name and callsign
    sent to the roster. *)
Lemma controllers_notify now cs : forall st c,
  In c cs -> getSession (controllerKey (c_callsign c)) (o_sessions st) <> None ->
  Js.truthy (c_cid c) = true ->
  In (UpdateMemberFromLive (c_cid c) (c_name c) (c_callsign c))
     (o_roster (fold_left (observeController now) cs st)).
Proof.
  induction cs as [|c' r IH]; intros st c Hin Hk Hcid; simpl; [destruct Hin|].
  destruct Hin as [->|Hin].
  - apply controllers_roster_mono. unfold observeController.
    destruct (getSession (controllerKey (c_callsign c)) (o_sessions st)); [|contradiction].
    simpl. apply in_app_iff. right. unfold whenTruthy. rewrite Hcid. now left.
  - apply IH; try assumption. rewrite observeController_sessions. now apply observeAt_keeps.
Qed.

(** A pilot sighted while its session is open has its callsign sent to the
    roster. *)
Lemma pilots_notify now ps : forall st p,
  In p ps -> getSession (pilotKey (p_callsign p)) (o_sessions st) <> None ->
  Js.truthy (p_cid p) = true ->
  In (UpdateMemberLastSeen (p_cid p) (p_callsign p))
     (o_roster (fold_left (observePilot now) ps st)).
Proof.
  induction ps as [|p' r IH]; intros st p Hin Hk Hcid; simpl; [destruct Hin|].
  destruct Hin as [->|Hin].
  - apply pilots_roster_mono. unfold observePilot.
    destruct (getSession (pilotKey (p_callsign p)) (o_sessions st)); [|contradiction].
    simpl. apply in_app_iff. right. unfold whenTruthy. rewrite Hcid. now left.
  - apply IH; try assumption. rewrite observePilot_sessions. now apply observeAt_keeps.
Qed.

Lemma updateSessions_roster store now cs ps x :
  In x (o_roster (observe now (sessionCache store) cs ps)) ->
  In x (u_roster (updateSessions store now cs ps)).
Proof.
  intros H. unfold updateSessions. cbn [u_roster].
  set (ob := observe now (sessionCache store) cs ps) in *.
  destruct (sweep_fold now (o_seenIds ob) (o_sessions ob)
              (mkSweep (o_sessions ob) (h_sessions (historyCache store))
                 (h_stats (historyCache store)) [] (o_roster ob) []))
    as (_ & _ & _ & _ & _ & H6).
  rewrite H6. apply in_app_iff. now left.
Qed.

(** C4, the claim as written fails: the tower controller and the pilot are
    sighted again with another display name, frequency and arrival; their
    open sessions get the new [lastSeen] and keep the attributes of the first
    sighting. *)
Lemma sighting_keeps_first_attributes :
  let r := updateSessions mixedStore (t0 + 100000) [towerAgain] [pilotAgain] in
  getSession "atc-OPKC_TWR" (sessionCache (u_store r)) =
    Some (withLastSeen (t0 + 100000) towerSession) /\
  getSession "pilot-PIA301" (sessionCache (u_store r)) =
    Some (withLastSeen (t0 + 100000) pilotSession) /\
  cs_name (withLastSeen (t0 + 100000) towerSession) <> c_name towerAgain /\
  cs_frequency (withLastSeen (t0 + 100000) towerSession) <> Some (c_frequency towerAgain) /\
  cs_arrival (withLastSeen (t0 + 100000) pilotSession) <> Some (p_arrival pilotAgain).
Proof.
  cbv zeta. split; [vm_compute; reflexivity|]. split; [vm_compute; reflexivity|].
  repeat split; discriminate.
Qed.

(** C4, amended. When a listed identity is already open, the cycle sets
    [lastSeen] of its session to the clock of the cycle and leaves every
    other stored field as it was: the start time, and also the name, the
    frequency and facility, the departure, arrival and aircraft of the first
    sighting.  The refreshed display name goes to the roster: a controller
    row with a non-zero cid fires [updateMemberFromLive] with its name and
    callsign, a pilot row fires [updateMemberLastSeen]. *)
Theorem sighting_refreshes_last_seen store now cs ps id s :
  wfSessions (sessionCache store) ->
  getSession id (sessionCache store) = Some s ->
  In id (observedKeys cs ps) ->
  let r := updateSessions store now cs ps in
  getSession id (sessionCache (u_store r)) = Some (withLastSeen now s) /\
  cs_lastSeen (withLastSeen now s) = now /\
  cs_startTime (withLastSeen now s) = cs_startTime s /\
  cs_id (withLastSeen now s) = cs_id s /\
  cs_type (withLastSeen now s) = cs_type s /\
  cs_cid (withLastSeen now s) = cs_cid s /\
  cs_name (withLastSeen now s) = cs_name s /\
  cs_callsign (withLastSeen now s) = cs_callsign s /\
  cs_frequency (withLastSeen now s) = cs_frequency s /\
  cs_facility (withLastSeen now s) = cs_facility s /\
  cs_departure (withLastSeen now s) = cs_departure s /\
  cs_arrival (withLastSeen now s) = cs_arrival s /\
  cs_aircraft (withLastSeen now s) = cs_aircraft s /\
  (forall c, In c cs -> controllerKey (c_callsign c) = id -> c_cid c <> 0 ->
     In (UpdateMemberFromLive (c_cid c) (c_name c) (c_callsign c)) (u_roster r)) /\
  (forall p, In p ps -> pilotKey (p_callsign p) = id -> p_cid p <> 0 ->
     In (UpdateMemberLastSeen (p_cid p) (p_callsign p)) (u_roster r)).
Proof.
  intros Hwf Hs Hin r. subst r.
  assert (Hopen : getSession id (sessionCache store) <> None) by congruence.
  split; [|repeat (split; [reflexivity|]); split].
  - rewrite updateSessions_open by assumption.
    pose proof (observe_wf now _ cs ps Hwf) as [Hnd _].
    rewrite getSession_filter by exact Hnd.
    unfold afterObservation. rewrite observe_sessions.
    rewrite (observeAll_open now _ _ _ _ Hs).
    assert (E : seenIn id (map fst (observedEntries now cs ps)) = true).
    { apply seenIn_In. now rewrite observedEntries_keys. }
    rewrite E. unfold isStale. cbn [fst snd].
    rewrite bool_decide_eq_true_2 by now apply observe_seenIds. reflexivity.
  - intros c Hc Hk Hcid. apply updateSessions_roster. unfold observe.
    apply pilots_roster_mono. apply controllers_notify; try assumption.
    + cbn [o_sessions]. now rewrite Hk.
    + unfold Js.truthy. apply negb_true_iff, Z.eqb_neq. exact Hcid.
  - intros p Hp Hk Hcid. apply updateSessions_roster. unfold observe.
    apply pilots_notify; try assumption.
    + apply controllers_keep. cbn [o_sessions]. now rewrite Hk.
    + unfold Js.truthy. apply negb_true_iff, Z.eqb_neq. exact Hcid.
Qed.

Lemma sighting_refreshes_last_seen_witness :
  getSession "atc-OPKC_TWR"
    (sessionCache (u_store (updateSessions towerStore (t0 + 100000) [towerAgain] []))) =
  Some (withLastSeen (t0 + 100000) towerSession).
Proof.
  refine (proj1 (sighting_refreshes_last_seen towerStore (t0 + 100000) [towerAgain] []
                   "atc-OPKC_TWR" towerSession towerStore_wf _ _)).
  - reflexivity.
  - simpl. left. reflexivity.
Defined.

(** ** Counters and the stored list *)

Lemma sumMinutes_acc (l : list HistoricalSession) : forall acc,
  fold_left (fun sum s => sum + hs_durationMinutes s) l acc = acc + sumMinutes l.
Proof.
  unfold sumMinutes. induction l as [|a r IH]; intros acc; simpl; [lia|].
  rewrite IH, (IH (0 + _)). lia.
Qed.

Lemma sumMinutes_app a b : sumMinutes (a ++ b) = sumMinutes a + sumMinutes b.
Proof. unfold sumMinutes at 1. rewrite fold_left_app, sumMinutes_acc. reflexivity. Qed.

Lemma recalculateStats_app a b :
  recalculateStats (a ++ b) = addStats (recalculateStats a) (recalculateStats b).
Proof.
  unfold recalculateStats, addStats, recalculatedControllerMinutes,
    recalculatedControllerSessions, recalculatedPilotMinutes, recalculatedPilotSessions.
  cbn [totalControllerMinutes totalPilotMinutes totalControllerSessions totalPilotSessions].
  rewrite !List.filter_app, !sumMinutes_app, !List.length_app, !Nat2Z.inj_add. reflexivity.
Qed.

Lemma addStats_comm a b : addStats a b = addStats b a.
Proof. destruct a, b. unfold addStats. simpl. f_equal; lia. Qed.

Lemma addStats_assoc a b c : addStats a (addStats b c) = addStats (addStats a b) c.
Proof. destruct a, b, c. unfold addStats. simpl. f_equal; lia. Qed.

Lemma addStats_zero a : addStats a (recalculateStats []) = a.
Proof.
  destruct a. unfold addStats, recalculateStats, recalculatedControllerMinutes,
    recalculatedControllerSessions, recalculatedPilotMinutes, recalculatedPilotSessions,
    sumMinutes.
  simpl. f_equal; lia.
Qed.

Lemma recalculateStats_rev l : recalculateStats (rev l) = recalculateStats l.
Proof.
  induction l as [|a r IH]; [reflexivity|]. simpl rev.
  rewrite recalculateStats_app, IH. change (a :: r) with ([a] ++ r).
  rewrite recalculateStats_app. apply addStats_comm.
Qed.

(** The in-place increment of a closure adds what the fold counts for the
    closed session. *)
Lemma bumpEntry_adds st e :
  bumpEntry st e = addStats st (recalculateStats [toHistorical (snd e)]).
Proof.
  destruct st as [a b c d]. unfold bumpEntry, bumpStats, addStats, recalculateStats,
    recalculatedControllerMinutes, recalculatedControllerSessions,
    recalculatedPilotMinutes, recalculatedPilotSessions, countedController,
    isPilotSession, sumMinutes.
  cbn [List.filter toHistorical hs_type hs_callsign].
  destruct (cs_type (snd e)); cbn [isController negb andb].
  - destruct (isAtis (cs_callsign (snd e))); simpl; f_equal; lia.
  - simpl. f_equal; lia.
Qed.

Lemma bumpEntries_add (l : SessionMap) : forall st,
  fold_left bumpEntry l st =
  addStats st (recalculateStats (map (fun e => toHistorical (snd e)) l)).
Proof.
  induction l as [|e r IH]; intros st; simpl fold_left.
  - now rewrite addStats_zero.
  - rewrite IH, bumpEntry_adds. cbn [map].
    change (toHistorical (snd e) :: map (fun e0 => toHistorical (snd e0)) r)
      with ([toHistorical (snd e)] ++ map (fun e0 => toHistorical (snd e0)) r).
    now rewrite recalculateStats_app, addStats_assoc.
Qed.

Lemma capHistory_firstn l : capHistory l = firstn historyLimit l.
Proof.
  unfold capHistory. destruct (historyLimit <? length l)%nat eqn:E; [reflexivity|].
  apply Nat.ltb_ge in E. symmetry. now apply firstn_all2.
Qed.

Lemma capHistory_fits l : (length l <= historyLimit)%nat -> capHistory l = l.
Proof. intros H. rewrite capHistory_firstn. now apply firstn_all2. Qed.

Lemma updateSessions_history store now cs ps :
  h_sessions (historyCache (u_store (updateSessions store now cs ps))) =
  capHistory (historyBeforeCap store now cs ps).
Proof.
  destruct (updateSessions_effects store now cs ps) as (_ & H2 & _).
  rewrite H2. unfold historyBeforeCap, closedBy. reflexivity.
Qed.

(** C5, the claim as written fails: a history file holds a thousand
    sessions and counters equal to the fold over them; one more closure puts
    the new session in front, drops the last one and adds the new minutes to
    the old counters, which then differ from the fold over the stored
    list. *)
Lemma counters_drift_past_the_cap :
  statsMatch (historyCache fullStore) /\
  h_stats (historyCache (u_store (updateSessions fullStore (t0 + 215000) [] []))) =
    mkStats 5002 0 1001 0 /\
  recalculateStats
    (h_sessions (historyCache (u_store (updateSessions fullStore (t0 + 215000) [] [])))) =
    mkStats 4997 0 1000 0 /\
  ~ statsMatch (historyCache (u_store (updateSessions fullStore (t0 + 215000) [] []))).
Proof.
  split; [reflexivity|]. split; [vm_compute; reflexivity|].
  split; [vm_compute; reflexivity|]. intros H. vm_compute in H. discriminate H.
Qed.

(** C5, amended. The live cycle adds to the stored counters what the fold
    counts for the sessions it closes, and the synchroniser replaces the
    counters by the fold over the merged list as it is before the cap.  So
    the counters equal the fold over the stored list after a live cycle that
    starts from matching counters and after a synchroniser run, as long as
    the list stays within the cap. *)
Theorem counters_follow_closures store now cs ps db :
  let r := updateSessions store now cs ps in
  let synced := syncDatabaseToCache (Some db) store in
  let merged := importedHistory db (h_sessions (historyCache store)) in
  h_stats (historyCache (u_store r)) =
    addStats (h_stats (historyCache store)) (recalculateStats (closedBy store now cs ps)) /\
  (statsMatch (historyCache store) ->
   (length (historyBeforeCap store now cs ps) <= historyLimit)%nat ->
   statsMatch (historyCache (u_store r))) /\
  h_stats (historyCache synced) = recalculateStats merged /\
  ((length merged <= historyLimit)%nat -> statsMatch (historyCache synced)).
Proof.
  intros r synced merged. subst r synced merged.
  assert (H4 : h_stats (historyCache (u_store (updateSessions store now cs ps))) =
    addStats (h_stats (historyCache store)) (recalculateStats (closedBy store now cs ps))).
  { destruct (updateSessions_effects store now cs ps) as (_ & _ & _ & H4 & _).
    rewrite H4. apply bumpEntries_add. }
  split; [exact H4|]. split; [|split].
  - intros Hm Hfit. unfold statsMatch in *.
    rewrite H4, updateSessions_history, (capHistory_fits _ Hfit), Hm.
    unfold historyBeforeCap. rewrite recalculateStats_app, recalculateStats_rev.
    apply addStats_comm.
  - reflexivity.
  - intros Hfit. unfold statsMatch, syncDatabaseToCache.
    cbn [historyCache h_stats h_sessions]. now rewrite capHistory_fits.
Qed.

Lemma counters_follow_closures_witness :
  statsMatch (historyCache (u_store (updateSessions towerStore (t0 + 215000) [] []))).
Proof.
  refine (proj1 (proj2 (counters_follow_closures towerStore (t0 + 215000) [] []
                          (mkDatabase [] [] []))) _ _).
  - reflexivity.
  - apply Nat.leb_le. vm_compute. reflexivity.
Defined.

(** ** The cap of the history list *)

Lemma importSession_extends sessionId h st :
  exists added, im_sessions (importSession sessionId h st) = added ++ im_sessions st.
Proof.
  unfold importSession. destruct (bool_decide _); simpl.
  - now exists [].
  - now exists [h].
Qed.

Lemma importControllers_extend l : forall st,
  exists added, im_sessions (fold_left importController l st) = added ++ im_sessions st.
Proof.
  induction l as [|x r IH]; intros st; simpl; [now exists []|].
  destruct (IH (importController st x)) as [a1 H1].
  destruct (importSession_extends
              ("atc-" +:+ cr_callsign x +:+ "-" +:+ Js.toISOString (cr_start x))
              (controllerRowToHistorical
                 ("atc-" +:+ cr_callsign x +:+ "-" +:+ Js.toISOString (cr_start x)) x) st)
    as [a2 H2].
  exists (a1 ++ a2). rewrite H1. unfold importController. rewrite H2.
  now rewrite app_assoc.
Qed.

Lemma importPilots_extend l : forall st,
  exists added, im_sessions (fold_left importPilot l st) = added ++ im_sessions st.
Proof.
  induction l as [|x r IH]; intros st; simpl; [now exists []|].
  destruct (IH (importPilot st x)) as [a1 H1].
  destruct (importSession_extends
              ("pilot-" +:+ pr_callsign x +:+ "-" +:+ Js.toISOString (pr_start x))
              (pilotRowToHistorical
                 ("pilot-" +:+ pr_callsign x +:+ "-" +:+ Js.toISOString (pr_start x)) x) st)
    as [a2 H2].
  exists (a1 ++ a2). rewrite H1. unfold importPilot. rewrite H2.
  now rewrite app_assoc.
Qed.

(** The synchroniser puts what it imports in front of the list it found. *)
Lemma importedHistory_extends db old :
  exists added, importedHistory db old = added ++ old.
Proof.
  unfold importedHistory.
  set (st0 := mkImport old (list_to_set (map hs_id old)) 0 0).
  destruct (importControllers_extend
              (orderByDesc cr_start (List.filter notAtisRow (controllerSessionTable db))) st0)
    as [a1 H1].
  set (st1 := fold_left importController _ st0) in *.
  destruct (importPilots_extend (orderByDesc pr_start (pilotSessionTable db))
              (mkImport (im_sessions st1) (im_ids st1) 0 0)) as [a2 H2].
  exists (a2 ++ a1). rewrite H2. cbn [im_sessions]. rewrite H1. cbn [im_sessions].
  now rewrite app_assoc.
Qed.

(** The cap of the history list.  After a live cycle and after a
    synchroniser run the history list holds at most 1000 sessions.  Every
    new session was put in front of the
    list, so the list runs from the most to the least recently added; the
    stored list is the first 1000 of it, and what is dropped is its tail, the
    entries added longest ago. *)
Theorem history_capped_newest_first store now cs ps db :
  let kept := h_sessions (historyCache (u_store (updateSessions store now cs ps))) in
  let synced := h_sessions (historyCache (syncDatabaseToCache (Some db) store)) in
  let old := h_sessions (historyCache store) in
  (kept = firstn historyLimit (rev (closedBy store now cs ps) ++ old) /\
   (length kept <= historyLimit)%nat /\
   rev (closedBy store now cs ps) ++ old =
     kept ++ skipn historyLimit (rev (closedBy store now cs ps) ++ old)) /\
  (exists added,
     importedHistory db old = added ++ old /\
     synced = firstn historyLimit (added ++ old) /\
     (length synced <= historyLimit)%nat /\
     added ++ old = synced ++ skipn historyLimit (added ++ old)).
Proof.
  intros kept synced old. subst kept synced old. split.
  - rewrite updateSessions_history, capHistory_firstn. unfold historyBeforeCap.
    split; [reflexivity|]. split; [apply List.firstn_le_length|].
    symmetry. apply List.firstn_skipn.
  - destruct (importedHistory_extends db (h_sessions (historyCache store))) as [added H].
    exists added. split; [exact H|].
    unfold syncDatabaseToCache. cbn [historyCache h_sessions].
    rewrite capHistory_firstn, H.
    split; [reflexivity|]. split; [apply List.firstn_le_length|].
    symmetry. apply List.firstn_skipn.
Qed.

(** ** ATIS closures and the relational store *)

Lemma dbWrites_no_atis env saves row :
  In (InsertController row) (dbWrites env saves) -> isAtis (cr_callsign row) = false.
Proof.
  unfold dbWrites. intros H. apply in_flat_map in H as [h [_ Hi]].
  unfold saveSessionToDatabase in Hi.
  destruct (negb (databaseUrl env)); [destruct Hi|].
  destruct (negb (connectOk env)); [destruct Hi|].
  destruct (hs_type h).
  - destruct (isAtis (hs_callsign h)) eqn:E; [destruct Hi|].
    destruct Hi as [[= <-]|[]]. exact E.
  - destruct Hi as [Hi|[]]. discriminate Hi.
Qed.

Lemma In_firstn_front {A} (x : A) (a b : list A) n :
  In x a -> (length a <= n)%nat -> In x (firstn n (a ++ b)).
Proof.
  intros Hx Hn. rewrite List.firstn_app. apply in_app_iff. left.
  now rewrite firstn_all2.
Qed.

Lemma withRemovedAt_inj now h1 h2 :
  withRemovedAt now h1 = withRemovedAt now h2 -> hs_removedAt h1 = hs_removedAt h2 ->
  h1 = h2.
Proof.
  destruct h1, h2. unfold withRemovedAt. simpl. intros H Hr.
  injection H. intros. subst. reflexivity.
Qed.

Lemma withRemovedAt_toHistorical now e s :
  closedEvent now e = withRemovedAt now (toHistorical s) ->
  toHistorical (snd e) = toHistorical s.
Proof. intros H. now apply (withRemovedAt_inj now). Qed.

(** C10. A stale controller session whose callsign ends in [_ATIS], in any
    letter case, is closed like any other: it is returned among the removed
    sessions and put in front of the history list, where it is stored as
    long as the cycle closes no more than 1000 sessions.  The save into the
    relational store returns without an insert for it, and no controller
    insert of a live cycle carries such a callsign. *)
Theorem atis_closure_in_history_not_in_database env store now cs ps id s :
  wfSessions (sessionCache store) ->
  getSession id (sessionCache store) = Some s ->
  cs_type s = Controller ->
  isAtis (cs_callsign s) = true ->
  ~ In id (observedKeys cs ps) ->
  now - cs_lastSeen s > staleThreshold ->
  let r := updateSessions store now cs ps in
  In (withRemovedAt now (toHistorical s)) (u_removed r) /\
  In (toHistorical s) (historyBeforeCap store now cs ps) /\
  ((length (closedBy store now cs ps) <= historyLimit)%nat ->
   In (toHistorical s) (h_sessions (historyCache (u_store r)))) /\
  In (toHistorical s) (u_dbSaves r) /\
  saveSessionToDatabase env (toHistorical s) = None /\
  (forall row, In (InsertController row) (dbWrites env (u_dbSaves r)) ->
     isAtis (cr_callsign row) = false).
Proof.
  intros Hwf Hs Hty Hatis Hun Hst r. subst r.
  pose proof (cycle_unobserved store now cs ps Hwf id s Hs Hun) as Hc.
  assert (E : (now - cs_lastSeen s >? staleThreshold) = true).
  { rewrite Z.gtb_ltb. apply Z.ltb_lt. lia. }
  rewrite E in Hc. destruct Hc as [Hc _].
  assert (Hrem : In (withRemovedAt now (toHistorical s))
                    (u_removed (updateSessions store now cs ps))).
  { assert (Hin : In (withRemovedAt now (toHistorical s))
                     (closuresOf (cs_type s) (cs_callsign s)
                        (u_removed (updateSessions store now cs ps)))).
    { rewrite Hc. now left. }
    unfold closuresOf in Hin. now apply filter_In in Hin as [Hin _]. }
  destruct (updateSessions_effects store now cs ps) as (H1 & _ & H3 & _).
  assert (Hclosed : In (toHistorical s) (closedBy store now cs ps)).
  { rewrite H1 in Hrem. apply in_map_iff in Hrem as [e [He Hin]].
    unfold closedBy. apply in_map_iff. exists e. split; [|exact Hin].
    now apply withRemovedAt_toHistorical in He. }
  split; [exact Hrem|]. split; [|split; [|split; [|split]]].
  - unfold historyBeforeCap. apply in_app_iff. left. now apply -> in_rev.
  - intros Hfit. rewrite updateSessions_history, capHistory_firstn.
    unfold historyBeforeCap. apply In_firstn_front.
    + now apply -> in_rev.
    + now rewrite length_rev.
  - rewrite H3. exact Hclosed.
  - unfold saveSessionToDatabase.
    destruct (negb (databaseUrl env)); [reflexivity|].
    destruct (negb (connectOk env)); [reflexivity|].
    cbn [toHistorical hs_type hs_callsign]. now rewrite Hty, Hatis.
  - intros row. apply dbWrites_no_atis.
Qed.

Lemma atis_closure_in_history_not_in_database_witness :
  In (toHistorical atisSession)
     (h_sessions (historyCache (u_store (updateSessions atisStore (t0 + 215000) [] [])))) /\
  dbWrites liveDb (u_dbSaves (updateSessions atisStore (t0 + 215000) [] [])) = [].
Proof.
  destruct (atis_closure_in_history_not_in_database liveDb atisStore (t0 + 215000) [] []
              "atc-OPKC_ATIS" atisSession) as (_ & _ & H3 & _).
  - split; repeat constructor. intros [].
  - reflexivity.
  - reflexivity.
  - reflexivity.
  - intros [].
  - unfold staleThreshold. simpl. lia.
  - split; [|vm_compute; reflexivity]. apply H3.
    apply Nat.leb_le. vm_compute. reflexivity.
Defined.

(** ** The live loop and failing cycles *)

Lemma liveLoop_snapshots polls : forall store,
  liveLoop store (map snapshotOf polls) =
  (Running (fst (runCycles store polls)), length polls).
Proof.
  induction polls as [|q r IH]; intros store; [reflexivity|].
  rewrite runCycles_cons. cbn [map liveLoop snapshotOf runOnce fst length].
  now rewrite IH.
Qed.

Lemma liveLoop_fault before : forall store now fault after,
  liveLoop store (map snapshotOf before ++ (now, Faulted fault) :: after) =
  (Exited 1, S (length before)).
Proof.
  induction before as [|q r IH]; intros store now fault after; [reflexivity|].
  cbn [map app liveLoop snapshotOf runOnce length]. now rewrite IH.
Qed.

(** C8, the claim as written fails: the feed fails in the first cycle and
    the process exits with status 1; the cycle that would follow never
    runs. *)
Lemma feed_failure_ends_the_process :
  liveLoop towerStore [(t0, Faulted FeedFailed); (t0 + 15000, Snapshot [] [])] =
    (Exited 1, 1%nat) /\
  ~ (exists store, fst (liveLoop towerStore
                          [(t0, Faulted FeedFailed); (t0 + 15000, Snapshot [] [])]) =
                   Running store).
Proof.
  split; [reflexivity|]. intros [store H]. discriminate H.
Qed.

(** C8, amended. The loop goes on for as long as no cycle throws: after any
    number of such cycles the process is running, on the caches those cycles
    left.  An exception inside a cycle (while loading the FIR boundaries,
    fetching the feed or updating the caches) is caught and logged and ends
    the process with exit status 1; no later cycle runs. *)
Theorem live_loop_runs_until_a_cycle_fails store before now fault after :
  liveLoop store (map snapshotOf before) =
    (Running (fst (runCycles store before)), length before) /\
  runOnce (fst (runCycles store before)) now (Faulted fault) = Exited 1 /\
  liveLoop store (map snapshotOf before ++ (now, Faulted fault) :: after) =
    (Exited 1, S (length before)).
Proof.
  split; [apply liveLoop_snapshots|]. split; [reflexivity|apply liveLoop_fault].
Qed.

(** ** Pseudo-sessions in the aggregates *)

Lemma addToBucket_atis a b :
  hs_type a = Controller -> isAtis (hs_callsign a) = true -> addToBucket a b = b.
Proof. intros Ht Ha. unfold addToBucket. now rewrite Ht, Ha. Qed.

Lemma addToBucket_counted n :
  hs_type n = Controller -> isAtis (hs_callsign n) = false ->
  addToBucket n zeroBucket = mkBucket (hs_durationMinutes n) 1 0 0.
Proof. intros Ht Ha. unfold addToBucket. now rewrite Ht, Ha. Qed.

Lemma addToBucket_atis_after n a :
  hs_type a = Controller -> isAtis (hs_callsign a) = true ->
  addToBucket a (mkBucket (hs_durationMinutes n) 1 0 0) = mkBucket (hs_durationMinutes n) 1 0 0.
Proof. apply addToBucket_atis. Qed.

(** C6, the claim as written fails: the member detail route adds up every
    controller session of the member, and counts the two minutes of the ATIS
    session with the two minutes of the tower session, where the history
    route counts the tower session only. *)
Lemma member_detail_counts_atis :
  hs_durationMinutes (toHistorical atisSession) =
    hs_durationMinutes (toHistorical towerSession) /\
  isAtis (hs_callsign (toHistorical atisSession)) = true /\
  recalculatedControllerMinutes (h_sessions atisAndTower) = 2 /\
  snd (memberSessionTotals None atisAndTower [] (t0 + 300000) 1400001) = 4 /\
  length (fst (memberSessionTotals None atisAndTower [] (t0 + 300000) 1400001)) = 2%nat.
Proof. repeat split; vm_compute; reflexivity. Qed.

Section AggregationFacts.

Variable weekStart : string -> string.

(** C6, amended. For a history of one ATIS controller session and one
    other controller session of equal duration, in either order: the
    aggregation by period holds the bucket of the other session with its
    minutes and a count of one, every other bucket is empty, and the buckets
    add up to those minutes and that count; the recomputed totals of the
    history, live and status routes and of the synchroniser count the other
    session only; and the counter update of a live closure leaves the
    counters as they are for the ATIS session.  The member detail route
    lists and adds up all sessions of a member, ATIS included. *)
Theorem atis_excluded_from_period_and_overall_totals groupBy a n sessions stats st :
  hs_type a = Controller -> isAtis (hs_callsign a) = true ->
  hs_type n = Controller -> isAtis (hs_callsign n) = false ->
  hs_durationMinutes a = hs_durationMinutes n ->
  sessions = [a; n] \/ sessions = [n; a] ->
  let out := getAggregatedStats weekStart groupBy (mkHistory sessions stats) in
  let counted := mkBucket (hs_durationMinutes n) 1 0 0 in
  (In (periodOf weekStart groupBy n, counted) out /\
   (forall period b, In (period, b) out ->
      (period, b) = (periodOf weekStart groupBy n, counted) \/ b = zeroBucket) /\
   bucketTotal controllerMinutes out = hs_durationMinutes n /\
   bucketTotal controllerSessions out = 1 /\
   bucketTotal pilotMinutes out = 0 /\
   bucketTotal pilotSessions out = 0) /\
  (recalculatedControllerMinutes sessions = hs_durationMinutes n /\
   recalculatedControllerSessions sessions = 1 /\
   recalculatedPilotMinutes sessions = 0 /\
   recalculatedPilotSessions sessions = 0 /\
   recalculateStats sessions = mkStats (hs_durationMinutes n) 0 1 0) /\
  bumpStats st (hs_type a) (hs_callsign a) (hs_durationMinutes a) = st.
Proof.
  intros Hta Ha Htn Hn Hd Hs out counted. subst out counted.
  split; [|split].
  - unfold getAggregatedStats. cbn [h_sessions].
    destruct Hs as [-> | ->]; cbn [fold_left upsertBucket];
      rewrite ?(addToBucket_atis a zeroBucket Hta Ha), ?(addToBucket_counted n Htn Hn),
        ?(addToBucket_atis_after n a Hta Ha).
    + destruct (String.eqb (periodOf weekStart groupBy a) (periodOf weekStart groupBy n)) eqn:E.
      * apply String.eqb_eq in E. rewrite E.
        unfold bucketTotal. simpl. repeat split; auto; try lia.
        intros period b [H|[]]. now left.
      * unfold sortByPeriod. cbn [fold_left insertByPeriod fst].
        destruct (periodBefore _ _); unfold bucketTotal; simpl;
          (repeat split; auto; try lia);
          intros period b [H|[H|[]]]; injection H as <- <-; auto.
    + destruct (String.eqb (periodOf weekStart groupBy n) (periodOf weekStart groupBy a)) eqn:E.
      * unfold bucketTotal. simpl. repeat split; auto; try lia.
        intros period b [H|[]]. now left.
      * unfold sortByPeriod. cbn [fold_left insertByPeriod fst].
        destruct (periodBefore _ _); unfold bucketTotal; simpl;
          (repeat split; auto; try lia);
          intros period b [H|[H|[]]]; injection H as <- <-; auto.
  - unfold recalculateStats, recalculatedControllerMinutes, recalculatedControllerSessions,
      recalculatedPilotMinutes, recalculatedPilotSessions, countedController,
      isPilotSession, sumMinutes.
    destruct Hs as [-> | ->]; cbn [List.filter]; rewrite Hta, Htn, Ha, Hn; simpl;
      repeat split; reflexivity.
  - unfold bumpStats. now rewrite Hta, Ha.
Qed.

End AggregationFacts.

Lemma atis_excluded_from_period_and_overall_totals_witness :
  getAggregatedStats sampleWeekStart Week atisAndTower = [("2023-11-13", mkBucket 2 1 0 0)] /\
  recalculateStats (h_sessions atisAndTower) = mkStats 2 0 1 0.
Proof.
  destruct (atis_excluded_from_period_and_overall_totals sampleWeekStart Week
              (toHistorical atisSession) (toHistorical towerSession)
              (h_sessions atisAndTower) emptyStats emptyStats)
    as (_ & (_ & _ & _ & _ & H) & _).
  - reflexivity.
  - reflexivity.
  - reflexivity.
  - reflexivity.
  - reflexivity.
  - left. reflexivity.
  - split; [vm_compute; reflexivity|exact H].
Defined.

(** ** The last callsign of a roster member *)

Lemma toUpperCase_length s : String.length (Js.toUpperCase s) = String.length s.
Proof. induction s as [|c r IH]; simpl; [reflexivity|now rewrite IH]. Qed.

Lemma toUpperCase_substring s : forall k m,
  String.substring k m (Js.toUpperCase s) = Js.toUpperCase (String.substring k m s).
Proof.
  induction s as [|c r IH]; intros k m; simpl.
  - destruct k, m; reflexivity.
  - destruct k; [destruct m; simpl; [reflexivity|now rewrite IH]|apply IH].
Qed.

(** A callsign that ends in [_ATIS] as written passes the case-blind test of
    the program. *)
Lemma endsWith_atis_isAtis s : Js.endsWith s "_ATIS" = true -> isAtis s = true.
Proof.
  unfold isAtis, Js.endsWith. rewrite toUpperCase_length, toUpperCase_substring.
  intros H. apply andb_true_iff in H as [H1 H2]. apply String.eqb_eq in H2.
  rewrite H1, H2. reflexivity.
Qed.

Lemma not_isAtis_not_endsWith s : isAtis s = false -> Js.endsWith s "_ATIS" = false.
Proof.
  intros H. destruct (Js.endsWith s "_ATIS") eqn:E; [|reflexivity].
  apply endsWith_atis_isAtis in E. congruence.
Qed.

Lemma endsWith_atis_truthy s : Js.endsWith s "_ATIS" = true -> Js.truthyStr s = true.
Proof. destruct s; [discriminate|reflexivity]. Qed.

Lemma lastCallsign_setLastSeen v m : mi_lastCallsign (setLastSeen v m) = mi_lastCallsign m.
Proof. now destruct m. Qed.

Lemma lastCallsign_setName v m : mi_lastCallsign (setName v m) = mi_lastCallsign m.
Proof. now destruct m. Qed.

Lemma lastCallsign_setProfile i m : mi_lastCallsign (setProfile i m) = mi_lastCallsign m.
Proof. now destruct m. Qed.

Lemma lastCallsign_setLastCallsign v m : mi_lastCallsign (setLastCallsign v m) = Some v.
Proof. now destruct m. Qed.

Lemma lastCallsign_setSessionsCount v m :
  mi_lastCallsign (setSessionsCount v m) = mi_lastCallsign m.
Proof. now destruct m. Qed.

Lemma lastCallsign_setControllerMinutes v m :
  mi_lastCallsign (setControllerMinutes v m) = mi_lastCallsign m.
Proof. now destruct m. Qed.

Lemma lastCallsign_liveProfile fetched m :
  mi_lastCallsign (liveProfile fetched m) = mi_lastCallsign m.
Proof.
  unfold liveProfile. destruct (String.eqb _ "PAK"); [reflexivity|].
  destruct (_ || _); [|reflexivity]. destruct fetched as [info|]; [|reflexivity].
  destruct (mi_name info) as [n|]; [|apply lastCallsign_setProfile].
  destruct (_ && _); [rewrite lastCallsign_setName|]; apply lastCallsign_setProfile.
Qed.

(** *** The search order *)

Lemma find_first {A} (f : A -> bool) (pre : list A) x post :
  (forall y, In y pre -> f y = false) -> f x = true ->
  List.find f (pre ++ x :: post) = Some x.
Proof.
  induction pre as [|a r IH]; intros Hpre Hx; simpl.
  - now rewrite Hx.
  - rewrite (Hpre a) by now left. apply IH; [|exact Hx].
    intros y Hy. apply Hpre. now right.
Qed.

Lemma find_none_all {A} (f : A -> bool) (l : list A) :
  (forall y, In y l -> f y = false) -> List.find f l = None.
Proof.
  induction l as [|a r IH]; intros H; simpl; [reflexivity|].
  rewrite (H a) by now left. apply IH. intros y Hy. apply H. now right.
Qed.

Lemma insertDesc_In {A} (key : A -> Z) x y (l : list A) :
  In x (insertDesc key y l) <-> x = y \/ In x l.
Proof.
  induction l as [|a r IH]; simpl; [intuition congruence|].
  destruct (key a <? key y); simpl; [intuition congruence|].
  rewrite IH. intuition congruence.
Qed.

Lemma orderByDesc_In {A} (key : A -> Z) x (l : list A) :
  In x (orderByDesc key l) <-> In x l.
Proof.
  unfold orderByDesc.
  assert (H : forall acc, In x (fold_left (fun acc y => insertDesc key y acc) l acc) <->
                          In x l \/ In x acc).
  { induction l as [|a r IH]; intros acc; simpl; [tauto|].
    rewrite IH, insertDesc_In. intuition congruence. }
  rewrite H. simpl. tauto.
Qed.

Lemma insertDesc_bounds {A} (key : A -> Z) y (l : list A) :
  headBounds key l -> headBounds key (insertDesc key y l).
Proof.
  induction l as [|a r IH]; simpl; [intros _; split; [intros ? []|exact I]|].
  intros [Ha Hr]. destruct (key a <? key y) eqn:E; simpl.
  - apply Z.ltb_lt in E. split; [|split; assumption].
    intros z [<-|Hz]; [lia|]. specialize (Ha _ Hz). lia.
  - apply Z.ltb_ge in E. split; [|now apply IH].
    intros z Hz. apply insertDesc_In in Hz as [->|Hz]; [lia|now apply Ha].
Qed.

Lemma orderByDesc_bounds {A} (key : A -> Z) (l : list A) :
  headBounds key (orderByDesc key l).
Proof.
  unfold orderByDesc.
  assert (H : forall acc, headBounds key acc ->
                headBounds key (fold_left (fun acc y => insertDesc key y acc) l acc)).
  { induction l as [|a r IH]; intros acc Hacc; simpl; [exact Hacc|].
    apply IH. now apply insertDesc_bounds. }
  apply H. exact I.
Qed.

(** The row that the database query returns: the latest start among the
    rows of the member whose callsign does not end in [_ATIS]. *)
Lemma lastNonAtisRows_spec cid table :
  match lastNonAtisRows cid table with
  | r :: _ =>
      In r table /\ cr_cid r = Some cid /\ Js.endsWith (cr_callsign r) "_ATIS" = false /\
      (forall r', In r' table -> cr_cid r' = Some cid ->
                  Js.endsWith (cr_callsign r') "_ATIS" = false -> cr_start r' <= cr_start r)
  | [] =>
      forall r', In r' table -> cr_cid r' = Some cid ->
                 Js.endsWith (cr_callsign r') "_ATIS" = true
  end.
Proof.
  unfold lastNonAtisRows.
  set (keep := fun r => bool_decide (cr_cid r = Some cid) && notAtisRow r).
  assert (Hkeep : forall r, keep r = true <->
            cr_cid r = Some cid /\ Js.endsWith (cr_callsign r) "_ATIS" = false).
  { intros r. unfold keep, notAtisRow.
    rewrite andb_true_iff, bool_decide_eq_true, negb_true_iff. tauto. }
  pose proof (orderByDesc_bounds cr_start (List.filter keep table)) as Hb.
  pose proof (fun x => orderByDesc_In cr_start x (List.filter keep table)) as Hin.
  destruct (orderByDesc cr_start (List.filter keep table)) as [|r rest]; simpl.
  - intros r' Hr' Hc. destruct (Js.endsWith (cr_callsign r') "_ATIS") eqn:E; [reflexivity|].
    assert (H : In r' []) by (apply Hin, filter_In; split; [exact Hr'|now apply Hkeep]).
    destruct H.
  - destruct Hb as [Hb _].
    assert (Hr : In r (List.filter keep table)) by (apply Hin; now left).
    apply filter_In in Hr as [Hr Hk]. apply Hkeep in Hk as [Hc He].
    repeat split; try assumption.
    intros r' Hr' Hc' He'.
    assert (H : In r' (r :: rest)) by (apply Hin, filter_In; split; [exact Hr'|now apply Hkeep]).
    destruct H as [<-|H]; [lia|now apply Hb].
Qed.

(** Whatever the search returns does not end in [_ATIS]. *)
Lemma found_not_atis sessions history db cid v :
  findLastNonAtisCallsign sessions history db cid = Some v ->
  Js.endsWith v "_ATIS" = false.
Proof.
  unfold findLastNonAtisCallsign.
  destruct (List.find _ (map snd sessions)) as [s|] eqn:Es.
  { intros [= <-]. apply find_some in Es as [_ Es]. unfold nonAtisControllerOf in Es.
    apply andb_true_iff in Es as [_ Es]. apply negb_true_iff in Es.
    now apply not_isAtis_not_endsWith. }
  destruct (List.find _ (h_sessions history)) as [h|] eqn:Eh.
  { intros [= <-]. apply find_some in Eh as [_ Eh]. unfold nonAtisControllerOf in Eh.
    apply andb_true_iff in Eh as [_ Eh]. apply negb_true_iff in Eh.
    now apply not_isAtis_not_endsWith. }
  destruct db as [d|]; [|discriminate].
  pose proof (lastNonAtisRows_spec cid (controllerSessionTable d)) as Hd.
  destruct (lastNonAtisRows cid (controllerSessionTable d)) as [|r rest]; [discriminate|].
  intros [= <-]. now destruct Hd as (_ & _ & Hd & _).
Qed.

(** The last callsign of a roster member seen live under a callsign that
    ends in [_ATIS] as written, in upper case: the recorded last callsign
    becomes the first hit of the search
    through the open sessions, then the history, then the database, and stays
    as it was when the search finds nothing; it never becomes the ATIS
    callsign, and whatever replaces it does not end in [_ATIS].  The search
    takes the first open controller session of the member that is no ATIS
    position; failing that, the first such session of the history; failing
    that, the row of the database with the latest start among the rows of the
    member whose callsign does not end in [_ATIS].  When such a session
    closes, the roster is not called at all, and the two roster updates that
    take a callsign leave the last callsign alone for an ATIS callsign. *)
Theorem atis_never_becomes_last_callsign roster store db fetched now cid name callsign member :
  roster !! cid = Some member ->
  Js.endsWith callsign "_ATIS" = true ->
  let found := findLastNonAtisCallsign (sessionCache store) (historyCache store) db cid in
  (exists member',
     updateMemberFromLive roster store db fetched now cid name (Some callsign) !! cid
       = Some member' /\
     mi_lastCallsign member' =
       match found with
       | Some v => if Js.truthyStr v then Some v else mi_lastCallsign member
       | None => mi_lastCallsign member
       end /\
     (mi_lastCallsign member' = Some callsign -> mi_lastCallsign member = Some callsign) /\
     (forall v, mi_lastCallsign member' = Some v ->
        mi_lastCallsign member = Some v \/ Js.endsWith v "_ATIS" = false)) /\
  (forall pre s post,
     map snd (sessionCache store) = pre ++ s :: post ->
     (forall y, In y pre -> openHit cid y = false) -> openHit cid s = true ->
     found = Some (cs_callsign s)) /\
  ((forall y, In y (map snd (sessionCache store)) -> openHit cid y = false) ->
   forall pre h post,
     h_sessions (historyCache store) = pre ++ h :: post ->
     (forall y, In y pre -> closedHit cid y = false) -> closedHit cid h = true ->
     found = Some (hs_callsign h)) /\
  ((forall y, In y (map snd (sessionCache store)) -> openHit cid y = false) ->
   (forall y, In y (h_sessions (historyCache store)) -> closedHit cid y = false) ->
   match db with
   | Some d =>
       match lastNonAtisRows cid (controllerSessionTable d) with
       | r :: _ =>
           found = Some (cr_callsign r) /\ In r (controllerSessionTable d) /\
           cr_cid r = Some cid /\ Js.endsWith (cr_callsign r) "_ATIS" = false /\
           (forall r', In r' (controllerSessionTable d) -> cr_cid r' = Some cid ->
              Js.endsWith (cr_callsign r') "_ATIS" = false -> cr_start r' <= cr_start r)
       | [] => found = None
       end
   | None => found = None
   end) /\
  (forall s d, cs_type s = Controller -> cs_callsign s = callsign ->
     memberStatsCalls s d = []) /\
  (forall minutes, exists member',
     updateMemberStats roster now cid Controller minutes (Some callsign) !! cid = Some member' /\
     mi_lastCallsign member' = mi_lastCallsign member) /\
  (exists member',
     updateMemberLastSeen roster now cid (Some callsign) !! cid = Some member' /\
     mi_lastCallsign member' = mi_lastCallsign member).
Proof.
  intros Hm Hends found.
  pose proof (endsWith_atis_isAtis _ Hends) as Hatis.
  pose proof (endsWith_atis_truthy _ Hends) as Htruthy.
  assert (Hval : forall m0, mi_lastCallsign (liveLastCallsign store db cid (Some callsign) m0) =
            match found with
            | Some v => if Js.truthyStr v then Some v else mi_lastCallsign m0
            | None => mi_lastCallsign m0
            end).
  { intros m0. unfold liveLastCallsign. rewrite Htruthy, Hatis. cbn [negb andb].
    fold found. destruct found as [v|]; [|reflexivity].
    destruct (Js.truthyStr v); [apply lastCallsign_setLastCallsign|reflexivity]. }
  split; [|split; [|split; [|split; [|split; [|split]]]]].
  - unfold updateMemberFromLive. rewrite Hm. eexists. split; [apply lookup_insert_eq|].
    rewrite lastCallsign_liveProfile, Hval, lastCallsign_setLastSeen.
    assert (Hn : mi_lastCallsign
                   (if nameMissing (mi_name member) && nameUsable cid name
                    then setName name member else member) = mi_lastCallsign member).
    { destruct (_ && _); [apply lastCallsign_setName|reflexivity]. }
    rewrite Hn. split; [reflexivity|].
    destruct found as [v|] eqn:Ef; [|split; [tauto|intros v Hv; now left]].
    destruct (Js.truthyStr v); [|split; [tauto|intros w Hw; now left]].
    apply found_not_atis in Ef. split.
    + intros [= ->]. congruence.
    + intros w [= <-]. now right.
  - intros pre s post Hsplit Hpre Hs. subst found. unfold findLastNonAtisCallsign.
    rewrite Hsplit. now rewrite (find_first (fun s0 => nonAtisControllerOf cid (cs_type s0) (cs_cid s0) (cs_callsign s0)) pre s post Hpre Hs).
  - intros Hnone pre h post Hsplit Hpre Hh. subst found. unfold findLastNonAtisCallsign.
    rewrite (find_none_all (fun s0 => nonAtisControllerOf cid (cs_type s0) (cs_cid s0) (cs_callsign s0)) _ Hnone), Hsplit.
    now rewrite (find_first (fun h0 => nonAtisControllerOf cid (hs_type h0) (hs_cid h0) (hs_callsign h0)) pre h post Hpre Hh).
  - intros Hnone Hnone'. subst found. unfold findLastNonAtisCallsign.
    rewrite (find_none_all (fun s0 => nonAtisControllerOf cid (cs_type s0) (cs_cid s0) (cs_callsign s0)) _ Hnone),
      (find_none_all (fun h0 => nonAtisControllerOf cid (hs_type h0) (hs_cid h0) (hs_callsign h0)) _ Hnone').
    destruct db as [d|]; [|reflexivity].
    pose proof (lastNonAtisRows_spec cid (controllerSessionTable d)) as Hd.
    destruct (lastNonAtisRows cid (controllerSessionTable d)) as [|r rest]; [reflexivity|].
    split; [reflexivity|exact Hd].
  - intros s d Ht Hc. unfold memberStatsCalls, whenTruthy.
    rewrite Ht, Hc, Hatis. now destruct (Js.truthy (cs_cid s)).
  - intros minutes. unfold updateMemberStats. rewrite Hm. eexists.
    split; [apply lookup_insert_eq|]. rewrite Htruthy, Hatis. cbn [negb andb].
    now rewrite lastCallsign_setControllerMinutes, lastCallsign_setSessionsCount,
      lastCallsign_setLastSeen.
  - unfold updateMemberLastSeen. rewrite Hm. eexists.
    split; [apply lookup_insert_eq|]. rewrite Htruthy, Hatis. cbn [negb andb].
    apply lastCallsign_setLastSeen.
Qed.

Lemma atis_never_becomes_last_callsign_witness :
  exists member',
    updateMemberFromLive sampleRoster atisStore (Some sampleDb) None (t0 + 15000)
      1400001 "Ayesha Khan" (Some "OPKC_ATIS") !! 1400001 = Some member' /\
    mi_lastCallsign member' = Some "OPLA_APP".
Proof.
  destruct (atis_never_becomes_last_callsign sampleRoster atisStore (Some sampleDb) None
              (t0 + 15000) 1400001 "Ayesha Khan" "OPKC_ATIS" ayesha)
    as ((member' & H1 & H2 & _) & _).
  - reflexivity.
  - reflexivity.
  - exists member'. split; [exact H1|]. rewrite H2. reflexivity.
Defined.

(** ** Durations of closed sessions *)

Lemma closed_from_store store now cs ps e :
  In e (evicted store now cs ps) -> In e (sessionCache store).
Proof.
  intros He. unfold evicted, staleEntries in He. apply filter_In in He as [He Hs].
  unfold afterObservation in He. rewrite observe_sessions in He.
  apply observeAll_In in He as [He|He]; [|exact He].
  rewrite observedEntries_keys in He. exfalso.
  unfold isStale in Hs. apply andb_true_iff in Hs as [Hs _].
  apply negb_true_iff, bool_decide_eq_false_1 in Hs. apply Hs.
  now apply observe_seenIds.
Qed.

Lemma saved_insert env h i :
  saveSessionToDatabase env h = Some i ->
  ins_start i = hs_startTime h /\ ins_end i = hs_endTime h /\
  ins_minutes i = hs_durationMinutes h.
Proof.
  unfold saveSessionToDatabase.
  destruct (negb (databaseUrl env)); [discriminate|].
  destruct (negb (connectOk env)); [discriminate|].
  destruct (hs_type h).
  - destruct (isAtis (hs_callsign h)); [discriminate|]. intros [= <-]. now simpl.
  - intros [= <-]. now simpl.
Qed.

Lemma importSession_origin sessionId h st x :
  In x (im_sessions (importSession sessionId h st)) -> x = h \/ In x (im_sessions st).
Proof.
  unfold importSession. destruct (bool_decide _); simpl; [now right|].
  intros [<-|H]; [now left|now right].
Qed.

Lemma importControllers_origin l : forall st x,
  In x (im_sessions (fold_left importController l st)) ->
  In x (im_sessions st) \/
  exists r, In r l /\ hs_startTime x = cr_start r /\ hs_endTime x = cr_end r /\
            hs_durationMinutes x = cr_minutes r.
Proof.
  induction l as [|r l' IH]; intros st x H; simpl in H; [now left|].
  apply IH in H as [H|(r' & Hr' & Hx)].
  - unfold importController in H. apply importSession_origin in H as [->|H]; [|now left].
    right. exists r. split; [now left|]. now simpl.
  - right. exists r'. split; [now right|exact Hx].
Qed.

Lemma importPilots_origin l : forall st x,
  In x (im_sessions (fold_left importPilot l st)) ->
  In x (im_sessions st) \/
  exists r, In r l /\ hs_startTime x = pr_start r /\ hs_endTime x = pr_end r /\
            hs_durationMinutes x = pr_minutes r.
Proof.
  induction l as [|r l' IH]; intros st x H; simpl in H; [now left|].
  apply IH in H as [H|(r' & Hr' & Hx)].
  - unfold importPilot in H. apply importSession_origin in H as [->|H]; [|now left].
    right. exists r. split; [now left|]. now simpl.
  - right. exists r'. split; [now right|exact Hx].
Qed.

(** A session of the merged history was in the list before, or carries the
    start, end and minutes of a row of the database. *)
Lemma importedHistory_origin db old x :
  In x (importedHistory db old) ->
  In x old \/
  (exists r, In r (controllerSessionTable db) /\ hs_startTime x = cr_start r /\
             hs_endTime x = cr_end r /\ hs_durationMinutes x = cr_minutes r) \/
  (exists r, In r (pilotSessionTable db) /\ hs_startTime x = pr_start r /\
             hs_endTime x = pr_end r /\ hs_durationMinutes x = pr_minutes r).
Proof.
  unfold importedHistory. intros H.
  apply importPilots_origin in H as [H|(r & Hr & Hx)].
  - cbn [im_sessions] in H. apply importControllers_origin in H as [H|(r & Hr & Hx)].
    + now left.
    + right. left. exists r. split; [|exact Hx].
      apply orderByDesc_In, filter_In in Hr. tauto.
  - right. right. exists r. split; [|exact Hx]. now apply orderByDesc_In in Hr.
Qed.

Lemma roundMinutes_nearest ms :
  60000 * Js.roundMinutes ms - 30000 <= ms < 60000 * Js.roundMinutes ms + 30000.
Proof.
  unfold Js.roundMinutes.
  pose proof (Z.div_mod (ms + 30000) 60000 ltac:(lia)) as Hdiv.
  pose proof (Z.mod_pos_bound (ms + 30000) 60000 ltac:(lia)) as Hmod.
  lia.
Qed.

Lemma durationRule_computed startTime endTime :
  durationRule startTime endTime (Z.max 1 (Js.roundMinutes (endTime - startTime))).
Proof.
  exists (Js.roundMinutes (endTime - startTime)).
  split; [apply roundMinutes_nearest|reflexivity].
Qed.

Lemma durationRule_functional startTime endTime m m' :
  durationRule startTime endTime m -> durationRule startTime endTime m' -> m = m'.
Proof.
  intros (r & Hr & ->) (r' & Hr' & ->). assert (r = r') by lia. now subst.
Qed.

(** C3. Every closed session that an ingestion path produces carries
    [max(1, round((end - start) / 60000))] minutes: the closures of the live
    cycle (as returned, as pushed on the history and as handed to the
    database), the rows the live cycle inserts, the rows the database ingest
    closes, and the rows of the backfill.  So the minutes are at least 1, and
    where the open sessions were last seen no earlier than they started the
    closed session ends no earlier than it starts.  The synchroniser computes
    no duration: a session it imports has the start, the end and the minutes
    of its database row.  The rule is stated on the milliseconds: the number
    of minutes is the larger of 1 and the whole number [r] with
    [60000 r - 30000 <= end - start < 60000 r + 30000], which leaves one
    value for every start and end. *)
Theorem closed_duration_rule :
  (forall store now cs ps h,
     let r := updateSessions store now cs ps in
     In h (u_removed r) \/ In h (u_dbSaves r) ->
     durationRule (hs_startTime h) (hs_endTime h) (hs_durationMinutes h) /\
     1 <= hs_durationMinutes h /\
     ((forall k s, In (k, s) (sessionCache store) -> cs_startTime s <= cs_lastSeen s) ->
      hs_startTime h <= hs_endTime h)) /\
  (forall env store now cs ps i,
     In i (dbWrites env (u_dbSaves (updateSessions store now cs ps))) ->
     durationRule (ins_start i) (ins_end i) (ins_minutes i) /\ 1 <= ins_minutes i) /\
  (forall dateNow table i,
     In i (fst (closeStale dateNow table)) ->
     durationRule (ins_start i) (ins_end i) (ins_minutes i) /\
     1 <= ins_minutes i /\
     ((forall s, In s table -> os_startedAt s <= os_lastSeenAt s) ->
      ins_start i <= ins_end i)) /\
  (forall x,
     durationRule (cr_start (backfillRow x)) (cr_end (backfillRow x))
       (cr_minutes (backfillRow x)) /\
     1 <= cr_minutes (backfillRow x)) /\
  (forall db old h,
     In h (importedHistory db old) ->
     In h old \/
     (exists r, In r (controllerSessionTable db) /\ hs_startTime h = cr_start r /\
                hs_endTime h = cr_end r /\ hs_durationMinutes h = cr_minutes r) \/
     (exists r, In r (pilotSessionTable db) /\ hs_startTime h = pr_start r /\
                hs_endTime h = pr_end r /\ hs_durationMinutes h = pr_minutes r)) /\
  (forall startTime endTime m m',
     durationRule startTime endTime m -> durationRule startTime endTime m' -> m = m').
Proof.
  assert (Hlive : forall store now cs ps h,
    In h (u_removed (updateSessions store now cs ps)) \/
    In h (u_dbSaves (updateSessions store now cs ps)) ->
    exists e, In e (sessionCache store) /\
      hs_startTime h = cs_startTime (snd e) /\ hs_endTime h = cs_lastSeen (snd e) /\
      hs_durationMinutes h = sessionMinutes (snd e)).
  { intros store now cs ps h Hh.
    destruct (updateSessions_effects store now cs ps) as (H1 & _ & H3 & _).
    rewrite H1, H3 in Hh.
    destruct Hh as [Hh|Hh]; apply in_map_iff in Hh as [e [<- He]];
      exists e; (split; [now apply closed_from_store in He|now simpl]). }
  split; [|split; [|split; [|split; [|split]]]].
  - intros store now cs ps h r H. subst r. split; [|split].
    + apply Hlive in H as [e (_ & -> & -> & ->)]. apply durationRule_computed.
    + apply Hlive in H as [e (_ & _ & _ & ->)]. unfold sessionMinutes. lia.
    + intros Hinv. apply Hlive in H as [[k s] (He & -> & -> & _)]. now apply (Hinv k).
  - intros env store now cs ps i H.
    unfold dbWrites in H. apply in_flat_map in H as [h [Hh Hi]].
    destruct (saveSessionToDatabase env h) eqn:E; [|contradiction].
    destruct Hi as [<-|[]]. apply saved_insert in E as (-> & -> & ->).
    destruct (Hlive store now cs ps h (or_intror Hh)) as [e (_ & -> & -> & ->)].
    split; [apply durationRule_computed|]. unfold sessionMinutes. lia.
  - intros dateNow table i H. simpl in H. apply in_map_iff in H as [s [<- Hs]].
    apply filter_In in Hs as [Hs _].
    unfold closeOpenSession, openMinutes.
    destruct (os_role s); cbn [ins_start ins_end ins_minutes cr_start cr_end cr_minutes
                               pr_start pr_end pr_minutes];
      (split; [apply durationRule_computed|split; [lia|]]);
      intros Hinv; exact (Hinv _ Hs).
  - intros x. cbn [backfillRow cr_start cr_end cr_minutes].
    split; [apply durationRule_computed|lia].
  - apply importedHistory_origin.
  - apply durationRule_functional.
Qed.

Lemma closed_duration_rule_witness :
  durationRule (hs_startTime (toHistorical towerSession))
    (hs_endTime (toHistorical towerSession))
    (hs_durationMinutes (toHistorical towerSession)) /\
  1 <= hs_durationMinutes (toHistorical towerSession) /\
  hs_startTime (toHistorical towerSession) <= hs_endTime (toHistorical towerSession).
Proof.
  destruct (proj1 closed_duration_rule towerStore (t0 + 215000) [] []
              (toHistorical towerSession)) as (H1 & H2 & H3).
  - right. vm_compute. left. reflexivity.
  - split; [exact H1|split; [exact H2|]]. apply H3.
    intros k s [[= <- <-]|[]]. simpl. lia.
Defined.


(** ** Worked examples *)

Example toISOString_epoch : Js.toISOString 0 = "1970-01-01T00:00:00.000Z".
Proof. reflexivity. Qed.

Example toISOString_leap_day : Js.toISOString 951782400123 = "2000-02-29T00:00:00.123Z".
Proof. reflexivity. Qed.

Example roundMinutes_half_up : Js.roundMinutes 90000 = 2 /\ Js.roundMinutes 89999 = 1.
Proof. split; reflexivity. Qed.

Example isAtis_any_case : isAtis "opkc_Atis" = true /\ isAtis "OPKC_TWR" = false.
Proof. split; reflexivity. Qed.

Example numberToString_cid : numberToString 1400001 = "1400001".
Proof. reflexivity. Qed.

(** A tower position seen at [t0] and again 90 s later, then missing: the
    cycle 200 s after [t0] is 110 s past the last sighting and keeps the
    session; the cycle at 215 s closes it with two minutes, from [t0] to the
    last sighting. *)
Example tower_scenario :
  let seen := mkControllerEntry 1400001 "Ayesha Khan" "OPKC_TWR" "118.300" "TWR" in
  let r1 := updateSessions emptyStore t0 [seen] [] in
  let r2 := updateSessions (u_store r1) (t0 + 90000) [seen] [] in
  let r3 := updateSessions (u_store r2) (t0 + 200000) [] [] in
  let r4 := updateSessions (u_store r3) (t0 + 215000) [] [] in
  u_added r1 = [AddedController "🎧 OPKC_TWR (Ayesha Khan)"] /\
  u_store r2 = towerStore /\
  u_removed r3 = [] /\
  u_removed r4 = [withRemovedAt (t0 + 215000) (toHistorical towerSession)] /\
  hs_durationMinutes (toHistorical towerSession) = 2 /\
  sessionCache (u_store r4) = [].
Proof. repeat split; vm_compute; reflexivity. Qed.

(** * Further properties of the modelled code *)

(** ** A cycle, session by session *)

Lemma controllers_sessions now cs : forall st,
  o_sessions (fold_left (observeController now) cs st) =
  fold_left (observeAt now) (map (controllerEntryOf now) cs) (o_sessions st).
Proof.
  induction cs as [|c r IH]; intros st; simpl; [reflexivity|].
  rewrite IH. now rewrite observeController_sessions.
Qed.

Lemma pilots_sessions now ps : forall st,
  o_sessions (fold_left (observePilot now) ps st) =
  fold_left (observeAt now) (map (pilotEntryOf now) ps) (o_sessions st).
Proof.
  induction ps as [|p r IH]; intros st; simpl; [reflexivity|].
  rewrite IH. now rewrite observePilot_sessions.
Qed.

Lemma controllers_added_mono now cs : forall st x,
  In x (o_added st) -> In x (o_added (fold_left (observeController now) cs st)).
Proof.
  induction cs as [|c r IH]; intros st x H; simpl; [exact H|].
  apply IH. unfold observeController. destruct (getSession _ _); simpl; [exact H|].
  apply in_app_iff. now left.
Qed.

Lemma pilots_added_mono now ps : forall st x,
  In x (o_added st) -> In x (o_added (fold_left (observePilot now) ps st)).
Proof.
  induction ps as [|p r IH]; intros st x H; simpl; [exact H|].
  apply IH. unfold observePilot. destruct (getSession _ _); simpl; [exact H|].
  apply in_app_iff. now left.
Qed.

Lemma observeAt_add now m a :
  getSession (fst a) m = None -> getSession (fst a) (observeAt now m a) = Some (snd a).
Proof.
  intros H. unfold observeAt. rewrite H. unfold addSession.
  rewrite getSession_app, H. simpl. now rewrite String.eqb_refl.
Qed.

(** A fresh entry, once filed, is what the loops leave under its key. *)
Lemma observeAll_fresh now pre id f post : forall m,
  getSession id m = None -> ~ In id (map fst pre) -> cs_lastSeen f = now ->
  getSession id (fold_left (observeAt now) (pre ++ (id, f) :: post) m) = Some f.
Proof.
  intros m Hm Hpre Hf. rewrite fold_left_app. cbn [fold_left].
  assert (H1 : getSession id (fold_left (observeAt now) pre m) = None).
  { apply observeAll_absent; [exact Hm|]. apply not_true_is_false.
    now rewrite seenIn_In. }
  assert (H2 : getSession id (observeAt now (fold_left (observeAt now) pre m) (id, f)) = Some f).
  { exact (observeAt_add now _ (id, f) H1). }
  rewrite (observeAll_open now post _ id f H2).
  destruct (seenIn id (map fst post)); [|reflexivity].
  destruct f. simpl in Hf. subst. reflexivity.
Qed.

Lemma controllerKey_not_pilotKey a b : controllerKey a <> pilotKey b.
Proof. unfold controllerKey, pilotKey. cbv [String.append]. discriminate. Qed.

Lemma controllerKey_inj a b : controllerKey a = controllerKey b -> a = b.
Proof. intros H. now apply (sessionKey_inj Controller a Controller b) in H. Qed.

Lemma pilotKey_inj a b : pilotKey a = pilotKey b -> a = b.
Proof. intros H. now apply (sessionKey_inj Pilot a Pilot b) in H. Qed.

(** A listed identity that is open already: refreshed, and not closed. *)
Lemma cycle_observed store now cs ps id s :
  wfSessions (sessionCache store) ->
  getSession id (sessionCache store) = Some s ->
  In id (observedKeys cs ps) ->
  closuresOf (cs_type s) (cs_callsign s) (u_removed (updateSessions store now cs ps)) = [] /\
  getSession id (sessionCache (u_store (updateSessions store now cs ps))) =
    Some (withLastSeen now s).
Proof.
  intros Hwf Hs Hin.
  pose proof (wf_key _ _ _ Hwf Hs) as Hid.
  assert (Hseen : seenIn id (map fst (observedEntries now cs ps)) = true).
  { apply seenIn_In. now rewrite observedEntries_keys. }
  assert (Hobs : getSession id (afterObservation store now cs ps) = Some (withLastSeen now s)).
  { unfold afterObservation. rewrite observe_sessions.
    rewrite (observeAll_open now _ _ _ _ Hs). now rewrite Hseen. }
  pose proof (observe_wf now _ cs ps Hwf) as [Hnd _].
  assert (Hst : forall x, isStale now (o_seenIds (observe now (sessionCache store) cs ps)) (id, x)
                  = false).
  { intros x. unfold isStale. cbn [fst]. rewrite bool_decide_eq_true_2; [reflexivity|].
    now apply observe_seenIds. }
  split.
  - rewrite (closuresOf_cycle store now cs ps Hwf), <- Hid,
      (filter_key_Some id (afterObservation store now cs ps) _ Hnd Hobs).
    unfold staleEntries. simpl. now rewrite Hst.
  - rewrite updateSessions_open by assumption.
    rewrite getSession_filter by exact Hnd. fold (afterObservation store now cs ps).
    now rewrite Hobs, Hst.
Qed.

(** X1. A controller or a pilot listed by the snapshot whose identity is not
    open yet gets a session in that cycle: it starts and was last seen at the
    clock of the cycle, carries the attributes of the first snapshot row of
    that callsign, is announced in [added], and is still open when the cycle
    ends. *)
Theorem first_sighting_opens_session store now cs ps :
  (forall pre c post,
     cs = pre ++ c :: post ->
     (forall c', In c' pre -> c_callsign c' <> c_callsign c) ->
     getSession (controllerKey (c_callsign c)) (sessionCache store) = None ->
     wfSessions (sessionCache store) ->
     let r := updateSessions store now cs ps in
     getSession (controllerKey (c_callsign c)) (sessionCache (u_store r)) =
       Some (newControllerSession now (controllerKey (c_callsign c)) c) /\
     In (AddedController ("🎧 " +:+ c_callsign c +:+ " (" +:+ c_name c +:+ ")")) (u_added r)) /\
  (forall pre p post,
     ps = pre ++ p :: post ->
     (forall p', In p' pre -> p_callsign p' <> p_callsign p) ->
     getSession (pilotKey (p_callsign p)) (sessionCache store) = None ->
     wfSessions (sessionCache store) ->
     let r := updateSessions store now cs ps in
     getSession (pilotKey (p_callsign p)) (sessionCache (u_store r)) =
       Some (newPilotSession now (pilotKey (p_callsign p)) p) /\
     In (AddedPilot ("✈️ " +:+ p_callsign p +:+ " (" +:+ p_departure p +:+ "→" +:+
                     p_arrival p +:+ ")") now) (u_added r)).
Proof.
  assert (Hopen : forall id f, wfSessions (sessionCache store) ->
    In id (observedKeys cs ps) ->
    getSession id (afterObservation store now cs ps) = Some f ->
    getSession id (sessionCache (u_store (updateSessions store now cs ps))) = Some f).
  { intros id f Hwf Hin Hf. rewrite updateSessions_open by assumption.
    pose proof (observe_wf now _ cs ps Hwf) as [Hnd _].
    rewrite getSession_filter by exact Hnd. fold (afterObservation store now cs ps).
    rewrite Hf. unfold isStale. cbn [fst].
    rewrite bool_decide_eq_true_2; [reflexivity|]. now apply observe_seenIds. }
  split.
  - intros pre c post Hcs Hpre Hnone Hwf r. subst r. split.
    + apply Hopen; [exact Hwf| |].
      * unfold observedKeys. apply in_app_iff. left. rewrite Hcs, map_app.
        apply in_app_iff. right. now left.
      * unfold afterObservation. rewrite observe_sessions. unfold observedEntries.
        rewrite Hcs, map_app. cbn [map]. rewrite <- app_assoc, <- app_comm_cons.
        apply observeAll_fresh; [exact Hnone| |reflexivity].
        rewrite map_map. intros H. apply in_map_iff in H as [c' [Hk Hc']].
        cbn [fst] in Hk. apply controllerKey_inj in Hk. now apply (Hpre c').
    + destruct (updateSessions_effects store now cs ps) as (_ & _ & _ & _ & H5).
      rewrite H5. unfold observe. apply pilots_added_mono.
      rewrite Hcs, fold_left_app. cbn [fold_left]. apply controllers_added_mono.
      set (st1 := fold_left (observeController now) pre _).
      assert (H1 : getSession (controllerKey (c_callsign c)) (o_sessions st1) = None).
      { subst st1. rewrite controllers_sessions. cbn [o_sessions].
        apply observeAll_absent; [exact Hnone|]. apply not_true_is_false.
        rewrite seenIn_In, map_map. intros H. apply in_map_iff in H as [c' [Hk Hc']].
        cbn [fst controllerEntryOf] in Hk. apply controllerKey_inj in Hk.
        now apply (Hpre c'). }
      unfold observeController. rewrite H1. cbn [o_added]. apply in_app_iff. right.
      now left.
  - intros pre p post Hps Hpre Hnone Hwf r. subst r. split.
    + apply Hopen; [exact Hwf| |].
      * unfold observedKeys. apply in_app_iff. right. rewrite Hps, map_app.
        apply in_app_iff. right. now left.
      * unfold afterObservation. rewrite observe_sessions. unfold observedEntries.
        rewrite Hps, map_app. cbn [map]. rewrite app_assoc.
        apply observeAll_fresh; [exact Hnone| |reflexivity].
        rewrite map_app, !map_map. intros H. apply in_app_iff in H as [H|H].
        -- apply in_map_iff in H as [c' [Hk _]]. cbn [fst] in Hk.
           now apply controllerKey_not_pilotKey in Hk.
        -- apply in_map_iff in H as [p' [Hk Hp']]. cbn [fst] in Hk.
           apply pilotKey_inj in Hk. now apply (Hpre p').
    + destruct (updateSessions_effects store now cs ps) as (_ & _ & _ & _ & H5).
      rewrite H5. unfold observe.
      rewrite Hps, fold_left_app. cbn [fold_left]. apply pilots_added_mono.
      set (st0 := fold_left (observeController now) cs _).
      set (st1 := fold_left (observePilot now) pre st0).
      assert (H1 : getSession (pilotKey (p_callsign p)) (o_sessions st1) = None).
      { subst st1 st0. rewrite pilots_sessions, controllers_sessions. cbn [o_sessions].
        rewrite <- fold_left_app.
        apply observeAll_absent; [exact Hnone|]. apply not_true_is_false.
        rewrite seenIn_In, map_app, !map_map. intros H. apply in_app_iff in H as [H|H].
        - apply in_map_iff in H as [c' [Hk _]]. cbn [fst controllerEntryOf] in Hk.
          now apply controllerKey_not_pilotKey in Hk.
        - apply in_map_iff in H as [p' [Hk Hp']]. cbn [fst pilotEntryOf] in Hk.
          apply pilotKey_inj in Hk. now apply (Hpre p'). }
      unfold observePilot. rewrite H1. cbn [o_added]. apply in_app_iff. right.
      now left.
Qed.

Lemma first_sighting_opens_session_witness :
  getSession "atc-OPLA_APP"
    (sessionCache (u_store (updateSessions emptyStore t0 [approachEntry] []))) =
  Some (newControllerSession t0 "atc-OPLA_APP" approachEntry).
Proof.
  refine (proj1 (proj1 (first_sighting_opens_session emptyStore t0 [approachEntry] [])
                   [] approachEntry [] _ _ _ _)).
  - reflexivity.
  - intros c' [].
  - reflexivity.
  - split; constructor.
Defined.

Lemma importOpen_observeAt m row :
  exists a, keyedByIdentity a /\ importOpen m row = observeAt (os_lastSeenAt row) m a.
Proof.
  unfold importOpen. destruct (os_role row).
  - eexists (controllerKey (os_callsign row), _). split; [|unfold observeAt; cbn [fst snd];
      reflexivity]. reflexivity.
  - eexists (pilotKey (os_callsign row), _). split; [|unfold observeAt; cbn [fst snd];
      reflexivity]. reflexivity.
Qed.

Lemma importOpens_wf rows : forall m,
  wfSessions m -> wfSessions (fold_left importOpen rows m).
Proof.
  induction rows as [|row r IH]; intros m H; simpl; [exact H|].
  apply IH. destruct (importOpen_observeAt m row) as [a [Ha ->]].
  now apply observeAt_wf.
Qed.

(** X2. The session object keeps its shape: with one entry per key, each
    filed under the key of its own category and callsign, before a live
    cycle, a run of cycles or a synchroniser run, it is so afterwards; every
    session object reached from the empty cache has that shape. *)
Theorem open_sessions_stay_well_formed :
  (forall polls, wfSessions (sessionCache (fst (runCycles emptyStore polls)))) /\
  (forall store polls,
     wfSessions (sessionCache store) ->
     wfSessions (sessionCache (fst (runCycles store polls)))) /\
  (forall db store,
     wfSessions (sessionCache store) ->
     wfSessions (sessionCache (syncDatabaseToCache db store))).
Proof.
  split; [|split].
  - intros polls. apply runCycles_wf. split; constructor.
  - intros store polls. apply runCycles_wf.
  - intros [d|] store H; [|exact H]. unfold syncDatabaseToCache. cbn [sessionCache].
    now apply importOpens_wf.
Qed.

Lemma open_sessions_stay_well_formed_witness :
  wfSessions (sessionCache (syncDatabaseToCache (Some sampleDb) towerStore)).
Proof.
  apply (proj2 (proj2 open_sessions_stay_well_formed) (Some sampleDb) towerStore).
  split; repeat constructor. intros [].
Defined.

Lemma isStale_true now seen e :
  isStale now seen e = true -> (fst e ∉ seen) /\ now - cs_lastSeen (snd e) > staleThreshold.
Proof.
  unfold isStale. intros H. apply andb_true_iff in H as [H1 H2].
  apply negb_true_iff, bool_decide_eq_false_1 in H1.
  rewrite Z.gtb_ltb in H2. apply Z.ltb_lt in H2. split; [exact H1|lia].
Qed.

(** X3. A cycle loses no session and invents no closure.  Every session
    that is open when the cycle starts is, when it ends, either still open
    with its start time and with no closure of its identity, or gone with
    exactly one closure, which happens only to an identity the snapshot does
    not list and whose last sighting is more than the threshold old.  Every
    closure is that of a session that was open when the cycle started; a
    session opened by the cycle is not closed by it. *)
Theorem every_open_session_survives_or_closes store now cs ps :
  wfSessions (sessionCache store) ->
  let r := updateSessions store now cs ps in
  (forall k s,
     getSession k (sessionCache store) = Some s ->
     (exists s', getSession k (sessionCache (u_store r)) = Some s' /\
                 cs_startTime s' = cs_startTime s /\
                 closuresOf (cs_type s) (cs_callsign s) (u_removed r) = []) \/
     (getSession k (sessionCache (u_store r)) = None /\
      closuresOf (cs_type s) (cs_callsign s) (u_removed r) =
        [withRemovedAt now (toHistorical s)] /\
      ~ In k (observedKeys cs ps) /\ now - cs_lastSeen s > staleThreshold)) /\
  (forall h,
     In h (u_removed r) ->
     exists k s, getSession k (sessionCache store) = Some s /\
                 h = withRemovedAt now (toHistorical s) /\
                 getSession k (sessionCache (u_store r)) = None).
Proof.
  intros Hwf r. subst r. split.
  - intros k s Hs. destruct (in_dec string_dec k (observedKeys cs ps)) as [Hin|Hun].
    + left. destruct (cycle_observed store now cs ps k s Hwf Hs Hin) as [H1 H2].
      exists (withLastSeen now s). now repeat split.
    + pose proof (cycle_unobserved store now cs ps Hwf k s Hs Hun) as H.
      destruct (now - cs_lastSeen s >? staleThreshold) eqn:E; destruct H as [H1 H2].
      * right. rewrite Z.gtb_ltb in E. apply Z.ltb_lt in E.
        repeat split; try assumption. lia.
      * left. exists s. now repeat split.
  - intros h Hh. destruct (updateSessions_effects store now cs ps) as (H1 & _).
    rewrite H1 in Hh. apply in_map_iff in Hh as [[k s] [<- He]].
    pose proof (closed_from_store store now cs ps _ He) as Hin.
    unfold evicted, staleEntries in He. apply filter_In in He as [_ Hst].
    apply isStale_true in Hst as [Hns Hold]. cbn [fst snd] in *.
    assert (Hs : getSession k (sessionCache store) = Some s).
    { apply In_getSession; [exact (proj1 Hwf)|exact Hin]. }
    assert (Hun : ~ In k (observedKeys cs ps)).
    { intros Hl. apply Hns. now apply observe_seenIds. }
    exists k, s. split; [exact Hs|]. split; [reflexivity|].
    pose proof (cycle_unobserved store now cs ps Hwf k s Hs Hun) as H.
    assert (E : (now - cs_lastSeen s >? staleThreshold) = true).
    { rewrite Z.gtb_ltb. apply Z.ltb_lt. lia. }
    rewrite E in H. exact (proj2 H).
Qed.

Lemma every_open_session_survives_or_closes_witness :
  wfSessions (sessionCache mixedStore) /\
  forall h,
    In h (u_removed (updateSessions mixedStore (t0 + 215000) [towerAgain] [])) ->
    exists k s, getSession k (sessionCache mixedStore) = Some s /\
                h = withRemovedAt (t0 + 215000) (toHistorical s) /\
                getSession k (sessionCache
                  (u_store (updateSessions mixedStore (t0 + 215000) [towerAgain] []))) = None.
Proof.
  assert (Hwf : wfSessions (sessionCache mixedStore)).
  { split.
    - repeat constructor; simpl; intuition discriminate.
    - repeat constructor. }
  split; [exact Hwf|].
  exact (proj2 (every_open_session_survives_or_closes mixedStore (t0 + 215000)
                  [towerAgain] [] Hwf)).
Defined.

(** X4. A session of an identity that some polls miss, each within the
    threshold of its last sighting, and that the next poll lists again, goes
    on as one session: no cycle closes it, and after the poll that lists it
    again it is open with its first start time and the clock of that poll as
    last sighting. *)
Theorem missed_polls_within_grace_keep_the_session store missed q id s :
  wfSessions (sessionCache store) ->
  getSession id (sessionCache store) = Some s ->
  (forall m, In m missed -> ~ In id (pollKeys m)) ->
  (forall m, In m missed -> poll_now m - cs_lastSeen s <= staleThreshold) ->
  In id (pollKeys q) ->
  map (closuresOf (cs_type s) (cs_callsign s)) (snd (runCycles store (missed ++ [q]))) =
    repeat [] (length missed) ++ [[]] /\
  getSession id (sessionCache (fst (runCycles store (missed ++ [q])))) =
    Some (withLastSeen (poll_now q) s) /\
  cs_startTime (withLastSeen (poll_now q) s) = cs_startTime s.
Proof.
  intros Hwf Hs Hun Hg Hq.
  destruct (runCycles_grace missed store id s Hwf Hs Hun Hg) as [G1 G2].
  pose proof (runCycles_wf missed store Hwf) as Hwf1.
  destruct (cycle_observed (fst (runCycles store missed)) (poll_now q) (poll_controllers q)
              (poll_pilots q) id s Hwf1 G2 Hq) as [H1 H2].
  rewrite runCycles_app, runCycles_cons. cbn [fst snd runCycles].
  rewrite map_app. cbn [map]. rewrite G1, H1. now repeat split.
Qed.

Lemma missed_polls_within_grace_keep_the_session_witness :
  getSession "atc-OPKC_TWR"
    (sessionCache (fst (runCycles towerStore
       ([emptyPoll (t0 + 200000)] ++ [mkPoll (t0 + 260000) [towerAgain] []])))) =
  Some (withLastSeen (t0 + 260000) towerSession).
Proof.
  refine (proj1 (proj2 (missed_polls_within_grace_keep_the_session towerStore
            [emptyPoll (t0 + 200000)] (mkPoll (t0 + 260000) [towerAgain] [])
            "atc-OPKC_TWR" towerSession towerStore_wf _ _ _ _))).
  - reflexivity.
  - intros m [<-|[]] [].
  - intros m [<-|[]]. unfold staleThreshold. simpl. lia.
  - left. reflexivity.
Defined.

(** ** Clocks that do not go back *)

Lemma observeAll_invariant now (P : string * CachedSession -> Prop) kf :
  (forall k s, P (k, s) -> P (k, withLastSeen now s)) ->
  (forall f, In f kf -> P f) ->
  forall m, (forall e, In e m -> P e) ->
  forall e, In e (fold_left (observeAt now) kf m) -> P e.
Proof.
  intros Htouch. induction kf as [|a r IH]; intros Hkf m Hm e He; simpl in He.
  - now apply Hm.
  - apply (IH (fun f Hf => Hkf f (or_intror Hf)) (observeAt now m a)); [|exact He].
    intros x Hx. unfold observeAt in Hx. destruct (getSession (fst a) m).
    + apply In_touch in Hx as [Hx|[Hk [s [Hs Hv]]]]; [now apply Hm|].
      destruct x as [k v]. cbn [fst snd] in *. subst. apply Htouch. now apply Hm.
    + unfold addSession in Hx. apply in_app_iff in Hx as [Hx|[<-|[]]]; [now apply Hm|].
      destruct a. apply Hkf. now left.
Qed.

Lemma cycle_ordered t store now cs ps :
  orderedAt t (sessionCache store) -> t <= now ->
  orderedAt now (sessionCache (u_store (updateSessions store now cs ps))) /\
  (forall h, In h (u_removed (updateSessions store now cs ps)) ->
     hs_startTime h <= hs_endTime h /\ hs_endTime h <= now).
Proof.
  intros Hord Ht. split.
  - assert (Hobs : forall e, In e (afterObservation store now cs ps) ->
              cs_startTime (snd e) <= cs_lastSeen (snd e) /\ cs_lastSeen (snd e) <= now).
    { unfold afterObservation. rewrite observe_sessions.
      apply observeAll_invariant.
      - intros k s [H1 H2]. cbn [snd] in *. destruct s. simpl in *. lia.
      - intros f Hf. unfold observedEntries in Hf.
        apply in_app_iff in Hf as [Hf|Hf]; apply in_map_iff in Hf as [x [<- _]];
          simpl; lia.
      - intros [k s] He. cbn [snd]. destruct (Hord k s He). lia. }
    intros k s Hin. unfold updateSessions in Hin. cbn [u_store sessionCache] in Hin.
    set (ob := observe now (sessionCache store) cs ps) in *.
    destruct (sweep_fold now (o_seenIds ob) (o_sessions ob)
                (mkSweep (o_sessions ob) (h_sessions (historyCache store))
                   (h_stats (historyCache store)) [] (o_roster ob) []))
      as (_ & _ & _ & _ & H5 & _).
    cbn [sw_sessions] in H5. rewrite H5, deleteAll_filter in Hin.
    apply filter_In in Hin as [Hin _]. exact (Hobs (k, s) Hin).
  - intros h Hh. destruct (updateSessions_effects store now cs ps) as (H1 & _).
    rewrite H1 in Hh. apply in_map_iff in Hh as [[k s] [<- He]].
    apply closed_from_store in He. destruct (Hord k s He). simpl. lia.
Qed.

(** X5. With clock readings that never go back, the start of a session is
    never after its last sighting: if that holds for the open sessions
    before a run of cycles (as it does for the empty cache), it holds for the
    open sessions after it, and every session that the cycles close ends no
    earlier than it starts. *)
Theorem monotone_clock_orders_sessions polls : forall t store,
  orderedAt t (sessionCache store) ->
  clockFrom t polls ->
  (forall k s, In (k, s) (sessionCache (fst (runCycles store polls))) ->
     cs_startTime s <= cs_lastSeen s) /\
  (forall out h, In out (snd (runCycles store polls)) -> In h out ->
     hs_startTime h <= hs_endTime h).
Proof.
  induction polls as [|q r IH]; intros t store Hord Hclock.
  - split; [|intros out h []]. intros k s Hin. exact (proj1 (Hord k s Hin)).
  - destruct Hclock as [Ht Hrest]. rewrite runCycles_cons. cbn [fst snd].
    destruct (cycle_ordered t store (poll_now q) (poll_controllers q) (poll_pilots q)
                Hord Ht) as [H1 H2].
    destruct (IH (poll_now q) _ H1 Hrest) as [I1 I2].
    split; [exact I1|]. intros out h [<-|Hout] Hh.
    + exact (proj1 (H2 h Hh)).
    + now apply (I2 out).
Qed.

Lemma monotone_clock_orders_sessions_witness :
  clockFrom 0 [mkPoll t0 [towerAgain] []; emptyPoll (t0 + 215000)] /\
  forall out h,
    In out (snd (runCycles emptyStore
                   [mkPoll t0 [towerAgain] []; emptyPoll (t0 + 215000)])) ->
    In h out -> hs_startTime h <= hs_endTime h.
Proof.
  assert (Hclock : clockFrom 0 [mkPoll t0 [towerAgain] []; emptyPoll (t0 + 215000)]).
  { simpl. unfold t0. lia. }
  split; [exact Hclock|].
  refine (proj2 (monotone_clock_orders_sessions
                   [mkPoll t0 [towerAgain] []; emptyPoll (t0 + 215000)] 0 emptyStore _
                   Hclock)).
  intros k s [].
Defined.

(** ** The aggregation by period *)

Lemma additive_controllerMinutes : additive controllerMinutes.
Proof.
  split; [reflexivity|]. intros s b. unfold contribution, addToBucket.
  destruct (hs_type s); [destruct (negb (isAtis (hs_callsign s)))|]; simpl; lia.
Qed.

Lemma additive_controllerSessions : additive controllerSessions.
Proof.
  split; [reflexivity|]. intros s b. unfold contribution, addToBucket.
  destruct (hs_type s); [destruct (negb (isAtis (hs_callsign s)))|]; simpl; lia.
Qed.

Lemma additive_pilotMinutes : additive pilotMinutes.
Proof.
  split; [reflexivity|]. intros s b. unfold contribution, addToBucket.
  destruct (hs_type s); [destruct (negb (isAtis (hs_callsign s)))|]; simpl; lia.
Qed.

Lemma additive_pilotSessions : additive pilotSessions.
Proof.
  split; [reflexivity|]. intros s b. unfold contribution, addToBucket.
  destruct (hs_type s); [destruct (negb (isAtis (hs_callsign s)))|]; simpl; lia.
Qed.

Lemma bucketTotal_acc f (l : list (string * Bucket)) : forall a,
  fold_left (fun acc pb => acc + f (snd pb)) l a = a + bucketTotal f l.
Proof.
  unfold bucketTotal. induction l as [|x r IH]; intros a; simpl; [lia|].
  rewrite IH, (IH (0 + _)). lia.
Qed.

Lemma bucketTotal_cons f x (l : list (string * Bucket)) :
  bucketTotal f (x :: l) = f (snd x) + bucketTotal f l.
Proof. unfold bucketTotal at 1. simpl. now rewrite bucketTotal_acc. Qed.

Lemma bucketTotal_upsert f p s g :
  additive f ->
  bucketTotal f (upsertBucket p (addToBucket s) g) = bucketTotal f g + contribution f s.
Proof.
  intros [Hz Ha]. induction g as [|[k b] r IH]; simpl.
  - rewrite bucketTotal_cons. simpl. unfold bucketTotal. simpl. rewrite Ha, Hz. lia.
  - destruct (String.eqb k p); rewrite !bucketTotal_cons; simpl.
    + rewrite Ha. lia.
    + rewrite IH. lia.
Qed.

Lemma bucketTotal_insert f x l :
  bucketTotal f (insertByPeriod x l) = f (snd x) + bucketTotal f l.
Proof.
  induction l as [|y r IH]; simpl; [apply bucketTotal_cons|].
  destruct (periodBefore (fst x) (fst y)); rewrite !bucketTotal_cons; [reflexivity|].
  rewrite IH. lia.
Qed.

Lemma bucketTotal_sort f l : bucketTotal f (sortByPeriod l) = bucketTotal f l.
Proof.
  unfold sortByPeriod.
  assert (H : forall acc, bucketTotal f (fold_left (fun acc x => insertByPeriod x acc) l acc)
                          = bucketTotal f l + bucketTotal f acc).
  { induction l as [|x r IH]; intros acc; simpl; [reflexivity|].
    rewrite IH, bucketTotal_insert, bucketTotal_cons. lia. }
  rewrite H. unfold bucketTotal at 2. simpl. lia.
Qed.

Lemma sumMinutes_cons a l : sumMinutes (a :: l) = hs_durationMinutes a + sumMinutes l.
Proof. change (a :: l) with ([a] ++ l). rewrite sumMinutes_app. reflexivity. Qed.

Lemma contributions_controllerMinutes l :
  contributionTotal controllerMinutes l = recalculatedControllerMinutes l.
Proof.
  unfold recalculatedControllerMinutes. induction l as [|s r IH]; [reflexivity|].
  cbn [contributionTotal fold_right List.filter]. fold (contributionTotal controllerMinutes r).
  rewrite IH. unfold contribution, addToBucket, countedController.
  destruct (hs_type s); cbn [isController andb negb].
  - destruct (isAtis (hs_callsign s)); cbn [negb]; [reflexivity|].
    rewrite sumMinutes_cons. reflexivity.
  - reflexivity.
Qed.

Lemma contributions_pilotMinutes l :
  contributionTotal pilotMinutes l = recalculatedPilotMinutes l.
Proof.
  unfold recalculatedPilotMinutes. induction l as [|s r IH]; [reflexivity|].
  cbn [contributionTotal fold_right List.filter]. fold (contributionTotal pilotMinutes r).
  rewrite IH. unfold contribution, addToBucket, isPilotSession.
  destruct (hs_type s); cbn [isController andb negb].
  - now destruct (isAtis (hs_callsign s)).
  - rewrite sumMinutes_cons. reflexivity.
Qed.

Lemma contributions_controllerSessions l :
  contributionTotal controllerSessions l = recalculatedControllerSessions l.
Proof.
  unfold recalculatedControllerSessions. induction l as [|s r IH]; [reflexivity|].
  cbn [contributionTotal fold_right List.filter]. fold (contributionTotal controllerSessions r).
  rewrite IH. unfold contribution, addToBucket, countedController.
  destruct (hs_type s); cbn [isController andb negb].
  - destruct (isAtis (hs_callsign s)); cbn [negb length]; [reflexivity|].
    rewrite Nat2Z.inj_succ. simpl. lia.
  - reflexivity.
Qed.

Lemma contributions_pilotSessions l :
  contributionTotal pilotSessions l = recalculatedPilotSessions l.
Proof.
  unfold recalculatedPilotSessions. induction l as [|s r IH]; [reflexivity|].
  cbn [contributionTotal fold_right List.filter]. fold (contributionTotal pilotSessions r).
  rewrite IH. unfold contribution, addToBucket, isPilotSession.
  destruct (hs_type s); cbn [isController andb negb length].
  - now destruct (isAtis (hs_callsign s)).
  - rewrite Nat2Z.inj_succ. simpl. lia.
Qed.

Section PeriodFacts.

Variable weekStart : string -> string.
Variable groupBy : GroupBy.

Let step := fun grouped session =>
  upsertBucket (periodOf weekStart groupBy session) (addToBucket session) grouped.

Lemma grouped_total f : additive f -> forall sessions g,
  bucketTotal f (fold_left step sessions g) = bucketTotal f g + contributionTotal f sessions.
Proof.
  intros Hf. induction sessions as [|s r IH]; intros g; cbn [fold_left].
  - simpl. lia.
  - rewrite IH. unfold step. rewrite bucketTotal_upsert by exact Hf.
    cbn [contributionTotal fold_right]. fold (contributionTotal f r). lia.
Qed.

(** X6. The buckets of an aggregation add up to the overall totals that the
    history route and the synchroniser recompute from the same history:
    controller minutes and sessions without the ATIS positions, and pilot
    minutes and sessions, whatever the grouping. *)
Theorem buckets_add_up_to_overall_totals history :
  let out := getAggregatedStats weekStart groupBy history in
  bucketTotal controllerMinutes out = recalculatedControllerMinutes (h_sessions history) /\
  bucketTotal controllerSessions out = recalculatedControllerSessions (h_sessions history) /\
  bucketTotal pilotMinutes out = recalculatedPilotMinutes (h_sessions history) /\
  bucketTotal pilotSessions out = recalculatedPilotSessions (h_sessions history).
Proof.
  unfold getAggregatedStats. cbv zeta. rewrite !bucketTotal_sort.
  fold step.
  rewrite (grouped_total _ additive_controllerMinutes),
    (grouped_total _ additive_controllerSessions),
    (grouped_total _ additive_pilotMinutes), (grouped_total _ additive_pilotSessions).
  rewrite contributions_controllerMinutes, contributions_controllerSessions,
    contributions_pilotMinutes, contributions_pilotSessions.
  unfold bucketTotal. simpl. repeat split; lia.
Qed.

Lemma upsert_keys p f (g : list (string * Bucket)) k :
  In k (map fst (upsertBucket p f g)) <-> k = p \/ In k (map fst g).
Proof.
  induction g as [|[k' b] r IH]; simpl; [intuition congruence|].
  destruct (String.eqb k' p) eqn:E; simpl.
  - apply String.eqb_eq in E. subst. intuition congruence.
  - rewrite IH. intuition congruence.
Qed.

Lemma upsert_nodup p f (g : list (string * Bucket)) :
  List.NoDup (map fst g) -> List.NoDup (map fst (upsertBucket p f g)).
Proof.
  induction g as [|[k b] r IH]; simpl; intros H.
  - constructor; [intros []|constructor].
  - apply List.NoDup_cons_iff in H as [Hk Hr].
    destruct (String.eqb k p) eqn:E; simpl.
    + apply List.NoDup_cons_iff. now split.
    + apply String.eqb_neq in E. apply List.NoDup_cons_iff. split; [|now apply IH].
      rewrite upsert_keys. intros [->|H]; [now apply E|now apply Hk].
Qed.

Lemma grouped_keys sessions : forall g,
  List.NoDup (map fst g) ->
  List.NoDup (map fst (fold_left step sessions g)) /\
  forall k, In k (map fst (fold_left step sessions g)) <->
            In k (map fst g) \/
            exists s, In s sessions /\ periodOf weekStart groupBy s = k.
Proof.
  induction sessions as [|s r IH]; intros g Hg; simpl.
  - split; [exact Hg|]. intros k. split; [now left|]. intros [H|[s [[] _]]]. exact H.
  - destruct (IH (step g s)) as [H1 H2]; [now apply upsert_nodup|].
    split; [exact H1|]. intros k. rewrite H2. unfold step at 1. rewrite upsert_keys.
    split.
    + intros [[->|H]|[s' [Hs' Hk]]]; eauto.
    + intros [H|[s' [[->|Hs'] Hk]]]; eauto.
Qed.

End PeriodFacts.

Lemma insertByPeriod_perm x l : Permutation (insertByPeriod x l) (x :: l).
Proof.
  induction l as [|y r IH]; simpl; [reflexivity|].
  destruct (periodBefore (fst x) (fst y)); [reflexivity|].
  rewrite IH. apply perm_swap.
Qed.

Lemma sortByPeriod_perm l : Permutation (sortByPeriod l) l.
Proof.
  unfold sortByPeriod.
  assert (H : forall acc, Permutation (fold_left (fun acc x => insertByPeriod x acc) l acc)
                            (l ++ acc)).
  { induction l as [|x r IH]; intros acc; simpl; [reflexivity|].
    rewrite IH, insertByPeriod_perm. symmetry. apply Permutation_middle. }
  rewrite H. now rewrite app_nil_r.
Qed.

Lemma insertByPeriod_nondescending x l :
  nondescending l -> nondescending (insertByPeriod x l).
Proof.
  induction l as [|y r IH]; simpl; [trivial|]. intros H.
  destruct (periodBefore (fst x) (fst y)) eqn:Exy.
  - split; [|exact H]. unfold periodBefore in *.
    rewrite String.compare_antisym. destruct (String.compare (fst x) (fst y)); simpl;
      congruence.
  - destruct r as [|y' r']; simpl in *; [now split|].
    destruct H as [H1 H2]. destruct (periodBefore (fst x) (fst y')) eqn:E'.
    + split; [exact Exy|]. exact (IH H2).
    + split; [exact H1|]. exact (IH H2).
Qed.

Lemma sortByPeriod_nondescending l : nondescending (sortByPeriod l).
Proof.
  unfold sortByPeriod.
  assert (H : forall acc, nondescending acc ->
                nondescending (fold_left (fun acc x => insertByPeriod x acc) l acc)).
  { induction l as [|x r IH]; intros acc Hacc; simpl; [exact Hacc|].
    apply IH. now apply insertByPeriod_nondescending. }
  apply H. exact I.
Qed.

Lemma nondescending_ascending l :
  nondescending l -> List.NoDup (map fst l) -> ascending (map fst l).
Proof.
  induction l as [|a [|b r] IH]; simpl; trivial.
  intros [H1 H2] Hnd. apply List.NoDup_cons_iff in Hnd as [Ha Hnd].
  split; [|now apply IH].
  unfold periodBefore in H1. rewrite String.compare_antisym in H1.
  destruct (String.compare (fst a) (fst b)) eqn:E; simpl in H1; try congruence.
  apply String.compare_eq_iff in E. exfalso. apply Ha. left. now symmetry.
Qed.

(** X7. An aggregation has one bucket for every period in which the
    history has a session, also when all sessions of the period are ATIS
    positions and the bucket stays empty, no bucket for any other period, and
    lists the buckets by strictly ascending period key. *)
Theorem one_bucket_per_period_ascending weekStart groupBy history :
  let out := getAggregatedStats weekStart groupBy history in
  List.NoDup (map fst out) /\
  (forall period, In period (map fst out) <->
     exists s, In s (h_sessions history) /\ periodOf weekStart groupBy s = period) /\
  ascending (map fst out).
Proof.
  cbv zeta. unfold getAggregatedStats.
  destruct (grouped_keys weekStart groupBy (h_sessions history) [] (List.NoDup_nil _))
    as [Hnd Hkeys].
  set (grouped := fold_left _ (h_sessions history) []) in *.
  assert (Hperm : Permutation (map fst (sortByPeriod grouped)) (map fst grouped)).
  { apply Permutation_map, sortByPeriod_perm. }
  assert (Hnd' : List.NoDup (map fst (sortByPeriod grouped))).
  { apply (Permutation.Permutation_NoDup (Permutation_sym Hperm)). exact Hnd. }
  split; [exact Hnd'|]. split.
  - intros period. split.
    + intros H. apply (Permutation_in _ Hperm) in H. apply Hkeys in H as [[]|H]. exact H.
    + intros H. apply (Permutation_in _ (Permutation_sym Hperm)). apply Hkeys. now right.
  - apply nondescending_ascending; [apply sortByPeriod_nondescending|exact Hnd'].
Qed.

(** ** Closures on their way to the relational store *)

Lemma dbWrites_cons env h saves :
  dbWrites env (h :: saves) =
  match saveSessionToDatabase env h with Some i => [i] | None => [] end ++ dbWrites env saves.
Proof. reflexivity. Qed.

Lemma saved_summary env h :
  databaseUrl env = true -> connectOk env = true ->
  map insertSummary
    match saveSessionToDatabase env h with Some i => [i] | None => [] end =
  map closureSummary (if persisted h then [h] else []).
Proof.
  intros Hurl Hconn. unfold saveSessionToDatabase, persisted. rewrite Hurl, Hconn.
  destruct h as [i t c n cs f fa d a ac st en du da re]. cbn [negb hs_type hs_callsign].
  destruct t; cbn [isController andb]; [destruct (isAtis cs)|]; reflexivity.
Qed.

(** X8. Of the closures of a live cycle, the relational store receives
    nothing when [DATABASE_URL] is unset or the connection fails; otherwise
    it receives one insert for every closure that is no ATIS controller
    position, in closing order, with the category, callsign, start, end and
    minutes of the closure. *)
Theorem database_receives_all_but_atis_closures env store now cs ps :
  let r := updateSessions store now cs ps in
  (databaseUrl env = false \/ connectOk env = false -> dbWrites env (u_dbSaves r) = []) /\
  (databaseUrl env = true -> connectOk env = true ->
   map insertSummary (dbWrites env (u_dbSaves r)) =
   map closureSummary (List.filter persisted (closedBy store now cs ps))).
Proof.
  cbv zeta. destruct (updateSessions_effects store now cs ps) as (_ & _ & H3 & _).
  rewrite H3. fold (closedBy store now cs ps). generalize (closedBy store now cs ps).
  intros saves. split.
  - intros Hdown. induction saves as [|h r IH]; [reflexivity|].
    rewrite dbWrites_cons, IH. unfold saveSessionToDatabase.
    destruct Hdown as [-> | ->]; [reflexivity|]. now destruct (negb (databaseUrl env)).
  - intros Hurl Hconn. induction saves as [|h r IH]; [reflexivity|].
    rewrite dbWrites_cons, map_app, IH, (saved_summary env h Hurl Hconn).
    cbn [List.filter]. now destruct (persisted h).
Qed.

Lemma database_receives_all_but_atis_closures_witness :
  map insertSummary
    (dbWrites liveDb (u_dbSaves (updateSessions mixedStore (t0 + 215000) [] []))) =
  [(Controller, "OPKC_TWR", t0, t0 + 90000, 2); (Pilot, "PIA301", t0, t0 + 45000, 1)].
Proof.
  rewrite (proj2 (database_receives_all_but_atis_closures liveDb mixedStore (t0 + 215000)
                    [] []) eq_refl eq_refl).
  vm_compute. reflexivity.
Defined.

(** ** The roster *)

Lemma fetched_is_resident outcome now info :
  fr_info (fetchMemberInfo outcome now) = Some info ->
  mi_subdivision info = "PAK" /\ fr_isPakistan (fetchMemberInfo outcome now) = true /\
  mi_source info = Manual /\ mi_lastCallsign info = None /\ mi_sessionsCount info = None.
Proof.
  unfold fetchMemberInfo. destruct outcome as [data| |]; try discriminate.
  destruct (isPakistanData data) eqn:E; [|discriminate].
  cbn [fr_info fr_isPakistan]. intros [= <-]. cbn. repeat split.
  unfold isPakistanData in E. unfold present, strOrNull.
  destruct (api_subdivision data) as [sub|]; [|reflexivity].
  destruct (Js.truthyStr sub) eqn:Et; [|reflexivity].
  rewrite andb_false_r, orb_false_r in E. now apply String.eqb_eq in E.
Qed.

Lemma subdivision_setLastSeen v m : mi_subdivision (setLastSeen v m) = mi_subdivision m.
Proof. now destruct m. Qed.
Lemma subdivision_setName v m : mi_subdivision (setName v m) = mi_subdivision m.
Proof. now destruct m. Qed.
Lemma subdivision_setLastCallsign v m : mi_subdivision (setLastCallsign v m) = mi_subdivision m.
Proof. now destruct m. Qed.
Lemma subdivision_setSource v m : mi_subdivision (setSource v m) = mi_subdivision m.
Proof. now destruct m. Qed.
Lemma subdivision_setSessionsCount v m :
  mi_subdivision (setSessionsCount v m) = mi_subdivision m.
Proof. now destruct m. Qed.
Lemma subdivision_setControllerMinutes v m :
  mi_subdivision (setControllerMinutes v m) = mi_subdivision m.
Proof. now destruct m. Qed.
Lemma subdivision_setPilotMinutes v m :
  mi_subdivision (setPilotMinutes v m) = mi_subdivision m.
Proof. now destruct m. Qed.

Lemma subdivision_liveLastCallsign store db cid callsign m :
  mi_subdivision (liveLastCallsign store db cid callsign m) = mi_subdivision m.
Proof.
  unfold liveLastCallsign. destruct callsign as [c|]; [|reflexivity].
  destruct (_ && _); [apply subdivision_setLastCallsign|].
  destruct (_ && _); [|reflexivity].
  destruct (findLastNonAtisCallsign _ _ _ _) as [v|]; [|reflexivity].
  destruct (Js.truthyStr v); [apply subdivision_setLastCallsign|reflexivity].
Qed.

Lemma profile_liveLastCallsign store db cid callsign m :
  mi_rating (liveLastCallsign store db cid callsign m) = mi_rating m /\
  mi_ratingName (liveLastCallsign store db cid callsign m) = mi_ratingName m /\
  mi_division (liveLastCallsign store db cid callsign m) = mi_division m.
Proof.
  unfold liveLastCallsign. destruct callsign as [c|]; [|now repeat split].
  destruct (Js.truthyStr c && negb (isAtis c)); [now destruct m|].
  destruct (Js.truthyStr c && isAtis c); [|now repeat split].
  destruct (findLastNonAtisCallsign _ _ _ _) as [v|]; [|now repeat split].
  destruct (Js.truthyStr v); [now destruct m|now repeat split].
Qed.

Lemma allResidents_insert (roster : gmap Z MemberInfo) cid m :
  allResidents roster -> mi_subdivision m = "PAK" -> allResidents (<[ cid := m ]> roster).
Proof.
  intros Hall Hm cid' m' H. destruct (decide (cid = cid')) as [->|Hne].
  - rewrite lookup_insert_eq in H. now injection H as <-.
  - rewrite lookup_insert_ne in H by exact Hne. now apply (Hall cid').
Qed.

(** X9. Every record that [fetchMemberInfo] returns, and every record that
    [addMemberToRoster] files, has the subdivision PAK: a roster whose
    members are all filed under PAK stays so under additions, live updates,
    session statistics and removals.  For such a member the live update
    takes the resident branch: whatever the ratings API would answer, the
    rating, the rating name and the division of the member stay as they
    are. *)
Theorem roster_members_stay_residents (roster : gmap Z MemberInfo) :
  allResidents roster ->
  (forall outcome now info,
     fr_info (fetchMemberInfo outcome now) = Some info -> mi_subdivision info = "PAK") /\
  (forall outcome now cid source forceAdd,
     allResidents (fst (addMemberToRoster roster outcome now cid source forceAdd))) /\
  (forall store db fetched now cid name callsign,
     allResidents (updateMemberFromLive roster store db fetched now cid name callsign) /\
     forall m m',
       roster !! cid = Some m ->
       updateMemberFromLive roster store db fetched now cid name callsign !! cid = Some m' ->
       mi_rating m' = mi_rating m /\ mi_ratingName m' = mi_ratingName m /\
       mi_division m' = mi_division m) /\
  (forall now cid type minutes callsign,
     allResidents (updateMemberStats roster now cid type minutes callsign)) /\
  (forall now cid callsign, allResidents (updateMemberLastSeen roster now cid callsign)) /\
  (forall cid, allResidents (fst (removeMemberFromRoster roster cid))).
Proof.
  intros Hall. split; [|split; [|split; [|split; [|split]]]].
  - intros outcome now info Hinfo. now apply fetched_is_resident in Hinfo as [Hinfo _].
  - intros outcome now cid source forceAdd. unfold addMemberToRoster.
    destruct (roster !! cid) as [old|] eqn:Eo; cbn [fst].
    + apply allResidents_insert; [exact Hall|].
      destruct (_ || _).
      * destruct (fr_info (fetchMemberInfo outcome now)) as [info|] eqn:Ef.
        -- apply fetched_is_resident in Ef as [Ef _]. exact Ef.
        -- rewrite subdivision_setLastSeen. now apply (Hall cid).
      * rewrite subdivision_setLastSeen. now apply (Hall cid).
    + destruct (fr_info (fetchMemberInfo outcome now)) as [info|] eqn:Ef.
      * destruct (_ && _); [exact Hall|]. cbn [fst].
        apply allResidents_insert; [exact Hall|]. rewrite subdivision_setSource.
        now apply fetched_is_resident in Ef as [Ef _].
      * destruct forceAdd; [|exact Hall]. cbn [fst].
        now apply allResidents_insert.
  - intros store db fetched now cid name callsign.
    unfold updateMemberFromLive. destruct (roster !! cid) as [m0|] eqn:Em.
    + set (m2 := liveLastCallsign store db cid callsign _).
      assert (Hsub : mi_subdivision m2 = "PAK").
      { subst m2. rewrite subdivision_liveLastCallsign, subdivision_setLastSeen.
        destruct (_ && _); [rewrite subdivision_setName|]; now apply (Hall cid). }
      assert (Hlive : liveProfile fetched m2 = m2).
      { unfold liveProfile. now rewrite Hsub. }
      rewrite Hlive. split; [now apply allResidents_insert|].
      intros m m' [= <-]. rewrite lookup_insert_eq. intros [= <-]. subst m2.
      destruct (profile_liveLastCallsign store db cid callsign
                  (setLastSeen now (if nameMissing (mi_name m0) && nameUsable cid name
                                    then setName name m0 else m0))) as (L1 & L2 & L3).
      rewrite L1, L2, L3.
      destruct (nameMissing (mi_name m0) && nameUsable cid name); now destruct m0.
    + split; [exact Hall|]. intros m m' H. discriminate H.
  - intros now cid type minutes callsign. unfold updateMemberStats.
    destruct (roster !! cid) as [m0|] eqn:Em; [|exact Hall].
    apply allResidents_insert; [exact Hall|].
    destruct type.
    + destruct callsign as [c|]; [destruct (_ && _)|];
        rewrite ?subdivision_setLastCallsign, subdivision_setControllerMinutes,
          subdivision_setSessionsCount, subdivision_setLastSeen; now apply (Hall cid).
    + rewrite subdivision_setPilotMinutes, subdivision_setSessionsCount,
        subdivision_setLastSeen. now apply (Hall cid).
  - intros now cid callsign. unfold updateMemberLastSeen.
    destruct (roster !! cid) as [m0|] eqn:Em; [|exact Hall].
    apply allResidents_insert; [exact Hall|].
    destruct callsign as [c|]; [destruct (_ && _)|];
      rewrite ?subdivision_setLastCallsign, subdivision_setLastSeen; now apply (Hall cid).
  - intros cid. unfold removeMemberFromRoster.
    destruct (roster !! cid) eqn:Em; [|exact Hall]. cbn [fst].
    intros cid' m' H. apply lookup_delete_Some in H as [_ H]. now apply (Hall cid').
Qed.

Lemma sampleRoster_residents : allResidents sampleRoster.
Proof.
  intros cid m H. unfold sampleRoster in H.
  apply lookup_singleton_Some in H as [_ <-]. reflexivity.
Qed.

Lemma roster_members_stay_residents_witness :
  allResidents sampleRoster /\
  allResidents (fst (addMemberToRoster sampleRoster NotFound t0 strangerCid Manual true)).
Proof.
  split; [exact sampleRoster_residents|].
  exact (proj1 (proj2 (roster_members_stay_residents sampleRoster sampleRoster_residents))
           NotFound t0 strangerCid Manual true).
Defined.

Lemma fetched_when_pakistan outcome now :
  fr_isPakistan (fetchMemberInfo outcome now) = true <->
  fr_info (fetchMemberInfo outcome now) <> None.
Proof.
  unfold fetchMemberInfo. destruct outcome as [data| |]; cbn; try (split; [discriminate|congruence]).
  destruct (isPakistanData data); cbn; split; congruence.
Qed.

(** X10. [addMemberToRoster] succeeds exactly when the member is in the
    roster already, or the ratings API files the member under Pakistan, or
    the addition is forced.  On success the returned member is the record
    stored under the cid; on failure the roster is the one it was and an
    error text is returned.  No other member's record is touched either
    way. *)
Theorem add_member_outcome (roster : gmap Z MemberInfo) outcome now cid source forceAdd :
  let out := addMemberToRoster roster outcome now cid source forceAdd in
  (ar_success (snd out) = true <->
     is_Some (roster !! cid) \/ fr_isPakistan (fetchMemberInfo outcome now) = true \/
     forceAdd = true) /\
  (ar_success (snd out) = true ->
     is_Some (ar_member (snd out)) /\ fst out !! cid = ar_member (snd out) /\
     ar_error (snd out) = None) /\
  (ar_success (snd out) = false ->
     fst out = roster /\ ar_member (snd out) = None /\ is_Some (ar_error (snd out))) /\
  (forall other, other <> cid -> fst out !! other = roster !! other).
Proof.
  cbv zeta. unfold addMemberToRoster.
  pose proof (fetched_when_pakistan outcome now) as Hpk.
  destruct (roster !! cid) as [old|] eqn:Eo.
  - cbn [fst snd ar_success ar_member ar_error]. rewrite lookup_insert_eq.
    repeat split; eauto; try discriminate.
    intros other Hne. now rewrite lookup_insert_ne.
  - destruct (fr_info (fetchMemberInfo outcome now)) as [info|] eqn:Ef.
    + assert (Hp : fr_isPakistan (fetchMemberInfo outcome now) = true)
        by (apply Hpk; discriminate).
      rewrite Hp, andb_false_r. cbn [fst snd ar_success ar_member ar_error].
      rewrite lookup_insert_eq. repeat split; eauto; try discriminate.
      intros other Hne. now rewrite lookup_insert_ne.
    + assert (Hp : fr_isPakistan (fetchMemberInfo outcome now) = false).
      { destruct (fr_isPakistan _); [|reflexivity]. now destruct (proj1 Hpk eq_refl). }
      rewrite Hp. destruct forceAdd; cbn [fst snd ar_success ar_member ar_error].
      * rewrite lookup_insert_eq. repeat split; eauto; try discriminate.
        intros other Hne. now rewrite lookup_insert_ne.
      * repeat split; eauto; try discriminate.
        intros [[x Hx]|[H|H]]; discriminate.
Qed.

(** X11. For a member that is in the roster already, [addMemberToRoster]
    stamps the time of the call as last-seen and keeps the cid's source,
    date of addition, last callsign and the three counters, whatever the
    ratings API answers; if the stored rating is known (rating name other
    than Unknown and rating other than 0) the API's answer changes nothing
    else either. *)
Theorem re_adding_keeps_member_history (roster : gmap Z MemberInfo) outcome now cid source
    forceAdd old :
  roster !! cid = Some old ->
  exists m,
    fst (addMemberToRoster roster outcome now cid source forceAdd) !! cid = Some m /\
    mi_lastSeen m = Some now /\
    mi_source m = mi_source old /\ mi_addedAt m = mi_addedAt old /\
    mi_lastCallsign m = mi_lastCallsign old /\
    mi_totalControllerMinutes m = mi_totalControllerMinutes old /\
    mi_totalPilotMinutes m = mi_totalPilotMinutes old /\
    mi_sessionsCount m = mi_sessionsCount old /\
    (mi_ratingName old <> "Unknown" -> mi_rating old <> 0 -> m = setLastSeen now old).
Proof.
  intros Ho. unfold addMemberToRoster. rewrite Ho. cbn [fst].
  rewrite lookup_insert_eq. eexists. split; [reflexivity|].
  destruct (String.eqb (mi_ratingName (setLastSeen now old)) "Unknown") eqn:En;
    destruct (mi_rating (setLastSeen now old) =? 0) eqn:Er; cbn [orb].
  1-3: destruct (fr_info (fetchMemberInfo outcome now)) as [info|];
       (destruct old; cbn; repeat split; try reflexivity;
        cbn in En, Er; intros Hn Hr;
        try (apply String.eqb_eq in En; congruence);
        try (apply Z.eqb_eq in Er; congruence)).
  destruct old; cbn; repeat split; reflexivity.
Qed.

Lemma re_adding_keeps_member_history_witness :
  exists m,
    fst (addMemberToRoster sampleRoster (Fetched ayeshaData) (t0 + 60000) 1400001
           AutoDetected false) !! 1400001 = Some m /\
    mi_lastSeen m = Some (t0 + 60000) /\
    mi_source m = mi_source ayesha /\ mi_addedAt m = mi_addedAt ayesha /\
    mi_lastCallsign m = mi_lastCallsign ayesha /\
    mi_totalControllerMinutes m = mi_totalControllerMinutes ayesha /\
    mi_totalPilotMinutes m = mi_totalPilotMinutes ayesha /\
    mi_sessionsCount m = mi_sessionsCount ayesha /\
    (mi_ratingName ayesha <> "Unknown" -> mi_rating ayesha <> 0 ->
     m = setLastSeen (t0 + 60000) ayesha).
Proof.
  apply (re_adding_keeps_member_history sampleRoster (Fetched ayeshaData) (t0 + 60000)
           1400001 AutoDetected false ayesha).
  reflexivity.
Defined.

Lemma updateMemberStats_other roster now cid type minutes callsign other :
  other <> cid ->
  updateMemberStats roster now cid type minutes callsign !! other = roster !! other.
Proof.
  intros Hne. unfold updateMemberStats. destruct (roster !! cid); [|reflexivity].
  now rewrite lookup_insert_ne.
Qed.

Lemma updateMemberStats_absent roster now cid type minutes callsign :
  roster !! cid = None -> updateMemberStats roster now cid type minutes callsign = roster.
Proof. intros H. unfold updateMemberStats. now rewrite H. Qed.

Lemma updateMemberStats_member roster now cid type minutes callsign m :
  roster !! cid = Some m ->
  exists m',
    updateMemberStats roster now cid type minutes callsign !! cid = Some m' /\
    orZero (mi_sessionsCount m') = orZero (mi_sessionsCount m) + 1 /\
    orZero (mi_totalControllerMinutes m') =
      orZero (mi_totalControllerMinutes m) + (if isType type Controller then minutes else 0) /\
    orZero (mi_totalPilotMinutes m') =
      orZero (mi_totalPilotMinutes m) + (if isType type Pilot then minutes else 0) /\
    mi_cid m' = mi_cid m /\ mi_rating m' = mi_rating m /\
    mi_source m' = mi_source m /\ mi_addedAt m' = mi_addedAt m.
Proof.
  intros H. unfold updateMemberStats. rewrite H, lookup_insert_eq.
  eexists. split; [reflexivity|].
  destruct type.
  - destruct callsign as [c|]; [destruct (Js.truthyStr c && negb (isAtis c))|];
      destruct m; cbn; repeat split; lia.
  - destruct m; cbn; repeat split; lia.
Qed.

(** X12. When the closures of a period are reported to the roster one after
    the other, a member that is on the roster ends with a session count
    raised by the number of reports that carry the member's cid, and with
    controller and pilot minutes raised by the minutes of those reports of
    the respective kind; the cid, rating, source and date of addition stay.
    Reports for a cid that is not on the roster change nothing: no member is
    added by a report. *)
Theorem roster_counters_accumulate (calls : list StatsCall) :
  forall (roster : gmap Z MemberInfo) cid,
  (forall m, roster !! cid = Some m ->
     exists m',
       recordStats roster calls !! cid = Some m' /\
       orZero (mi_sessionsCount m') =
         orZero (mi_sessionsCount m) + Z.of_nat (length (callsFor cid calls)) /\
       orZero (mi_totalControllerMinutes m') =
         orZero (mi_totalControllerMinutes m) + minutesOf Controller (callsFor cid calls) /\
       orZero (mi_totalPilotMinutes m') =
         orZero (mi_totalPilotMinutes m) + minutesOf Pilot (callsFor cid calls) /\
       mi_cid m' = mi_cid m /\ mi_rating m' = mi_rating m /\
       mi_source m' = mi_source m /\ mi_addedAt m' = mi_addedAt m) /\
  (roster !! cid = None -> recordStats roster calls !! cid = None).
Proof.
  induction calls as [|c calls IH]; intros roster cid.
  - split.
    + intros m Hm. exists m. cbn. repeat split; try lia. exact Hm.
    + intros Hm. exact Hm.
  - unfold recordStats. cbn [fold_left]. fold (recordStats
      (updateMemberStats roster (sc_now c) (sc_cid c) (sc_type c) (sc_minutes c)
         (sc_callsign c)) calls).
    unfold callsFor. cbn [List.filter]. fold (callsFor cid calls).
    destruct (Z.eqb_spec (sc_cid c) cid) as [Heq|Hne].
    + split.
      * intros m Hm. rewrite Heq.
        destruct (updateMemberStats_member roster (sc_now c) cid (sc_type c) (sc_minutes c)
                    (sc_callsign c) m Hm) as (m1 & H1 & S1 & C1 & P1 & K1 & K2 & K3 & K4).
        destruct (proj1 (IH _ cid) m1 H1) as (m2 & H2 & S2 & C2 & P2 & J1 & J2 & J3 & J4).
        exists m2. split; [exact H2|].
        cbn [length minutesOf fold_right]. fold (minutesOf Controller (callsFor cid calls)).
        fold (minutesOf Pilot (callsFor cid calls)).
        repeat split; try congruence; lia.
      * intros Hm. rewrite Heq, updateMemberStats_absent by exact Hm.
        now apply (IH roster cid).
    + split.
      * intros m Hm. apply (proj1 (IH _ cid)).
        rewrite updateMemberStats_other by congruence. exact Hm.
      * intros Hm. apply (proj2 (IH _ cid)).
        rewrite updateMemberStats_other by congruence. exact Hm.
Qed.

(** X13. [removeMemberFromRoster] answers true exactly when the cid was on
    the roster; afterwards the cid is not on the roster and every other
    member is as before.  Removing a member right after a forced addition
    of a cid that was not on the roster gives back the roster as it
    was. *)
Theorem remove_undoes_addition (roster : gmap Z MemberInfo) cid :
  (snd (removeMemberFromRoster roster cid) = true <-> is_Some (roster !! cid)) /\
  fst (removeMemberFromRoster roster cid) !! cid = None /\
  (forall other, other <> cid ->
     fst (removeMemberFromRoster roster cid) !! other = roster !! other) /\
  (roster !! cid = None ->
   forall outcome now source,
     removeMemberFromRoster (fst (addMemberToRoster roster outcome now cid source true)) cid
     = (roster, true)).
Proof.
  unfold removeMemberFromRoster at 1 2 3. destruct (roster !! cid) as [m|] eqn:Em; cbn [fst snd].
  - split; [split; eauto|]. split; [apply lookup_delete_eq|].
    split; [intros other Hne; now rewrite lookup_delete_ne|discriminate].
  - split; [split; [discriminate|intros [x Hx]; discriminate]|].
    split; [exact Em|]. split; [reflexivity|].
    intros _ outcome now source. unfold addMemberToRoster. rewrite Em.
    destruct (fr_info (fetchMemberInfo outcome now)) as [info|];
      rewrite ?andb_false_l; cbn [negb andb fst];
      unfold removeMemberFromRoster; rewrite lookup_insert_eq;
      now rewrite delete_insert_id.
Qed.

(** ** The synchroniser *)

Section ImportLoop.

Context {R : Type} (rowId : R -> string) (convert : string -> R -> HistoricalSession).
Hypothesis convert_id : forall r, hs_id (convert (rowId r) r) = rowId r.

Let importRow (st : Import) (r : R) : Import :=
  importSession (rowId r) (convert (rowId r) r) st.

Lemma importRow_ids st r :
  rowId r ∈ im_ids (importRow st r) /\ im_ids st ⊆ im_ids (importRow st r).
Proof.
  unfold importRow, importSession. destruct (bool_decide_reflect (rowId r ∈ im_ids st)); cbn.
  - split; [assumption|set_solver].
  - split; set_solver.
Qed.

Lemma importRows_ids rows : forall st,
  im_ids st ⊆ im_ids (fold_left importRow rows st) /\
  forall r, In r rows -> rowId r ∈ im_ids (fold_left importRow rows st).
Proof.
  induction rows as [|x rows IH]; intros st; cbn [fold_left].
  - split; [set_solver|intros r []].
  - destruct (IH (importRow st x)) as [Hsub Hin].
    destruct (importRow_ids st x) as [Hx Hst]. split.
    + intros y Hy. apply Hsub, Hst, Hy.
    + intros r [<-|Hr]; [apply Hsub, Hx|now apply Hin].
Qed.

Lemma importRows_step rows : forall st,
  idsInStep st -> idsInStep (fold_left importRow rows st).
Proof.
  induction rows as [|x rows IH]; intros st Hst; cbn [fold_left]; [exact Hst|].
  apply IH. unfold idsInStep, importRow, importSession in *.
  destruct (bool_decide_reflect (rowId x ∈ im_ids st)); cbn; [exact Hst|].
  rewrite convert_id, Hst. reflexivity.
Qed.

Lemma importRows_distinct rows : forall st,
  idsInStep st -> NoDup (map hs_id (im_sessions st)) ->
  NoDup (map hs_id (im_sessions (fold_left importRow rows st))).
Proof.
  induction rows as [|x rows IH]; intros st Hst Hnd; cbn [fold_left]; [exact Hnd|].
  apply IH.
  - apply (importRows_step [x] st Hst).
  - unfold importRow, importSession.
    destruct (bool_decide_reflect (rowId x ∈ im_ids st)) as [Hin|Hout]; cbn; [exact Hnd|].
    apply NoDup_cons. split; [|exact Hnd].
    rewrite convert_id. intros Hx. apply Hout. rewrite Hst.
    now apply elem_of_list_to_set.
Qed.

Lemma importRows_skip rows : forall st,
  (forall r, In r rows -> rowId r ∈ im_ids st) ->
  im_sessions (fold_left importRow rows st) = im_sessions st /\
  im_ids (fold_left importRow rows st) = im_ids st.
Proof.
  induction rows as [|x rows IH]; intros st Hall; cbn [fold_left]; [now split|].
  assert (Hx : importRow st x = mkImport (im_sessions st) (im_ids st) (im_added st)
                                 (S (im_skipped st))).
  { unfold importRow, importSession.
    destruct (bool_decide_reflect (rowId x ∈ im_ids st)) as [Hin|Hout]; [reflexivity|].
    destruct Hout. apply Hall. now left. }
  rewrite Hx. apply (IH (mkImport (im_sessions st) (im_ids st) (im_added st)
                           (S (im_skipped st)))).
  intros r Hr. apply Hall. now right.
Qed.


End ImportLoop.

Lemma importedHistory_steps db old :
  let rowsC := orderByDesc cr_start (List.filter notAtisRow (controllerSessionTable db)) in
  let rowsP := orderByDesc pr_start (pilotSessionTable db) in
  let st1 := fold_left importController rowsC
               (mkImport old (list_to_set (map hs_id old)) 0 0) in
  let st2 := fold_left importPilot rowsP (mkImport (im_sessions st1) (im_ids st1) 0 0) in
  importedHistory db old = im_sessions st2 /\ idsInStep st2 /\
  (forall r, In r rowsC -> controllerRowId r ∈ im_ids st2) /\
  (forall r, In r rowsP -> pilotRowId r ∈ im_ids st2) /\
  (NoDup (map hs_id old) -> NoDup (map hs_id (im_sessions st2))).
Proof.
  intros rowsC rowsP st1 st2.
  assert (H0 : idsInStep (mkImport old (list_to_set (map hs_id old)) 0 0)) by reflexivity.
  assert (H1 : idsInStep st1).
  { apply (importRows_step controllerRowId controllerRowToHistorical); [reflexivity|exact H0]. }
  assert (H1' : idsInStep (mkImport (im_sessions st1) (im_ids st1) 0 0)) by exact H1.
  assert (H2 : idsInStep st2).
  { apply (importRows_step pilotRowId pilotRowToHistorical); [reflexivity|exact H1']. }
  destruct (importRows_ids controllerRowId controllerRowToHistorical (fun _ => eq_refl) rowsC
              (mkImport old (list_to_set (map hs_id old)) 0 0)) as [_ HC].
  destruct (importRows_ids pilotRowId pilotRowToHistorical (fun _ => eq_refl) rowsP
              (mkImport (im_sessions st1) (im_ids st1) 0 0)) as [Hsub HP].
  split; [reflexivity|]. split; [exact H2|]. split; [|split].
  - intros r Hr. apply Hsub. cbn [im_ids]. now apply HC.
  - exact HP.
  - intros Hnd.
    apply (importRows_distinct pilotRowId pilotRowToHistorical); [reflexivity|exact H1'|].
    cbn [im_sessions].
    apply (importRows_distinct controllerRowId controllerRowToHistorical);
      [reflexivity|exact H0|exact Hnd].
Qed.

Lemma importedHistory_again db old :
  importedHistory db (importedHistory db old) = importedHistory db old.
Proof.
  destruct (importedHistory_steps db old) as (Heq & Hids & HC & HP & _).
  set (done := importedHistory db old) in *.
  unfold importedHistory at 1.
  set (rowsC := orderByDesc cr_start (List.filter notAtisRow (controllerSessionTable db))) in *.
  set (rowsP := orderByDesc pr_start (pilotSessionTable db)) in *.
  assert (Hset : list_to_set (map hs_id done) =
                 im_ids (fold_left importPilot rowsP
                   (mkImport (im_sessions (fold_left importController rowsC
                        (mkImport old (list_to_set (map hs_id old)) 0 0)))
                      (im_ids (fold_left importController rowsC
                        (mkImport old (list_to_set (map hs_id old)) 0 0))) 0 0))).
  { rewrite Hids, Heq. reflexivity. }
  set (stD := mkImport done (list_to_set (map hs_id done)) 0 0).
  assert (H1 : im_sessions (fold_left importController rowsC stD) = im_sessions stD /\
               im_ids (fold_left importController rowsC stD) = im_ids stD).
  { apply (importRows_skip controllerRowId controllerRowToHistorical rowsC stD).
    intros r Hr. subst stD. cbn [im_ids]. rewrite Hset. now apply HC. }
  destruct H1 as [S1 I1].
  set (stE := mkImport (im_sessions (fold_left importController rowsC stD))
                       (im_ids (fold_left importController rowsC stD)) 0 0).
  assert (H2 : im_sessions (fold_left importPilot rowsP stE) = im_sessions stE /\
               im_ids (fold_left importPilot rowsP stE) = im_ids stE).
  { apply (importRows_skip pilotRowId pilotRowToHistorical rowsP stE).
    intros r Hr. subst stE. cbn [im_ids]. rewrite I1. subst stD. cbn [im_ids].
    rewrite Hset. now apply HP. }
  destruct H2 as [S2 I2].
  etransitivity; [exact S2|]. cbn [im_sessions]. exact S1.
Qed.

(** X14. After the two import loops of [syncDatabaseToCache] the history
    holds an entry for every controller row whose callsign does not end in
    _ATIS and for every pilot row of the database, under the identifier
    built from the role, the callsign and the start time; entries with
    distinct identifiers stay distinct; and importing the same database a
    second time adds nothing.  As long as the imported list fits the cap, a
    second run of the synchroniser therefore leaves the saved history, list
    and counters, as the first run saved it. *)
Theorem second_sync_adds_nothing (db : Database) (store : Store) :
  let once := syncDatabaseToCache (Some db) store in
  let imported := importedHistory db (h_sessions (historyCache store)) in
  (forall r, In r (controllerSessionTable db) -> notAtisRow r = true ->
             In (controllerRowId r) (map hs_id imported)) /\
  (forall r, In r (pilotSessionTable db) -> In (pilotRowId r) (map hs_id imported)) /\
  (NoDup (map hs_id (h_sessions (historyCache store))) -> NoDup (map hs_id imported)) /\
  importedHistory db imported = imported /\
  ((length imported <= historyLimit)%nat ->
   historyCache (syncDatabaseToCache (Some db) once) = historyCache once).
Proof.
  cbv zeta.
  destruct (importedHistory_steps db (h_sessions (historyCache store)))
    as (Heq & Hids & HC & HP & Hnd).
  cbv zeta in Heq, Hids, HC, HP, Hnd. unfold idsInStep in Hids.
  rewrite <- Heq in Hids, Hnd.
  split; [|split; [|split; [|split]]].
  - intros r Hr Hf. apply list_elem_of_In.
    apply (proj1 (elem_of_list_to_set (C := gset string) _ _)).
    rewrite <- Hids. apply HC. apply orderByDesc_In. apply filter_In. now split.
  - intros r Hr. apply list_elem_of_In.
    apply (proj1 (elem_of_list_to_set (C := gset string) _ _)).
    rewrite <- Hids. apply HP. now apply orderByDesc_In.
  - exact Hnd.
  - apply importedHistory_again.
  - intros Hfit. unfold syncDatabaseToCache. cbn [historyCache h_sessions].
    rewrite (capHistory_fits _ Hfit), importedHistory_again, (capHistory_fits _ Hfit).
    reflexivity.
Qed.

(** ** The closing phase of the ingest script *)

Lemma existsb_id_false (s : OpenSessionRow) l :
  existsb (fun x => os_id x =? os_id s) l = false <->
  forall x, In x l -> os_id x <> os_id s.
Proof.
  induction l as [|y l IH]; cbn.
  - split; [intros _ x []|reflexivity].
  - rewrite orb_false_iff, IH, Z.eqb_neq. split.
    + intros [Hy Hl] x [<-|Hx]; [exact Hy|now apply Hl].
    + intros H. split; [apply H; now left|intros x Hx; apply H; now right].
Qed.

Lemma NoDup_ids_In (l : list OpenSessionRow) x y :
  List.NoDup (map os_id l) -> In x l -> In y l -> os_id x = os_id y -> x = y.
Proof.
  induction l as [|z l IH]; cbn; [intros _ []|].
  intros Hnd Hx Hy Hid. apply List.NoDup_cons_iff in Hnd as [Hz Hnd].
  destruct Hx as [<-|Hx], Hy as [<-|Hy]; try reflexivity.
  - destruct Hz. rewrite Hid. now apply in_map.
  - destruct Hz. rewrite <- Hid. now apply in_map.
  - now apply IH.
Qed.

Lemma filter_ext_In' {A} (f g : A -> bool) l :
  (forall x, In x l -> f x = g x) -> List.filter f l = List.filter g l.
Proof.
  induction l as [|a l IH]; cbn; [reflexivity|]. intros H.
  rewrite (H a) by now left. rewrite IH; [reflexivity|].
  intros x Hx. apply H. now right.
Qed.

Lemma filter_split_length {A} (f : A -> bool) l :
  (length (List.filter f l) + length (List.filter (fun x => negb (f x)) l) = length l)%nat.
Proof. induction l as [|a l IH]; cbn; [reflexivity|]. destruct (f a); cbn; lia. Qed.

(** X15. In a table of open rows with distinct ids, the closing phase of the
    ingest script writes one closed session for every row last seen more
    than three minutes before the clock, whatever its callsign (a position
    ending in _ATIS is written to the controller table like any other), and
    leaves in the table exactly the rows seen at or after the cutoff, in
    their order: every row is either closed or kept.  Running the phase
    again on what it left, at the same clock, writes and deletes
    nothing. *)
Theorem ingest_closes_exactly_the_stale_rows (dateNow : Z) (table : list OpenSessionRow) :
  List.NoDup (map os_id table) ->
  let cutoff := dateNow - 180000 in
  let closed := fst (closeStale dateNow table) in
  let kept := snd (closeStale dateNow table) in
  kept = List.filter (fun s => cutoff <=? os_lastSeenAt s) table /\
  (forall s, In s table -> os_lastSeenAt s < cutoff -> In (closeOpenSession s) closed) /\
  (length closed + length kept = length table)%nat /\
  closeStale dateNow kept = ([], kept).
Proof.
  intros Hnd cutoff closed kept.
  assert (Hkept : kept = List.filter (fun s => cutoff <=? os_lastSeenAt s) table).
  { subst kept cutoff. unfold closeStale. cbn [snd].
    apply filter_ext_In'. intros s Hs.
    change (3 * 60 * 1000) with 180000.
    destruct (Z.leb_spec (dateNow - 180000) (os_lastSeenAt s)) as [Hge|Hlt].
    - apply negb_true_iff, existsb_id_false. intros x Hx Hid.
      apply filter_In in Hx as [Hx Hst]. apply Z.ltb_lt in Hst.
      assert (x = s) by (apply (NoDup_ids_In table); assumption). subst x. lia.
    - apply negb_false_iff, existsb_exists. exists s. split; [|apply Z.eqb_refl].
      apply filter_In. split; [exact Hs|]. now apply Z.ltb_lt. }
  split; [exact Hkept|]. split; [|split].
  - intros s Hs Hlt. subst closed. unfold closeStale. cbn [fst].
    apply in_map, filter_In. split; [exact Hs|].
    apply Z.ltb_lt. change (3 * 60 * 1000) with 180000. exact Hlt.
  - rewrite Hkept. subst closed. unfold closeStale. cbn [fst].
    rewrite length_map. change (3 * 60 * 1000) with 180000. fold cutoff.
    rewrite <- (filter_split_length (fun s => os_lastSeenAt s <? cutoff) table).
    f_equal. f_equal. apply filter_ext_In'. intros s _.
    rewrite Z.ltb_antisym. now rewrite negb_involutive.
  - assert (Hnone : List.filter (fun s => os_lastSeenAt s <? dateNow - 3 * 60 * 1000) kept = []).
    { apply filter_none. intros s Hs. rewrite Hkept in Hs. apply filter_In in Hs as [_ Hs].
      apply Z.leb_le in Hs. apply Z.ltb_ge. subst cutoff.
      change (3 * 60 * 1000) with 180000. exact Hs. }
    unfold closeStale. rewrite Hnone. cbn [map existsb negb]. f_equal.
    clear. induction kept as [|a l IH]; cbn; [reflexivity|]. now rewrite IH.
Qed.

Lemma ingest_closes_exactly_the_stale_rows_witness :
  let cutoff := t0 + 1200000 - 180000 in
  let closed := fst (closeStale (t0 + 1200000) openTable) in
  let kept := snd (closeStale (t0 + 1200000) openTable) in
  kept = List.filter (fun s => cutoff <=? os_lastSeenAt s) openTable /\
  (forall s, In s openTable -> os_lastSeenAt s < cutoff -> In (closeOpenSession s) closed) /\
  (length closed + length kept = length openTable)%nat /\
  closeStale (t0 + 1200000) kept = ([], kept).
Proof.
  apply (ingest_closes_exactly_the_stale_rows (t0 + 1200000) openTable).
  cbn. repeat (apply List.NoDup_cons; [cbn; lia|]). apply List.NoDup_nil.
Defined.

(** ** The classification of the feed *)

Lemma suffix_listed s : existsb (String.eqb s) positionSuffixes = true <-> In s positionSuffixes.
Proof.
  rewrite existsb_exists. split.
  - intros (x & Hx & He). apply String.eqb_eq in He. now subst.
  - intros H. exists s. split; [exact H|apply String.eqb_refl].
Qed.

Lemma matchPosition_spec s : forall n,
  matchPosition n s = true <->
  exists body pos,
    s = body +:+ "_" +:+ pos /\ In pos positionSuffixes /\
    (2 <= n + String.length body)%nat /\ allAlnum body = true.
Proof.
  induction s as [|c rest IH]; intros n; cbn [matchPosition].
  - split; [discriminate|]. intros (body & pos & H & _). destruct body; discriminate H.
  - rewrite orb_true_iff, !andb_true_iff, IH, suffix_listed, Nat.leb_le. split.
    + intros [[[Hn Hc] Hs]|[Hc (body & pos & -> & Hp & Hn & Ha)]].
      * apply Ascii.eqb_eq in Hc. subst c. exists "", rest. cbn.
        repeat split; [exact Hs|lia].
      * exists (String c body), pos. cbn. rewrite Hc, Ha. repeat split; [exact Hp|lia].
    + intros (body & pos & Hs & Hp & Hn & Ha). destruct body as [|b body]; cbn in Hs.
      * injection Hs as -> ->. left. cbn in Hn. repeat split; [lia|exact Hp].
      * injection Hs as -> ->. cbn in Ha, Hn. apply andb_true_iff in Ha as [Hb Ha].
        right. split; [exact Hb|]. exists body, pos. repeat split; [exact Hp|lia|exact Ha].
Qed.

(** X16. The callsign test of the collector accepts exactly the strings
    that, read in upper case, are OP, then two or more letters or digits,
    then an underscore, then one of DEL, GND, TWR, APP, DEP, CTR, FSS and
    ATIS with nothing after it. *)
Theorem pakistan_position_pattern (cs : string) :
  isPkController cs = true <->
  exists body pos,
    Js.toUpperCase cs = "OP" +:+ body +:+ "_" +:+ pos /\
    In pos positionSuffixes /\ (2 <= String.length body)%nat /\ allAlnum body = true.
Proof.
  unfold isPkController. split.
  - destruct (Js.toUpperCase cs) as [|a [|b rest]]; try discriminate.
    + destruct a as [[] [] [] [] [] [] [] []]; discriminate.
    + intros H.
      assert (Ha : a = "O"%char).
      { destruct a as [[] [] [] [] [] [] [] []]; try discriminate H; reflexivity. }
      subst a.
      assert (Hb : b = "P"%char).
      { destruct b as [[] [] [] [] [] [] [] []]; try discriminate H; reflexivity. }
      subst b.
      apply matchPosition_spec in H as (body & pos & -> & Hp & Hn & Ha).
      exists body, pos. repeat split; assumption.
  - intros (body & pos & -> & Hp & Hn & Ha). cbn.
    apply matchPosition_spec. exists body, pos. repeat split; assumption.
Qed.

Lemma orElse_nonempty fallback s : fallback <> "" -> orElse fallback s <> "".
Proof.
  intros Hf. unfold orElse, strOrNull. destruct s as [v|]; [|exact Hf].
  destruct (Js.truthyStr v) eqn:E; [|exact Hf].
  unfold Js.truthyStr in E. apply negb_true_iff in E. now apply String.eqb_neq in E.
Qed.

Lemma facilityOf_listed facility :
  In (facilityOf facility) ["FSS"; "DEL"; "GND"; "TWR"; "APP"; "CTR"; "UNK"].
Proof.
  unfold facilityOf. destruct facility as [n|]; [|cbn; tauto].
  unfold Js.truthy. destruct (Z.eqb_spec n 0) as [->|Hn]; cbn [negb]; [cbn; tauto|].
  destruct (Z.leb_spec 0 n) as [Hpos|Hneg]; [|cbn; tauto].
  destruct (Z.to_nat n) as [|[|[|[|[|[|[|k]]]]]]] eqn:E; try (cbn; tauto).
  - lia.
  - cbn. destruct k; cbn; tauto.
Qed.

Lemma toUpperCase_idem s : Js.toUpperCase (Js.toUpperCase s) = Js.toUpperCase s.
Proof.
  induction s as [|c s IH]; cbn; [reflexivity|]. rewrite IH. f_equal.
  destruct c as [[] [] [] [] [] [] [] []]; reflexivity.
Qed.

Lemma upperField_upper fallback field p :
  Js.toUpperCase fallback = fallback ->
  Js.toUpperCase (orElse fallback (upperField field p)) = orElse fallback (upperField field p).
Proof.
  intros Hf. unfold orElse, upperField, strOrNull.
  destruct (planField field p) as [v|]; cbn; [|exact Hf].
  destruct (Js.truthyStr (Js.toUpperCase v)); [apply toUpperCase_idem|exact Hf].
Qed.

Lemma pk_rows_pass_the_pattern (data : VatsimFeed) :
  (forall c, In c (pkControllers data) -> isPkController (c_callsign c) = true) /\
  (forall p, In p (pkPilots data) -> p_departure p <> "").
Proof.
  unfold pkControllers, pkPilots. split.
  - intros c Hc. apply in_map_iff in Hc as (row & <- & Hrow).
    now apply filter_In in Hrow as [_ Hpk].
  - intros p Hp. apply in_map_iff in Hp as (row & <- & Hrow). cbn.
    now apply orElse_nonempty.
Qed.

(** X17. Every controller that the collector hands to the session tracker
    comes from a feed row whose callsign passes the position pattern, and
    every pilot from a row that is inside the FIR or files a departure or
    an arrival starting with OP (in any case of letters); every row that
    passes its test is handed on.  The classified rows have no empty name,
    frequency, departure, arrival or aircraft, the facility is one of FSS,
    DEL, GND, TWR, APP, CTR and UNK (never OBS, the name of code 0), and
    departure and arrival are in upper case. *)
Theorem classified_rows_are_filled_in (data : VatsimFeed) :
  (forall c, In c (pkControllers data) ->
     (exists row, In row (feed_controllers data) /\ c = controllerEntryOfFeed row /\
                  isPkController (fc_callsign row) = true) /\
     isPkController (c_callsign c) = true /\
     c_name c <> "" /\ c_frequency c <> "" /\
     In (c_facility c) ["FSS"; "DEL"; "GND"; "TWR"; "APP"; "CTR"; "UNK"]) /\
  (forall p, In p (pkPilots data) ->
     (exists row, In row (feed_pilots data) /\ p = pilotEntryOfFeed row /\
        (fp_insideFIR row = true \/
         Js.startsWith (orElse "" (upperField fpl_departure row)) "OP" = true \/
         Js.startsWith (orElse "" (upperField fpl_arrival row)) "OP" = true)) /\
     p_name p <> "" /\ p_departure p <> "" /\ p_arrival p <> "" /\ p_aircraft p <> "" /\
     Js.toUpperCase (p_departure p) = p_departure p /\
     Js.toUpperCase (p_arrival p) = p_arrival p) /\
  (forall row, In row (feed_controllers data) -> isPkController (fc_callsign row) = true ->
     In (controllerEntryOfFeed row) (pkControllers data)) /\
  (forall row, In row (feed_pilots data) -> isPkPilot row = true ->
     In (pilotEntryOfFeed row) (pkPilots data)).
Proof.
  unfold pkControllers, pkPilots. split; [|split; [|split]].
  - intros c Hc. apply in_map_iff in Hc as (row & <- & Hrow).
    apply filter_In in Hrow as [Hrow Hpk]. split; [eauto|].
    cbn [controllerEntryOfFeed c_callsign c_name c_frequency c_facility].
    split; [exact Hpk|]. split; [now apply orElse_nonempty|].
    split; [now apply orElse_nonempty|apply facilityOf_listed].
  - intros p Hp. apply in_map_iff in Hp as (row & <- & Hrow).
    apply filter_In in Hrow as [Hrow Hpk]. split.
    + exists row. split; [exact Hrow|]. split; [reflexivity|].
      unfold isPkPilot in Hpk. apply orb_true_iff in Hpk as [H|H]; [now left|].
      apply orb_true_iff in H. tauto.
    + cbn [pilotEntryOfFeed p_name p_departure p_arrival p_aircraft].
      repeat split; try (now apply orElse_nonempty); now apply upperField_upper.
  - intros row Hrow Hpk. apply in_map, filter_In. now split.
  - intros row Hrow Hpk. apply in_map, filter_In. now split.
Qed.

Lemma swept_subset (stales m : SessionMap) e :
  In e (fold_left (fun m e => deleteSession (fst e) m) stales m) -> In e m.
Proof. rewrite deleteAll_filter. intros H. now apply filter_In in H. Qed.

Lemma updateSessions_sessions_subset store now cs ps e :
  In e (sessionCache (u_store (updateSessions store now cs ps))) ->
  In e (afterObservation store now cs ps).
Proof.
  unfold updateSessions, afterObservation. cbn [u_store sessionCache].
  set (ob := observe now (sessionCache store) cs ps).
  destruct (sweep_fold now (o_seenIds ob) (o_sessions ob)
              (mkSweep (o_sessions ob) (h_sessions (historyCache store))
                 (h_stats (historyCache store)) [] (o_roster ob) []))
    as (_ & _ & _ & _ & H5 & _).
  rewrite H5. cbn [sw_sessions]. apply swept_subset.
Qed.

(** X18. The collector only ever tracks controllers at positions of the
    country: if every open controller session has a callsign that passes
    the position pattern, then after a cycle on any feed the same holds of
    the open sessions, and every controller session that the cycle closes
    has such a callsign too. *)
Theorem collector_tracks_pakistan_positions_only store now (data : VatsimFeed) :
  pakistanPositions (sessionCache store) ->
  pakistanPositions (sessionCache (u_store (collect store now data))) /\
  (forall h, In h (u_removed (collect store now data)) -> hs_type h = Controller ->
             isPkController (hs_callsign h) = true).
Proof.
  intros Hinv.
  assert (Hobs : pakistanPositions (afterObservation store now (pkControllers data)
                                      (pkPilots data))).
  { unfold afterObservation. rewrite observe_sessions.
    intros e He.
    refine (observeAll_invariant now
              (fun e => cs_type (snd e) = Controller ->
                        isPkController (cs_callsign (snd e)) = true) _ _ _ _ Hinv e He).
    - intros k s H. exact H.
    - intros f Hf. unfold observedEntries in Hf. apply in_app_iff in Hf as [Hf|Hf].
      + apply in_map_iff in Hf as (c & <- & Hc). cbn. intros _.
        now apply (proj1 (pk_rows_pass_the_pattern data) c Hc).
      + apply in_map_iff in Hf as (p & <- & Hp). cbn. discriminate. }
  split.
  - intros e He. apply Hobs. unfold collect in He.
    now apply updateSessions_sessions_subset in He.
  - intros h Hh. unfold collect in Hh.
    destruct (updateSessions_effects store now (pkControllers data) (pkPilots data))
      as (H1 & _). cbv zeta in H1. rewrite H1 in Hh.
    apply in_map_iff in Hh as (e & <- & He). unfold closedEvent.
    destruct (snd e) eqn:Es. cbn. intros Ht.
    unfold evicted, staleEntries in He. apply filter_In in He as [He _].
    specialize (Hobs e He). rewrite Es in Hobs. now apply Hobs.
Qed.

Lemma collector_tracks_pakistan_positions_only_witness :
  pakistanPositions (sessionCache (u_store (collect mixedStore (t0 + 15000) sampleFeed))) /\
  (forall h, In h (u_removed (collect mixedStore (t0 + 15000) sampleFeed)) ->
             hs_type h = Controller -> isPkController (hs_callsign h) = true).
Proof.
  apply (collector_tracks_pakistan_positions_only mixedStore (t0 + 15000) sampleFeed).
  intros e He. cbn in He. destruct He as [<-|[<-|[]]]; intros Ht; try discriminate Ht;
    vm_compute; reflexivity.
Defined.

(** ** The roster listing *)

Lemma insertByCid_perm x l : Permutation (insertByCid x l) (x :: l).
Proof.
  induction l as [|y r IH]; cbn; [reflexivity|].
  destruct (fst x <? fst y); [reflexivity|].
  rewrite IH. apply perm_swap.
Qed.

Lemma insertMember_perm x l : Permutation (insertMember x l) (x :: l).
Proof.
  induction l as [|y r IH]; cbn; [reflexivity|].
  destruct (0 <? compareMembers y x); [reflexivity|].
  rewrite IH. apply perm_swap.
Qed.

Lemma sortMembers_perm l : Permutation (sortMembers l) l.
Proof.
  unfold sortMembers.
  assert (H : forall acc, Permutation (fold_left (fun acc x => insertMember x acc) l acc)
                            (acc ++ l)).
  { induction l as [|x r IH]; intros acc; cbn; [now rewrite app_nil_r|].
    rewrite IH, insertMember_perm. apply Permutation_middle. }
  apply (H []).
Qed.

Lemma getRosterMembers_perm (roster : gmap Z MemberInfo) :
  Permutation (getRosterMembers roster) (map snd (map_to_list roster)).
Proof.
  unfold getRosterMembers, rosterValues. rewrite sortMembers_perm.
  apply Permutation_map.
  induction (map_to_list roster) as [|x l IH]; cbn; [reflexivity|].
  now rewrite insertByCid_perm, IH.
Qed.

Lemma compareMembers_ranks a b : compareMembers a b <= 0 <-> ranksBefore a b.
Proof.
  unfold compareMembers, ranksBefore.
  destruct (Z.eqb_spec (mi_rating b) (mi_rating a)); cbn [negb]; lia.
Qed.

Lemma ranksBefore_trans a b c : ranksBefore a b -> ranksBefore b c -> ranksBefore a c.
Proof. unfold ranksBefore. lia. Qed.

Lemma ranksBefore_total a b : ranksBefore a b \/ ranksBefore b a.
Proof. unfold ranksBefore. lia. Qed.

Lemma insertMember_ranked x l :
  ForallOrdPairs ranksBefore l -> ForallOrdPairs ranksBefore (insertMember x l).
Proof.
  induction l as [|y r IH]; cbn; intros H.
  - constructor; [constructor|constructor].
  - inversion H as [|? ? Hy Hr]; subst.
    destruct (Z.ltb_spec 0 (compareMembers y x)) as [Hlt|Hge].
    + assert (Hxy : ranksBefore x y).
      { destruct (ranksBefore_total x y) as [Hxy|Hyx]; [exact Hxy|].
        apply compareMembers_ranks in Hyx. lia. }
      constructor; [|exact H]. constructor; [exact Hxy|].
      rewrite List.Forall_forall in *. intros z Hz.
      apply (ranksBefore_trans x y z Hxy). now apply Hy.
    + constructor; [|now apply IH].
      rewrite List.Forall_forall in *. intros z Hz.
      apply (Permutation_in _ (insertMember_perm x r)) in Hz as [<-|Hz].
      * now apply compareMembers_ranks.
      * now apply Hy.
Qed.

Lemma sortMembers_ranked l : ForallOrdPairs ranksBefore (sortMembers l).
Proof.
  unfold sortMembers.
  assert (H : forall acc, ForallOrdPairs ranksBefore acc ->
    ForallOrdPairs ranksBefore (fold_left (fun acc x => insertMember x acc) l acc)).
  { induction l as [|x r IH]; intros acc Hacc; cbn; [exact Hacc|].
    apply IH. now apply insertMember_ranked. }
  apply H. constructor.
Qed.

Lemma roster_listing_facts (roster : gmap Z MemberInfo) :
  Permutation (getRosterMembers roster) (map snd (map_to_list roster)) /\
  length (getRosterMembers roster) = size roster.
Proof.
  pose proof (getRosterMembers_perm roster) as Hperm. split; [exact Hperm|].
  rewrite (Permutation_length Hperm), length_map. apply length_map_to_list.
Qed.

(** X19. [getRosterMembers] lists every member of the roster exactly once
    and nobody else, and in rank order: of any two members of the list, the
    one listed first has the higher rating, or the same rating and at least
    as many total minutes (controller plus pilot, a missing counter reading
    0). *)
Theorem roster_listing_ranks_every_member (roster : gmap Z MemberInfo) :
  Permutation (getRosterMembers roster) (map snd (map_to_list roster)) /\
  (forall m, In m (getRosterMembers roster) <-> exists cid, roster !! cid = Some m) /\
  length (getRosterMembers roster) = size roster /\
  ForallOrdPairs ranksBefore (getRosterMembers roster).
Proof.
  pose proof (getRosterMembers_perm roster) as Hperm.
  split; [exact Hperm|]. split; [|split].
  - intros m. split.
    + intros Hm. apply (Permutation_in _ Hperm) in Hm.
      apply in_map_iff in Hm as ([cid m'] & <- & Hin).
      exists cid. apply elem_of_map_to_list. now apply list_elem_of_In.
    + intros [cid Hm]. apply (Permutation_in _ (Permutation_sym Hperm)).
      apply in_map_iff. exists (cid, m). split; [reflexivity|].
      apply list_elem_of_In. now apply elem_of_map_to_list.
  - rewrite (Permutation_length Hperm), length_map. apply length_map_to_list.
  - apply sortMembers_ranked.
Qed.

(** ** The roster statistics *)

Lemma countRating_total r d : countTotal (countRating r d) = countTotal d + 1.
Proof.
  induction d as [|[k n] d IH]; cbn; [reflexivity|].
  destruct (String.eqb k r); cbn; [lia|]. unfold countTotal in IH. rewrite IH. lia.
Qed.

Lemma getCount_counted r d :
  getCount r (countRating r d) = Some (match getCount r d with Some n => n + 1 | None => 1 end).
Proof.
  induction d as [|[k n] d IH]; cbn; [now rewrite String.eqb_refl|].
  destruct (String.eqb k r) eqn:E; cbn; rewrite E; [reflexivity|exact IH].
Qed.

Lemma getCount_other r r' d : r' <> r -> getCount r' (countRating r d) = getCount r' d.
Proof.
  intros Hne. induction d as [|[k n] d IH]; cbn.
  - destruct (String.eqb_spec r r'); [congruence|reflexivity].
  - destruct (String.eqb k r) eqn:E; cbn.
    + apply String.eqb_eq in E. subst k.
      destruct (String.eqb_spec r r'); [congruence|reflexivity].
    + destruct (String.eqb k r'); [reflexivity|exact IH].
Qed.

Lemma getCount_None r d : getCount r d = None <-> ~ In r (map fst d).
Proof.
  induction d as [|[k n] d IH]; cbn; [tauto|].
  destruct (String.eqb_spec k r) as [->|Hne].
  - split; [discriminate|]. intros H. destruct H. now left.
  - rewrite IH. tauto.
Qed.

Lemma countRating_keys k r d :
  In k (map fst (countRating r d)) -> k = r \/ In k (map fst d).
Proof.
  induction d as [|[k' n] d IH]; cbn.
  - intros [H|[]]; now left.
  - destruct (String.eqb k' r); cbn; [tauto|]. intros [H|H]; [tauto|].
    apply IH in H. tauto.
Qed.

Lemma countRating_nodup r d :
  List.NoDup (map fst d) -> List.NoDup (map fst (countRating r d)).
Proof.
  induction d as [|[k n] d IH]; cbn; intros H.
  - constructor; [intros []|constructor].
  - apply List.NoDup_cons_iff in H as [Hk Hd].
    destruct (String.eqb_spec k r) as [->|Hne]; cbn.
    + apply List.NoDup_cons_iff. now split.
    + apply List.NoDup_cons_iff. split; [|now apply IH].
      intros Hin. apply countRating_keys in Hin as [Hin|Hin]; [congruence|contradiction].
Qed.

Lemma getCount_In r n d :
  List.NoDup (map fst d) -> (In (r, n) d <-> getCount r d = Some n).
Proof.
  induction d as [|[k m] d IH]; cbn; intros H.
  - split; [intros []|discriminate].
  - apply List.NoDup_cons_iff in H as [Hk Hd].
    destruct (String.eqb_spec k r) as [->|Hne].
    + split.
      * intros [[= ->]|Hin]; [reflexivity|]. destruct Hk.
        apply in_map_iff. now exists (r, n).
      * intros [= ->]. now left.
    + rewrite <- (IH Hd). split; [intros [[= -> ->]|Hin]; [congruence|exact Hin]|tauto].
Qed.

Lemma ratingCount_app r l x :
  ratingCount r (l ++ [x]) =
  ratingCount r l + (if String.eqb (mi_ratingName x) r then 1 else 0).
Proof.
  unfold ratingCount. rewrite List.filter_app, List.length_app. cbn.
  destruct (String.eqb (mi_ratingName x) r); cbn; lia.
Qed.

Lemma tally_distribution members : forall seen t,
  List.NoDup (map fst (rt_ratingDistribution t)) ->
  countTotal (rt_ratingDistribution t) = Z.of_nat (length seen) ->
  (forall r, getCount r (rt_ratingDistribution t) =
             if ratingCount r seen =? 0 then None else Some (ratingCount r seen)) ->
  let t' := fold_left tallyMember members t in
  List.NoDup (map fst (rt_ratingDistribution t')) /\
  countTotal (rt_ratingDistribution t') = Z.of_nat (length (seen ++ members)) /\
  (forall r, getCount r (rt_ratingDistribution t') =
             if ratingCount r (seen ++ members) =? 0 then None
             else Some (ratingCount r (seen ++ members))).
Proof.
  induction members as [|m members IH]; intros seen t Hnd Htot Hcount; cbn [fold_left].
  - rewrite app_nil_r. now repeat split.
  - replace (seen ++ m :: members) with ((seen ++ [m]) ++ members)
      by now rewrite <- app_assoc.
    apply IH; cbn [tallyMember rt_ratingDistribution].
    + now apply countRating_nodup.
    + rewrite countRating_total, Htot, List.length_app. cbn. lia.
    + intros r. rewrite ratingCount_app.
      assert (Hpos : 0 <= ratingCount r seen) by (unfold ratingCount; lia).
      destruct (String.eqb_spec (mi_ratingName m) r) as [Heq|Hne].
      * subst r. rewrite getCount_counted, Hcount.
        destruct (Z.eqb_spec (ratingCount (mi_ratingName m) seen) 0) as [->|Hz].
        -- reflexivity.
        -- destruct (Z.eqb_spec (ratingCount (mi_ratingName m) seen + 1) 0); [lia|reflexivity].
      * rewrite getCount_other by congruence. rewrite Z.add_0_r. apply Hcount.
Qed.

Lemma insertByCount_perm x l : Permutation (insertByCount x l) (x :: l).
Proof.
  induction l as [|y r IH]; cbn; [reflexivity|].
  destruct (0 <? snd x - snd y); [reflexivity|].
  rewrite IH. apply perm_swap.
Qed.

Lemma sortByCount_perm l : Permutation (sortByCount l) l.
Proof.
  unfold sortByCount.
  assert (H : forall acc, Permutation (fold_left (fun acc x => insertByCount x acc) l acc)
                            (acc ++ l)).
  { induction l as [|x r IH]; intros acc; cbn; [now rewrite app_nil_r|].
    rewrite IH, insertByCount_perm. apply Permutation_middle. }
  apply (H []).
Qed.

Lemma countTotal_perm l l' : Permutation l l' -> countTotal l = countTotal l'.
Proof. unfold countTotal. induction 1; cbn; lia. Qed.

Lemma insertByCount_descending x l :
  ForallOrdPairs (fun a b : string * Z => snd b <= snd a) l ->
  ForallOrdPairs (fun a b : string * Z => snd b <= snd a) (insertByCount x l).
Proof.
  induction l as [|y r IH]; cbn; intros H.
  - constructor; [constructor|constructor].
  - inversion H as [|? ? Hy Hr]; subst.
    destruct (Z.ltb_spec 0 (snd x - snd y)) as [Hlt|Hge].
    + constructor; [|exact H]. constructor; [lia|].
      rewrite List.Forall_forall in *. intros z Hz. specialize (Hy z Hz). lia.
    + constructor; [|now apply IH].
      rewrite List.Forall_forall in *. intros z Hz.
      apply (Permutation_in _ (insertByCount_perm x r)) in Hz as [<-|Hz]; [lia|].
      now apply Hy.
Qed.

Lemma sortByCount_descending l :
  ForallOrdPairs (fun a b : string * Z => snd b <= snd a) (sortByCount l).
Proof.
  unfold sortByCount.
  assert (H : forall acc, ForallOrdPairs (fun a b : string * Z => snd b <= snd a) acc ->
    ForallOrdPairs (fun a b : string * Z => snd b <= snd a)
      (fold_left (fun acc x => insertByCount x acc) l acc)).
  { induction l as [|x r IH]; intros acc Hacc; cbn; [exact Hacc|].
    apply IH. now apply insertByCount_descending. }
  apply H. constructor.
Qed.

(** X20. In the statistics of the roster the number of members is the size
    of the roster; the rating distribution has one entry for each rating
    name that some member holds, with the number of members holding it (so
    no entry counts 0 and the counts add up to the number of members), and
    lists the entries by descending count. *)
Theorem roster_statistics_count_every_member (roster : gmap Z MemberInfo) :
  let stats := getRosterStats roster in
  rs_totalMembers stats = size roster /\
  countTotal (rs_ratingDistribution stats) = Z.of_nat (size roster) /\
  List.NoDup (map fst (rs_ratingDistribution stats)) /\
  (forall rating n,
     In (rating, n) (rs_ratingDistribution stats) <->
     n = ratingCount rating (getRosterMembers roster) /\ 1 <= n) /\
  ForallOrdPairs (fun a b : string * Z => snd b <= snd a) (rs_ratingDistribution stats).
Proof.
  cbv zeta. unfold getRosterStats.
  cbn [rs_totalMembers rs_ratingDistribution].
  destruct (roster_listing_facts roster) as [Hperm Hlen].
  destruct (tally_distribution (getRosterMembers roster) [] (mkRosterTally [] 0 0 0)
              (List.NoDup_nil _) eq_refl (fun _ => eq_refl))
    as (Hnd & Htot & Hcount).
  set (t := fold_left tallyMember (getRosterMembers roster) (mkRosterTally [] 0 0 0)) in *.
  pose proof (sortByCount_perm (rt_ratingDistribution t)) as Hsort.
  split; [exact Hlen|]. split; [|split; [|split]].
  - rewrite (countTotal_perm _ _ Hsort), Htot. cbn [app]. now rewrite Hlen.
  - apply (Permutation.Permutation_NoDup (Permutation_sym (Permutation_map fst Hsort))).
    exact Hnd.
  - intros rating n. cbn [app] in Hcount. split.
    + intros Hin. apply (Permutation_in _ Hsort) in Hin.
      apply (getCount_In _ _ _ Hnd) in Hin. rewrite Hcount in Hin.
      destruct (Z.eqb_spec (ratingCount rating (getRosterMembers roster)) 0);
        [discriminate|].
      injection Hin as <-. split; [reflexivity|]. unfold ratingCount in *. lia.
    + intros [-> Hpos]. apply (Permutation_in _ (Permutation_sym Hsort)).
      apply (getCount_In _ _ _ Hnd). rewrite Hcount.
      destruct (Z.eqb_spec (ratingCount rating (getRosterMembers roster)) 0);
        [lia|reflexivity].
  - apply sortByCount_descending.
Qed.

(** X21. For a whole, non-negative number of minutes whose seconds,
    [totalMinutes * 60], stay below 2^53 (the range in which the product of
    the source is exact), the duration text of the roster statistics is the
    hours (the minutes divided by 60, padded to three digits), the minutes
    left over (padded to two digits) and a seconds field that reads 00. *)
Theorem duration_text_has_no_seconds (totalMinutes : Z) :
  0 <= totalMinutes ->
  totalMinutes * 60 < 2 ^ 53 ->
  formatHoursMinutesSeconds totalMinutes =
  padStart 3 (numberToString (totalMinutes / 60)) +:+ ":" +:+
  padStart 2 (numberToString (totalMinutes mod 60)) +:+ ":00".
Proof.
  intros Hpos _. unfold formatHoursMinutesSeconds. cbv zeta.
  assert (Hh : totalMinutes * 60 / 3600 = totalMinutes / 60).
  { change 3600 with (60 * 60). now rewrite Z.div_mul_cancel_r by lia. }
  assert (Hm : Z.rem (totalMinutes * 60) 3600 / 60 = totalMinutes mod 60).
  { rewrite Z.rem_mod_nonneg by lia. change 3600 with (60 * 60).
    rewrite Z.mul_mod_distr_r by lia. now rewrite Z.div_mul by lia. }
  assert (Hs : Z.rem (totalMinutes * 60) 60 = 0) by (apply Z.rem_mul; lia).
  rewrite Hh, Hm, Hs. reflexivity.
Qed.

Lemma duration_text_has_no_seconds_witness :
  formatHoursMinutesSeconds 125 =
  padStart 3 (numberToString (125 / 60)) +:+ ":" +:+
  padStart 2 (numberToString (125 mod 60)) +:+ ":00".
Proof. apply (duration_text_has_no_seconds 125); [lia|reflexivity]. Defined.

(** ** The member detail *)

Lemma listedMinutes_acc l : forall a,
  fold_left (fun sum x => sum + ms_minutes x) l a = a + listedMinutes l.
Proof.
  unfold listedMinutes. induction l as [|x l IH]; intros a; cbn; [lia|].
  rewrite IH, (IH (0 + ms_minutes x)). lia.
Qed.

Lemma listedMinutes_snoc l x : listedMinutes (l ++ [x]) = listedMinutes l + ms_minutes x.
Proof.
  unfold listedMinutes at 1. rewrite fold_left_app. cbn. reflexivity.
Qed.

Lemma listedMinutes_rows (f : ControllerSessionRow -> MemberSession) rows :
  (forall r, ms_minutes (f r) = cr_minutes r) ->
  forall a, fold_left (fun sum r => sum + cr_minutes r) rows a =
            a + listedMinutes (map f rows).
Proof.
  intros Hf. induction rows as [|r rows IH]; intros a; cbn [fold_left map].
  - unfold listedMinutes. cbn. lia.
  - rewrite IH. unfold listedMinutes at 2. cbn [fold_left].
    rewrite listedMinutes_acc, Hf. lia.
Qed.

(** X22. In the member detail the total of minutes is the sum of the minutes
    of the listed sessions, and no session taken from the cache or from the
    open sessions repeats a database session of the list: a listed session
    that is not from the database never has the callsign and start time of
    a listed database session. *)
Theorem member_detail_total_matches_listing db history active now cidNum :
  let sessions := fst (memberSessionTotals db history active now cidNum) in
  let totalMinutes := snd (memberSessionTotals db history active now cidNum) in
  totalMinutes = listedMinutes sessions /\
  (forall x y, In x sessions -> In y sessions ->
     ms_source x = FromDatabase -> ms_source y <> FromDatabase ->
     memberSessionId (ms_callsign x) (ms_startTime x) <>
     memberSessionId (ms_callsign y) (ms_startTime y)).
Proof.
  cbv zeta. unfold memberSessionTotals.
  set (dbSessions := match db with Some d => _ | None => [] end).
  set (toListed := fun r : ControllerSessionRow => mkMemberSession _ _ _ _ _ _ FromDatabase).
  set (sessions0 := map toListed dbSessions).
  set (cacheIds := list_to_set _ : gset string).
  set (P := fun st : list MemberSession * Z =>
    snd st = listedMinutes (fst st) /\
    exists extra, fst st = sessions0 ++ extra /\
      forall y, In y extra -> ms_source y <> FromDatabase /\
        memberSessionId (ms_callsign y) (ms_startTime y) ∉ cacheIds).
  assert (H0 : P (sessions0, fold_left (fun sum r => sum + cr_minutes r) dbSessions 0)).
  { split; cbn [fst snd].
    - subst sessions0. now rewrite (listedMinutes_rows toListed).
    - exists []. split; [now rewrite app_nil_r|intros y []]. }
  assert (Hpush : forall st y, P st -> ms_source y <> FromDatabase ->
    memberSessionId (ms_callsign y) (ms_startTime y) ∉ cacheIds ->
    P (fst st ++ [y], snd st + ms_minutes y)).
  { intros st y [Hsum (extra & Hext & Hall)] Hsrc Hid. split; cbn [fst snd].
    - now rewrite listedMinutes_snoc, Hsum.
    - exists (extra ++ [y]). split; [now rewrite Hext, app_assoc|].
      intros z Hz. apply in_app_iff in Hz as [Hz|[<-|[]]]; [now apply Hall|now split]. }
  assert (H1 : forall l st, P st -> P (fold_left (fun st h =>
      if bool_decide (memberSessionId (hs_callsign h) (hs_startTime h) ∈ cacheIds) then st
      else (fst st ++ [mkMemberSession (hs_callsign h) (hs_date h) (hs_startTime h)
                         (hs_endTime h) (hs_durationMinutes h) None FromCache],
            snd st + hs_durationMinutes h)) l st)).
  { induction l as [|h l IH]; intros st Hst; cbn [fold_left]; [exact Hst|].
    apply IH. destruct (bool_decide_reflect
      (memberSessionId (hs_callsign h) (hs_startTime h) ∈ cacheIds)) as [Hin|Hout];
      [exact Hst|].
    apply (Hpush st (mkMemberSession (hs_callsign h) (hs_date h) (hs_startTime h)
                       (hs_endTime h) (hs_durationMinutes h) None FromCache) Hst);
      [discriminate|exact Hout]. }
  assert (H2 : forall l st, P st -> P (fold_left (fun st session =>
      if isController (cs_type session) && (cs_cid session =? cidNum) then
        if bool_decide (memberSessionId (cs_callsign session) (cs_startTime session) ∈ cacheIds)
        then st
        else (fst st ++ [mkMemberSession (cs_callsign session)
                           (Js.slice0 10 (Js.toISOString (cs_startTime session)))
                           (cs_startTime session) now
                           (Js.roundMinutes (now - cs_startTime session)) None FromActive],
              snd st + Js.roundMinutes (now - cs_startTime session))
      else st) l st)).
  { induction l as [|c l IH]; intros st Hst; cbn [fold_left]; [exact Hst|].
    apply IH. destruct (isController (cs_type c) && (cs_cid c =? cidNum)); [|exact Hst].
    destruct (bool_decide_reflect
      (memberSessionId (cs_callsign c) (cs_startTime c) ∈ cacheIds)) as [Hin|Hout];
      [exact Hst|].
    apply (Hpush st (mkMemberSession (cs_callsign c)
                       (Js.slice0 10 (Js.toISOString (cs_startTime c)))
                       (cs_startTime c) now (Js.roundMinutes (now - cs_startTime c))
                       None FromActive) Hst); [discriminate|exact Hout]. }
  match goal with |- snd ?r = listedMinutes (fst ?r) /\ _ =>
    assert (HP : P r) by (apply H2, H1, H0); set (res := r) in * end.
  destruct HP as [Hsum (extra & Hext & Hall)]. split; [exact Hsum|].
  intros x y Hx Hy Hsx Hsy. rewrite Hext in Hx, Hy.
  apply in_app_iff in Hx as [Hx|Hx]; [|now destruct (proj1 (Hall x Hx))].
  apply in_app_iff in Hy as [Hy|Hy].
  - subst sessions0. apply in_map_iff in Hy as (r & <- & _). now destruct Hsy.
  - intros Heq. apply (proj2 (Hall y Hy)). rewrite <- Heq. subst cacheIds.
    apply elem_of_list_to_set, list_elem_of_In, in_map_iff. now exists x.
Qed.

(** ** The case of letters in the database search for the last callsign *)

(** C7. At a concrete roster, cache and database the last callsign is
    overwritten with an ATIS callsign.  The ingest script accepts the feed
    callsign [opkc_atis] and writes its closed session to the controller
    table as it is.  The member of that session, whose last callsign is
    [OPKC_TWR] and who has no controller session in the open sessions or in
    the history, is then seen live as [OPKC_ATIS]: the search for the last
    callsign that is no ATIS position reaches the database, whose filter
    compares [_ATIS] in the case of the letters as they are, gets the row
    [opkc_atis], and [updateMemberFromLive] records it as the last callsign,
    although the test of the program for an ATIS position, which reads the
    callsign in upper case, holds of it. *)
Theorem lowercase_atis_row_becomes_last_callsign :
  isPkController "opkc_atis" = true /\
  fst (closeStale t0 [lowerAtisOpenRow]) = [InsertController lowerAtisRow] /\
  isAtis "OPKC_ATIS" = true /\
  isAtis "opkc_atis" = true /\
  mi_lastCallsign ayesha = Some "OPKC_TWR" /\
  findLastNonAtisCallsign (sessionCache emptyStore) (historyCache emptyStore)
    (Some lowerAtisDb) 1400001 = Some "opkc_atis" /\
  updateMemberFromLive sampleRoster emptyStore (Some lowerAtisDb) None t0 1400001
    "Ayesha Khan" (Some "OPKC_ATIS") !! 1400001 =
  Some (setLastCallsign "opkc_atis" (setLastSeen t0 ayesha)).
Proof. repeat split; vm_compute; reflexivity. Qed.

(** ** The sessions that the synchroniser keeps *)




